(** * Bybit P2P synchronisation service: shallow embedding

    The development follows the TypeScript sources:
    - [Js]               the runtime builtins the code relies on (truthiness,
                         [parseInt], [parseFloat], numbers in template
                         literals);
    - [Bybit]            the exchange client [BybitP2PParser] (bybit.ts);
    - [Phone]            [extractPhoneNumbers] of the service class;
    - [SyncService]      [syncUserTransactions] (sync-service.ts);
    - [Chat]             [getChatMessages];
    - [CabinetService]   [syncCabinetTransactions], the transformation of a
                         cabinet order into a row, and
                         [processUnprocessedCabinetTransactions];
    - [OrderInfoService] [processUnprocessedTransactions] in the version
                         that records phone numbers in [bybitOrderInfo];
    - [Service]          [start], [stop], [connectWithRetry] and
                         [syncAllUsers] (sync-service.ts);
    - [Cabinets]         [syncAllBybitCabinets];
    - [Summary]          the counts of [processTransactions] (bybit.ts);
    - [Paged]            the [getAndProcessAllOrders] that follows the pages;
    - [Script]           [processCompletedTransactions] (index.ts);
    - [SyncAttempt]      [syncUserTransactions] once more, with every write
                         of the log file able to fail.

    Asynchronous calls are awaited one after the other in the sources, so a
    promise is modelled by its outcome: a value, or a thrown error carrying
    its message.  The store is a table in memory whose reads and writes
    succeed; what the exchange answers and which writes of the log file
    fail are inputs of a run: [SyncService] lets the log file fail at four
    places of the [try] block, [SyncAttempt] at every write; elsewhere the
    writes of the log file are taken to succeed.  The division by which
    [syncTime] turns nanoseconds into milliseconds is followed in doubles,
    rounded to nearest, ties to even. *)

From Stdlib Require Import ZArith NArith QArith List String Ascii Bool Lia.
From Stdlib Require Import DecimalString.
Import ListNotations.

Open Scope string_scope.
Open Scope list_scope.
Open Scope Z_scope.

(** ** Outcomes of fallible calls *)

(** A call either returns or throws [new Error(message)]. *)
Inductive res (A : Type) : Type :=
| Ok (a : A)
| Throw (message : string).
Arguments Ok {A} a.
Arguments Throw {A} message.

(** What the HTTP library gives back: a rejected promise (transport error or
    non-2xx answer) or the decoded body. *)
Inductive http (A : Type) : Type :=
| Rejected (message : string)
| Replied (data : A).
Arguments Rejected {A} message.
Arguments Replied {A} data.

Module Js.

(** [x || d] on an optional string field: a missing field and the empty
    string are both falsy. *)
Definition truthy (x : option string) : bool :=
  match x with
  | Some s => negb (String.eqb s "")
  | None => false
  end.

Definition or_else (x : option string) (d : string) : string :=
  match x with
  | Some s => if String.eqb s "" then d else s
  | None => d
  end.

(** [`${n}`] for a non-negative integer counter. *)
Definition show_nat (n : nat) : string :=
  NilEmpty.string_of_uint (Nat.to_uint n).

(** *** Numbers

    A JavaScript number is kept as the exact rational it denotes, with
    [NaN] and the two infinities apart; binary rounding and the sign of
    zero are not represented. *)
Inductive number : Type :=
| NaN
| Infinity (negative : bool)
| Num (q : Q).

Definition mul (a b : number) : number :=
  match a, b with
  | NaN, _ | _, NaN => NaN
  | Num x, Num y => Num (Qred (x * y))
  | Infinity s, Infinity t => Infinity (xorb s t)
  | Infinity s, Num y | Num y, Infinity s =>
      match Qnum y with
      | Z0 => NaN
      | Zpos _ => Infinity s
      | Zneg _ => Infinity (negb s)
      end
  end.

Definition code (c : ascii) : N := N_of_ascii c.

Definition is_digit (c : ascii) : bool :=
  ((48 <=? code c) && (code c <=? 57))%N.

Definition digit_value (c : ascii) : Z := Z.of_N (code c) - 48.

(** White space that may precede a numeric literal (the ASCII part of
    [StrWhiteSpaceChar]: tab, line feed, vertical tab, form feed, carriage
    return, space). *)
Definition is_blank (c : ascii) : bool :=
  ((9 <=? code c) && (code c <=? 13) || (code c =? 32))%N.

Fixpoint skip_blanks (s : string) : string :=
  match s with
  | String c r => if is_blank c then skip_blanks r else s
  | EmptyString => s
  end.

(** Leading decimal digits: their value on top of [acc], how many there
    were, and the rest of the text. *)
Fixpoint digits (s : string) (acc : Z) (count : nat) : Z * nat * string :=
  match s with
  | String c r =>
      if is_digit c then digits r (10 * acc + digit_value c) (S count)
      else (acc, count, s)
  | EmptyString => (acc, count, s)
  end.

Definition sign_of (s : string) : bool * string :=
  match s with
  | String "-" r => (true, r)
  | String "+" r => (false, r)
  | _ => (false, s)
  end.

Definition hex_value (c : ascii) : option Z :=
  let n := code c in
  if ((48 <=? n) && (n <=? 57))%N then Some (Z.of_N n - 48)
  else if ((97 <=? n) && (n <=? 102))%N then Some (Z.of_N n - 87)
  else if ((65 <=? n) && (n <=? 70))%N then Some (Z.of_N n - 55)
  else None.

Fixpoint hex_digits (s : string) (acc : Z) (count : nat) : Z * nat :=
  match s with
  | String c r =>
      match hex_value c with
      | Some v => hex_digits r (16 * acc + v) (S count)
      | None => (acc, count)
      end
  | EmptyString => (acc, count)
  end.

(** [parseInt(s)] when [radix10 = false] and [parseInt(s, 10)] otherwise;
    [None] is [NaN].  Without a radix a [0x] prefix selects base 16. *)
Definition parseInt (radix10 : bool) (s : string) : option Z :=
  let '(neg, r) := sign_of (skip_blanks s) in
  let signed (v : Z) := if neg then - v else v in
  let decimal :=
    let '(v, n, _) := digits r 0 O in
    match n with O => None | _ => Some (signed v) end in
  if radix10 then decimal
  else
    match r with
    | String "0" (String x h) =>
        if (Ascii.eqb x "x" || Ascii.eqb x "X")%bool then
          let '(v, n) := hex_digits h 0 O in
          match n with O => None | _ => Some (signed v) end
        else decimal
    | _ => decimal
    end.

(** The exponent part [e[+-]digits] of a decimal literal, when complete. *)
Definition exponent (s : string) : Z :=
  match s with
  | String c r =>
      if (Ascii.eqb c "e" || Ascii.eqb c "E")%bool then
        let '(neg, d) := sign_of r in
        let '(v, n, _) := digits d 0 O in
        match n with O => 0 | _ => if neg then - v else v end
      else 0
  | EmptyString => 0
  end.

Definition pow10 (e : Z) : Q :=
  match e with
  | Zneg p => 1 # (10 ^ p)
  | _ => inject_Z (10 ^ e)
  end.

(** [parseFloat(s)]: the longest prefix that is a [StrDecimalLiteral]. *)
Definition parseFloat (s : string) : number :=
  let '(neg, r) := sign_of (skip_blanks s) in
  if String.prefix "Infinity" r then Infinity neg
  else
    let '(ip, n1, r1) := digits r 0 O in
    let '(m, n2, r2) :=
      match r1 with
      | String "." f => digits f ip O
      | _ => (ip, O, r1)
      end in
    match (n1 + n2)%nat with
    | O => NaN
    | _ =>
        let e := exponent r2 - Z.of_nat n2 in
        let q := (inject_Z m * pow10 e)%Q in
        Num (Qred (if neg then - q else q))
    end.

(** [new Date(ms)] and [new Date()] are kept as epoch milliseconds. *)
Definition Date : Type := Z.

(** *** Doubles

    The doubles [syncTime] computes with are kept as an integer times a
    power of two.  Rounding is to the nearest double on 53 bits, ties to
    even; the overflow to [Infinity] and the subnormal doubles, both out of
    reach of a clock reading, are not represented. *)
Record double : Type := {
  significand : Z;
  exponent2 : Z       (* the value is [significand * 2 ^ exponent2] *)
}.

(** The integer part of the binary logarithm of [a / b], for positive [a]
    and [b]. *)
Definition binade (a b : Z) : Z :=
  let e := Z.log2 a - Z.log2 b in
  if (if 0 <=? e then b * 2 ^ e <=? a else b <=? a * 2 ^ (- e)) then e else e - 1.

(** The integer nearest to [a / b], the even one of two that are as near. *)
Definition nearest (a b : Z) : Z :=
  let n := a / b in
  let r := a mod b in
  if 2 * r <? b then n
  else if b <? 2 * r then n + 1
  else if Z.even n then n else n + 1.

(** The double nearest to [a / b], for [a >= 0] and [b > 0]. *)
Definition rounded (a b : Z) : double :=
  if a =? 0 then {| significand := 0; exponent2 := 0 |}
  else
    let k := binade a b - 52 in
    {| significand := if 0 <=? k then nearest a (b * 2 ^ k)
                      else nearest (a * 2 ^ (- k)) b;
       exponent2 := k |}.

Definition negated (d : double) : double :=
  {| significand := - significand d; exponent2 := exponent2 d |}.

(** [Number(s)] for the decimal text of an integer. *)
Definition ofInteger (z : Z) : double :=
  if z <? 0 then negated (rounded (- z) 1) else rounded z 1.

(** [d / c] for a positive integer [c] that is a double itself. *)
Definition divide (d : double) (c : Z) : double :=
  let quotient (m : Z) : double :=
    if 0 <=? exponent2 d then rounded (m * 2 ^ exponent2 d) c
    else rounded m (c * 2 ^ (- exponent2 d)) in
  if significand d <? 0 then negated (quotient (- significand d))
  else quotient (significand d).

(** [Math.floor(d)] *)
Definition floor (d : double) : Z :=
  if 0 <=? exponent2 d then significand d * 2 ^ exponent2 d
  else significand d / 2 ^ (- exponent2 d).

End Js.

(** ** bybit.ts *)

Module Bybit.

(** One P2P order as the exchange sends it.  Only the fields the sources
    read are kept; optional text fields are [None] when absent. *)
Record Order : Type := {
  id : option string;
  orderId : option string;
  side : Z;
  status : Z;
  createDate : option string;
  amount : option string;
  price : option string;
  notifyTokenQuantity : option string;
  targetNickName : option string;
  tokenId : option string
}.

Record P2POrderListParams : Type := {
  page : nat;
  size : nat;
  p_tokenId : option string;
  p_side : option (list Z);
  p_status : option (list Z);
  beginTime : option Z;
  endTime : option Z
}.

(** A chat message.  Its text is a sequence of UTF-16 code units, which is
    what the regular expressions of the phone extractor read.  In the
    array the exchange returns, an entry may also be [null]: [None] in a
    [list (option ChatMessage)]. *)
Record ChatMessage : Type := {
  contentType : string;
  message : option (list N)
}.

Record ApiResponse : Type := {
  ret_code : Z;
  ret_msg : option string;
  items : option (list Order)     (* result?.items *)
}.

(** The decoded bodies of the three endpoints the sources talk to. *)
Inductive Body : Type :=
| TimeBody (timeNano : option Z)
| OrdersBody (r : ApiResponse)
| ChatBody (code : Z) (result : option (list (option ChatMessage))).

Inductive Request : Type :=
| GetServerTime                                   (* GET /v5/market/time *)
| PostOrderList (params : P2POrderListParams)     (* POST /v5/p2p/order/simplifyList *)
| PostChatList (orderId : option string).         (* POST /v5/p2p/order/message/listpage *)

(** The network: what each request would be answered with. *)
Definition Network : Type := Request -> http Body.

Record ProcessedData : Type := {
  totalCount : nat;
  transactions : list Order
}.

Record ProcessResult : Type := {
  success : bool;
  data : option ProcessedData;
  r_message : option string
}.

Record BybitP2PParser : Type := {
  apiKey : option string;
  apiSecret : option string;
  timeOffset : Z;
  recvWindow : Z;
  timeSyncComplete : bool
}.

Definition new (key secret : option string) : BybitP2PParser :=
  {| apiKey := key; apiSecret := secret;
     timeOffset := 0; recvWindow := 5000; timeSyncComplete := false |}.

Definition set_timeOffset (v : Z) (p : BybitP2PParser) : BybitP2PParser :=
  {| apiKey := apiKey p; apiSecret := apiSecret p;
     timeOffset := v; recvWindow := recvWindow p;
     timeSyncComplete := timeSyncComplete p |}.

Definition set_timeSyncComplete (v : bool) (p : BybitP2PParser) : BybitP2PParser :=
  {| apiKey := apiKey p; apiSecret := apiSecret p;
     timeOffset := timeOffset p; recvWindow := recvWindow p;
     timeSyncComplete := v |}.

(** An operation of the client: it reads the network, may change the
    parser, and leaves the list of requests it really sent. *)
Record Ran (A : Type) : Type := {
  outcome : res A;
  parser : BybitP2PParser;
  sent : list Request
}.
Arguments outcome {A} _.
Arguments parser {A} _.
Arguments sent {A} _.

(** [response.data && response.data.result && response.data.result.timeNano] *)
Definition timeNano_of (b : Body) : option Z :=
  match b with
  | TimeBody t => t
  | _ => None
  end.

(** [syncTime]: the [try] block, then the [catch] that logs and resets
    the offset.  [now] is [Date.now()]. *)
Definition syncTime (net : Network) (now : Z) (p : BybitP2PParser) : Ran unit :=
  let attempt : res unit * BybitP2PParser :=
    match net GetServerTime with
    | Rejected m => (Throw m, p)
    | Replied b =>
        match timeNano_of b with
        | Some timeNano =>
            let serverTime := Js.floor (Js.divide (Js.ofInteger timeNano) 1000000) in
            (Ok tt, set_timeSyncComplete true (set_timeOffset (serverTime - now) p))
        | None => (Ok tt, p)
        end
    end in
  match attempt with
  | (Throw _, p') =>
      {| outcome := Ok tt; parser := set_timeOffset 0 p'; sent := [GetServerTime] |}
  | (Ok u, p') =>
      {| outcome := Ok u; parser := p'; sent := [GetServerTime] |}
  end.

Definition getTimestamp (now : Z) (p : BybitP2PParser) : Z := now + timeOffset p.

Definition syncRequired : string :=
  "Time synchronization required before making API requests. Call syncTime() first.".

(** [makeRequest]: the guard is outside the [try]; inside, a rejected
    request is logged and thrown again. *)
Definition makeRequest (net : Network) (rq : Request) (p : BybitP2PParser) : Ran Body :=
  if negb (timeSyncComplete p) then
    {| outcome := Throw syncRequired; parser := p; sent := [] |}
  else
    match net rq with
    | Rejected m => {| outcome := Throw m; parser := p; sent := [rq] |}
    | Replied b => {| outcome := Ok b; parser := p; sent := [rq] |}
    end.

(** [getAllOrders]: optional filters are added only when truthy
    ([0] and the empty string are not; an empty array is). *)
Definition getAllOrders_params (pg sz : nat) (tok : option string)
    (sd st : option (list Z)) (bt et : option Z) : P2POrderListParams :=
  {| page := pg; size := sz;
     p_tokenId := if Js.truthy tok then tok else None;
     p_side := sd;
     p_status := st;
     beginTime := match bt with Some 0 => None | _ => bt end;
     endTime := match et with Some 0 => None | _ => et end |}.

Definition getAllOrders (net : Network) (pg sz : nat) (tok : option string)
    (sd st : option (list Z)) (bt et : option Z) (p : BybitP2PParser) : Ran Body :=
  makeRequest net (PostOrderList (getAllOrders_params pg sz tok sd st bt et)) p.

(** [processTransactions] keeps the array it is given; the buy/sell volume
    aggregates it also computes are read by no caller in the service and
    are left out of [ProcessedData]. *)
Definition processTransactions (txs : list Order) : ProcessedData :=
  match txs with
  | [] => {| totalCount := 0%nat; transactions := [] |}
  | _ => {| totalCount := List.length txs; transactions := txs |}
  end.

Definition failedToFetch : string := "Failed to fetch P2P orders".

(** A body that is not an order list has no [ret_code]: [undefined === 0]
    is false and no [ret_msg] is found. *)
Definition processBody (b : Body) : ProcessResult :=
  match b with
  | OrdersBody r =>
      if ret_code r =? 0 then
        {| success := true;
           data := Some (processTransactions
                           (match items r with Some l => l | None => [] end));
           r_message := None |}
      else
        {| success := false; data := None;
           r_message := Some (Js.or_else (ret_msg r) failedToFetch) |}
  | _ => {| success := false; data := None; r_message := Some failedToFetch |}
  end.

(** [getAndProcessAllOrders]: everything is inside one [try]; the [catch]
    turns a thrown error into an unsuccessful result. *)
Definition getAndProcessAllOrders (net : Network) (pg sz : nat) (tok : option string)
    (sd st : option (list Z)) (bt et : option Z) (p : BybitP2PParser)
    : Ran ProcessResult :=
  let r := getAllOrders net pg sz tok sd st bt et p in
  match outcome r with
  | Ok b => {| outcome := Ok (processBody b); parser := parser r; sent := sent r |}
  | Throw m =>
      {| outcome := Ok {| success := false; data := None; r_message := Some m |};
         parser := parser r; sent := sent r |}
  end.

(** [p2pRequest]: an unsynchronised parser first runs [syncTime], then the
    request is signed and sent whatever the flag says afterwards; a
    rejected request is logged and thrown again. *)
Definition p2pRequest (net : Network) (now : Z) (rq : Request) (p : BybitP2PParser)
    : Ran Body :=
  let s : Ran unit :=
    if negb (timeSyncComplete p) then syncTime net now p
    else {| outcome := Ok tt; parser := p; sent := [] |} in
  match outcome s with
  | Throw m => {| outcome := Throw m; parser := parser s; sent := sent s |}
  | Ok _ =>
      match net rq with
      | Rejected m =>
          {| outcome := Throw m; parser := parser s; sent := sent s ++ [rq] |}
      | Replied b =>
          {| outcome := Ok b; parser := parser s; sent := sent s ++ [rq] |}
      end
  end.

(** The status [switch] of [exportToMatchingFormat]. *)
Definition exportToMatchingFormat_status (st : Z) : string :=
  if st =? 5 then "Waiting for chain"
  else if st =? 10 then "Waiting for payment"
  else if st =? 20 then "Waiting for release"
  else if st =? 30 then "Appealing"
  else if st =? 40 then "Cancelled"
  else if st =? 50 then "Completed"
  else if st =? 60 then "Paying"
  else if st =? 70 then "Payment failed"
  else if st =? 80 then "Exception cancelled"
  else if st =? 90 then "Waiting selection"
  else if st =? 100 then "Objecting"
  else if st =? 110 then "Waiting objection"
  else "Unknown".

(** [tx.side === 0 ? 'Buy' : 'Sell'] of [exportToMatchingFormat]. *)
Definition exportToMatchingFormat_type (sd : Z) : string :=
  if sd =? 0 then "Buy" else "Sell".

(** The states a parser goes through: built by the constructor, then
    changed by [syncTime] only, called directly or from [p2pRequest]. *)
Inductive reachable : BybitP2PParser -> Prop :=
| reach_new : forall key secret, reachable (new key secret)
| reach_syncTime : forall net now p,
    reachable p -> reachable (parser (syncTime net now p))
| reach_p2pRequest : forall net now rq p,
    reachable p -> reachable (parser (p2pRequest net now rq p)).

(** A server-time request that does not synchronise the clock: it is
    rejected, or its answer carries no [timeNano]. *)
Definition timeRequestFailed (net : Network) : bool :=
  match net GetServerTime with
  | Rejected _ => true
  | Replied b =>
      match timeNano_of b with
      | Some _ => false
      | None => true
      end
  end.

(** Failing fast on an unsynchronised clock: the dedicated error, and no
    request sent. *)
Definition failsFast {A} (r : Ran A) : Prop :=
  outcome r = Throw syncRequired /\ sent r = [].

End Bybit.

(** ** The phone extractor ([extractPhoneNumbers] of the service class) *)

Module Phone.

Definition text : Type := list N.

(** Code units of an ASCII literal. *)
Fixpoint lit (s : string) : text :=
  match s with
  | String c r => N_of_ascii c :: lit r
  | EmptyString => []
  end.

(** [\d] *)
Definition is_digit (c : N) : bool := ((48 <=? c) && (c <=? 57))%N.

(** [\s]: the white space and line terminator code units of ECMAScript. *)
Definition is_space (c : N) : bool :=
  (((9 <=? c) && (c <=? 13)) || (c =? 32) || (c =? 160) || (c =? 5760)
   || ((8192 <=? c) && (c <=? 8202)) || (c =? 8232) || (c =? 8233)
   || (c =? 8239) || (c =? 8287) || (c =? 12288) || (c =? 65279))%N.

(** The optional one-character pieces of the patterns. *)
Inductive cls : Type :=
| Space        (* \s?    *)
| SpaceDash    (* [\s-]? *)
| LParen       (* \(?    *)
| RParen.      (* \)?    *)

Definition in_cls (k : cls) (c : N) : bool :=
  match k with
  | Space => is_space c
  | SpaceDash => (is_space c || (c =? 45))%N
  | LParen => (c =? 40)%N
  | RParen => (c =? 41)%N
  end.

(** A pattern is a sequence of: a literal character, an optional
    character of a class (greedy), a capture group of exactly [n] digits. *)
Inductive item : Type :=
| Lit (c : N)
| Opt (k : cls)
| Group (n : nat).

Definition plus : N := 43.
Definition seven : N := 55.
Definition eight : N := 56.

(** [phonePatterns], in the order of the source. *)
Definition phonePatterns : list (list item) :=
  [ [Lit plus; Lit seven; Opt Space; Opt LParen; Group 3; Opt RParen; Opt SpaceDash;
     Group 3; Opt SpaceDash; Group 2; Opt SpaceDash; Group 2];
    [Lit plus; Lit seven; Opt Space; Group 3; Group 3; Group 2; Group 2];
    [Lit eight; Opt Space; Opt LParen; Group 3; Opt RParen; Opt SpaceDash;
     Group 3; Opt SpaceDash; Group 2; Opt SpaceDash; Group 2];
    [Lit eight; Opt Space; Group 3; Group 3; Group 2; Group 2];
    [Group 3; Opt SpaceDash; Group 3; Opt SpaceDash; Group 2; Opt SpaceDash; Group 2] ].

(** The first [n] code units when all of them are digits, and the rest. *)
Fixpoint take_digits (n : nat) (s : text) : option (text * text) :=
  match n with
  | O => Some ([], s)
  | S k =>
      match s with
      | c :: r =>
          if is_digit c then
            match take_digits k r with
            | Some (d, rest) => Some (c :: d, rest)
            | None => None
            end
          else None
      | [] => None
      end
  end.

(** Backtracking match of a pattern at the start of [s]: the captured
    groups and the number of code units matched.  An optional piece is
    tried with its character first and without it next. *)
Fixpoint match_here (p : list item) (s : text) : option (list text * nat) :=
  match p with
  | [] => Some ([], O)
  | Lit c :: q =>
      match s with
      | x :: r =>
          if (x =? c)%N then
            match match_here q r with
            | Some (g, n) => Some (g, S n)
            | None => None
            end
          else None
      | [] => None
      end
  | Opt k :: q =>
      match s with
      | x :: r =>
          if in_cls k x then
            match match_here q r with
            | Some (g, n) => Some (g, S n)
            | None => match_here q s
            end
          else match_here q s
      | [] => match_here q s
      end
  | Group n :: q =>
      match take_digits n s with
      | Some (d, r) =>
          match match_here q r with
          | Some (g, m) => Some (d :: g, (n + m)%nat)
          | None => None
          end
      | None => None
      end
  end.

(** One result of [pattern.exec]: [match[0]] and the groups. *)
Record Match : Type := { whole : text; captured : list text }.

(** The [while ((match = pattern.exec(messageText)) !== null)] loop of a
    global pattern: the leftmost match from [lastIndex] on, then again
    from its end.  [skip] counts the code units still covered by the
    previous match.  Every pattern needs ten digits, so no match is empty
    and none starts at the end of the text. *)
Fixpoint exec_all (p : list item) (skip : nat) (s : text) : list Match :=
  match s with
  | [] => []
  | _ :: r =>
      match skip with
      | S k => exec_all p k r
      | O =>
          match match_here p s with
          | Some (g, n) =>
              {| whole := firstn n s; captured := g |} :: exec_all p (Nat.pred n) r
          | None => exec_all p O r
          end
      end
  end.

Fixpoint startsWith (pre s : text) : bool :=
  match pre, s with
  | [], _ => true
  | a :: pre', b :: s' => ((a =? b)%N && startsWith pre' s')%bool
  | _ :: _, [] => false
  end.

Definition group (m : Match) (i : nat) : text := nth i (captured m) [].

(** The three branches of the source build the same text. *)
Definition phoneNumberOf (m : Match) : text :=
  let joined := lit "+7" ++ group m 0 ++ group m 1 ++ group m 2 ++ group m 3 in
  let phoneNumber :=
    if startsWith (lit "+7") (whole m) then joined
    else if startsWith (lit "8") (whole m) then joined
    else joined in
  (* phoneNumber.replace(/[^\d+]/g, '') *)
  filter (fun c => (is_digit c || (c =? plus)%N)%bool) phoneNumber.

Definition text_eqb (a b : text) : bool :=
  if list_eq_dec N.eq_dec a b then true else false.

Definition mem (x : text) (l : list text) : bool := existsb (text_eqb x) l.

(** [Set.prototype.add] on a set kept in insertion order. *)
Definition add (x : text) (set : list text) : list text :=
  if mem x set then set else set ++ [x].

Definition addMatch (set : list text) (m : Match) : list text :=
  let phoneNumber := phoneNumberOf m in
  if (List.length phoneNumber =? 12)%nat then add phoneNumber set else set.

Definition scanPattern (messageText : text) (set : list text) (p : list item)
    : list text :=
  fold_left addMatch (exec_all p O messageText) set.

Definition nullContentType : string :=
  "Cannot read properties of null (reading 'contentType')".

(** The body of the loop over the messages: only a message with
    [contentType === 'str'] and a truthy (non-empty) text is scanned, with
    every pattern in turn. *)
Definition scanMessage (message : Bybit.ChatMessage) (set : list text) : list text :=
  match Bybit.message message with
  | Some (c :: r) =>
      if String.eqb (Bybit.contentType message) "str"
      then fold_left (scanPattern (c :: r)) phonePatterns set
      else set
  | _ => set
  end.

(** The loop over the messages; reading [contentType] of a [null] entry
    throws a [TypeError]. *)
Fixpoint scanMessages (messages : list (option Bybit.ChatMessage)) (set : list text)
    : res (list text) :=
  match messages with
  | [] => Ok set
  | None :: _ => Throw nullContentType
  | Some message :: rest => scanMessages rest (scanMessage message set)
  end.

(** [extractPhoneNumbers]: [Array.from] of the set. *)
Definition extractPhoneNumbers (messages : list (option Bybit.ChatMessage))
    : res (list text) :=
  scanMessages messages [].

End Phone.

(** ** sync-service.ts: the per-user synchronisation *)

Module SyncService.

Record User : Type := {
  id : Z;
  bybitApiToken : option string;
  bybitApiSecret : option string
}.

(** A row of [bybitTransaction], with the columns [create] is given. *)
Record BybitTransaction : Type := {
  orderNo : string;
  counterparty : string;
  status : string;
  userId : Z;
  amount : Js.number;
  asset : string;
  dateTime : Js.Date;
  originalData : Bybit.Order;
  totalPrice : Js.number;
  type : string;
  unitPrice : Js.number;
  updatedAt : Js.Date
}.

(** The table, oldest row first; [create] appends. *)
Definition Table : Type := list BybitTransaction.

(** One [prisma.user.update] issued by [updateUserSyncStatus]. *)
Record StatusWrite : Type := {
  w_userId : Z;
  lastBybitSyncAt : Js.Date;
  lastBybitSyncStatus : string
}.

Inductive Strategy : Type :=
| TimeWindow      (* strategy 1: the last three days, pages of 20 *)
| NoTimeWindow.   (* strategy 2: no time bounds, pages of 10 *)

(** The [this.log] calls of the [try] block that lie outside the per-page
    and per-record handlers; a failed write of the log file at one of them
    reaches the outer [catch]. *)
Inductive LogSite : Type :=
| AtStrategy1     (* before the first page is asked for *)
| AtFallback      (* "no results with strategy 1, trying strategy 2" *)
| AtNoneFound     (* "no new transactions found" *)
| AtSaved.        (* "saved N new transactions" *)

(** What the surroundings answer during one run: the result of
    [parser.getAndProcessAllOrders] for each strategy and page, and the
    log sites that fail, with the error message. *)
Record Env : Type := {
  fetch : Strategy -> nat -> res Bybit.ProcessResult;
  logFails : LogSite -> option string
}.

(** State of the fetch phase: [allCompletedTransactions], [hasSuccess],
    and the calls of [getAndProcessAllOrders] made so far. *)
Record Fetched : Type := {
  allCompletedTransactions : list Bybit.Order;
  hasSuccess : bool;
  calls : list (Strategy * nat)
}.

Definition start : Fetched :=
  {| allCompletedTransactions := []; hasSuccess := false; calls := [] |}.

(** [result.success && result.data && result.data.transactions.length > 0],
    giving the transactions of the page. *)
Definition pageTransactions (result : Bybit.ProcessResult) : option (list Bybit.Order) :=
  if Bybit.success result then
    match Bybit.data result with
    | Some d =>
        match Bybit.transactions d with
        | [] => None
        | txs => Some txs
        end
    | None => None
    end
  else None.

(** [for (let page = ...; page <= 10; page++)] with [remaining] pages
    left: a page with data is appended and the loop goes on; an empty or
    failed page, or a thrown error, leaves the loop. *)
Fixpoint pages (ask : nat -> res Bybit.ProcessResult) (s : Strategy)
    (remaining page : nat) (st : Fetched) : Fetched :=
  match remaining with
  | O => st
  | S k =>
      let asked := calls st ++ [(s, page)] in
      match ask page with
      | Ok result =>
          match pageTransactions result with
          | Some txs =>
              pages ask s k (S page)
                {| allCompletedTransactions := allCompletedTransactions st ++ txs;
                   hasSuccess := true;
                   calls := asked |}
          | None =>
              {| allCompletedTransactions := allCompletedTransactions st;
                 hasSuccess := hasSuccess st; calls := asked |}
          end
      | Throw _ =>
          {| allCompletedTransactions := allCompletedTransactions st;
             hasSuccess := hasSuccess st; calls := asked |}
      end
  end.

Definition strategy1 (env : Env) : Fetched :=
  pages (fetch env TimeWindow) TimeWindow 10 1 start.

Definition strategy2 (env : Env) (st : Fetched) : Fetched :=
  pages (fetch env NoTimeWindow) NoTimeWindow 10 1 st.

(** [prisma.bybitTransaction.findFirst({ where: { orderNo, userId } })] *)
Definition findFirst (no : string) (uid : Z) (tbl : Table) : option BybitTransaction :=
  find (fun r => (String.eqb (orderNo r) no && (userId r =? uid))%bool) tbl.

Definition create (row : BybitTransaction) (tbl : Table) : Table := tbl ++ [row].

(** The row built for a transaction that passed the checks. *)
Definition toRow (now : Js.Date) (uid : Z) (no : string) (transaction : Bybit.Order)
    : BybitTransaction :=
  let dateTime :=
    match Js.parseInt false (Js.or_else (Bybit.createDate transaction) "0") with
    | Some timestamp => if 0 <? timestamp then timestamp else now
    | None => now
    end in
  let amount := Js.parseFloat (Js.or_else (Bybit.amount transaction) "0") in
  let unitPrice := Js.parseFloat (Js.or_else (Bybit.price transaction) "0") in
  let totalPrice := Js.mul amount unitPrice in
  {| orderNo := no;
     counterparty := Js.or_else (Bybit.targetNickName transaction) "Unknown";
     status := "Completed";
     userId := uid;
     amount := amount;
     asset := Js.or_else (Bybit.tokenId transaction) "USDT";
     dateTime := dateTime;
     originalData := transaction;
     totalPrice := totalPrice;
     type := "Sell";
     unitPrice := unitPrice;
     updatedAt := now |}.

(** One turn of the saving loop: the table and [savedCount] afterwards. *)
Definition saveOne (now : Js.Date) (uid : Z) (transaction : Bybit.Order)
    (tbl : Table) (savedCount : nat) : Table * nat :=
  if (negb (Bybit.side transaction =? 1) || negb (Bybit.status transaction =? 50))%bool
  then (tbl, savedCount)
  else
    let no := Js.or_else (Bybit.id transaction)
                (Js.or_else (Bybit.orderId transaction) "") in
    if String.eqb no "" then (tbl, savedCount)
    else
      match findFirst no uid tbl with
      | Some _ => (tbl, savedCount)
      | None => (create (toRow now uid no transaction) tbl, S savedCount)
      end.

Fixpoint saveAll (now : Js.Date) (uid : Z) (transactions : list Bybit.Order)
    (tbl : Table) (savedCount : nat) : Table * nat :=
  match transactions with
  | [] => (tbl, savedCount)
  | transaction :: rest =>
      let '(tbl', n) := saveOne now uid transaction tbl savedCount in
      saveAll now uid rest tbl' n
  end.

Definition updateUserSyncStatus (now : Js.Date) (uid : Z) (st : string) : StatusWrite :=
  {| w_userId := uid; lastBybitSyncAt := now; lastBybitSyncStatus := st |}.

Definition noneFound : string := "Новых транзакций не найдено".

Definition savedStatus (savedCount : nat) : string :=
  "Успешно. Сохранено " ++ Js.show_nat savedCount ++ " новых транзакций".

Definition errorStatus (message : string) : string := "Ошибка: " ++ message.

(** A run of the service on one user. *)
Record Run : Type := {
  table : Table;
  written : list StatusWrite;
  asked : list (Strategy * nat);
  saved : nat;
  thrown : option string
}.

Definition stopped (tbl : Table) (st : Fetched) (n : nat) (m : string) : Run :=
  {| table := tbl; written := []; asked := calls st; saved := n; thrown := Some m |}.

Definition finished (now : Js.Date) (uid : Z) (tbl : Table) (st : Fetched) (n : nat)
    (status : string) : Run :=
  {| table := tbl; written := [updateUserSyncStatus now uid status];
     asked := calls st; saved := n; thrown := None |}.

(** After the fetch phase: the two "nothing found" exits, then the saving
    loop and the success status. *)
Definition afterFetch (env : Env) (now : Js.Date) (uid : Z) (tbl : Table)
    (st : Fetched) : Run :=
  if negb (hasSuccess st) then
    match logFails env AtNoneFound with
    | Some m => stopped tbl st O m
    | None => finished now uid tbl st O noneFound
    end
  else if (List.length (allCompletedTransactions st) =? 0)%nat then
    match logFails env AtNoneFound with
    | Some m => stopped tbl st O m
    | None => finished now uid tbl st O noneFound
    end
  else
    let '(tbl', savedCount) := saveAll now uid (allCompletedTransactions st) tbl O in
    match logFails env AtSaved with
    | Some m => stopped tbl' st savedCount m
    | None => finished now uid tbl' st savedCount (savedStatus savedCount)
    end.

(** The [try] block of [syncUserTransactions]. *)
Definition tryBlock (env : Env) (now : Js.Date) (uid : Z) (tbl : Table) : Run :=
  match logFails env AtStrategy1 with
  | Some m => stopped tbl start O m
  | None =>
      let st1 := strategy1 env in
      if negb (hasSuccess st1) then
        match logFails env AtFallback with
        | Some m => stopped tbl st1 O m
        | None => afterFetch env now uid tbl (strategy2 env st1)
        end
      else afterFetch env now uid tbl st1
  end.

(** [syncUserTransactions]: the credential check, the [try] block and the
    outer [catch] that writes the error status. *)
Definition syncUserTransactions (env : Env) (now : Js.Date) (user : User) (tbl : Table)
    : Run :=
  if (negb (Js.truthy (bybitApiToken user)) || negb (Js.truthy (bybitApiSecret user)))%bool
  then {| table := tbl; written := []; asked := []; saved := O; thrown := None |}
  else
    let r := tryBlock env now (id user) tbl in
    match thrown r with
    | Some m =>
        {| table := table r;
           written := written r ++ [updateUserSyncStatus now (id user) (errorStatus m)];
           asked := asked r; saved := saved r; thrown := None |}
    | None => r
    end.

(** The [fetch] of a run against the exchange client: the parser is built
    from the user's keys and its clock synchronised first. *)
Definition completedStatus : list Z := [50].

Definition parserFetch (net : Bybit.Network) (now : Js.Date) (user : User)
    : Strategy -> nat -> res Bybit.ProcessResult :=
  let parser :=
    Bybit.parser (Bybit.syncTime net now
                    (Bybit.new (bybitApiToken user) (bybitApiSecret user))) in
  fun s page =>
    match s with
    | TimeWindow =>
        Bybit.outcome
          (Bybit.getAndProcessAllOrders net page 20 None None (Some completedStatus)
             (Some (now - 3 * 24 * 60 * 60 * 1000)) (Some now) parser)
    | NoTimeWindow =>
        Bybit.outcome
          (Bybit.getAndProcessAllOrders net page 10 None None (Some completedStatus)
             None None parser)
    end.

End SyncService.

(** ** The chat fetch shared by the two enrichment passes *)

Module Chat.

(** The object [getChatMessages] is given as [user]: the two fields it
    reads. *)
Record Keys : Type := {
  bybitApiToken : option string;
  bybitApiSecret : option string
}.

(** [getChatMessages]: a fresh parser, one [p2pRequest], and the result
    array when the answer is well formed; anything else, a thrown error
    included, gives the empty list. *)
Definition getChatMessages (net : Bybit.Network) (now : Js.Date)
    (orderId : option string) (user : Keys) : list (option Bybit.ChatMessage) :=
  let parser := Bybit.new (bybitApiToken user) (bybitApiSecret user) in
  match Bybit.outcome (Bybit.p2pRequest net now (Bybit.PostChatList orderId) parser) with
  | Ok (Bybit.ChatBody code (Some result)) => if code =? 0 then result else []
  | Ok _ => []
  | Throw _ => []
  end.

End Chat.

(** ** The cabinet service: synchronisation and enrichment of
       [bybitTransactionFromCabinet] *)

Module CabinetService.

Record BybitCabinet : Type := {
  id : Z;
  bybitEmail : string;
  bybitApiToken : option string;
  bybitApiSecret : option string
}.

(** What [transformCabinetTransactionToDbFormat] returns. *)
Record DbRecord : Type := {
  orderNo : option string;
  counterparty : string;
  status : string;
  amount : Js.number;
  asset : string;
  dateTime : Js.Date;
  totalPrice : Js.number;
  type : string;
  unitPrice : Js.number;
  originalData : Bybit.Order;
  cabinetId : Z;
  processed : bool;
  extractedPhones : list Phone.text;
  createdAt : Js.Date;
  updatedAt : Js.Date
}.

(** A stored row: the record, the key the store gave it, and the column
    the enrichment pass writes on failure. *)
Record Row : Type := {
  rowId : nat;
  fields : DbRecord;
  lastAttemptError : option string
}.

Definition Table : Type := list Row.

(** The columns written by the [update] calls of the service. *)
Record Patch : Type := {
  new_status : option string;
  new_extractedPhones : option (list Phone.text);
  new_processed : option bool;
  new_lastAttemptError : option string;
  new_updatedAt : Js.Date
}.

Definition keep {A} (new : option A) (old : A) : A :=
  match new with Some v => v | None => old end.

Definition patched (d : Patch) (r : Row) : Row :=
  let f := fields r in
  {| rowId := rowId r;
     fields :=
       {| orderNo := orderNo f; counterparty := counterparty f;
          status := keep (new_status d) (status f);
          amount := amount f; asset := asset f; dateTime := dateTime f;
          totalPrice := totalPrice f; type := type f; unitPrice := unitPrice f;
          originalData := originalData f; cabinetId := cabinetId f;
          processed := keep (new_processed d) (processed f);
          extractedPhones := keep (new_extractedPhones d) (extractedPhones f);
          createdAt := createdAt f;
          updatedAt := new_updatedAt d |};
     lastAttemptError :=
       match new_lastAttemptError d with
       | Some m => Some m
       | None => lastAttemptError r
       end |}.

(** [update({ where: { id }, data })] *)
Definition update (key : nat) (d : Patch) (tbl : Table) : Table :=
  map (fun r => if (rowId r =? key)%nat then patched d r else r) tbl.

Definition nextId (tbl : Table) : nat :=
  S (fold_right (fun r m => Nat.max (rowId r) m) O tbl).

(** [create({ data })]: the store numbers the new row. *)
Definition create (d : DbRecord) (tbl : Table) : Table :=
  tbl ++ [{| rowId := nextId tbl; fields := d; lastAttemptError := None |}].

(** [findUnique({ where: { orderNo } })] for a given order number. *)
Definition findUnique (no : string) (tbl : Table) : option Row :=
  find (fun r => match orderNo (fields r) with
                 | Some k => String.eqb k no
                 | None => false
                 end) tbl.

(** The status [switch] of the transformation. *)
Definition statusOf (st : Z) : string :=
  if st =? 40 then "CANCELED"
  else if st =? 50 then "COMPLETED"
  else if st =? 30 then "COMPLETED"
  else if st =? 20 then "PENDING"
  else if st =? 0 then "PENDING"
  else "UNKNOWN".

Definition transformCabinetTransactionToDbFormat (now : Js.Date)
    (transaction : Bybit.Order) (cabinet : Z) : DbRecord :=
  let type := if Bybit.side transaction =? 0 then "BUY" else "SELL" in
  let status := statusOf (Bybit.status transaction) in
  let dateTime :=
    match Js.parseInt true (Js.or_else (Bybit.createDate transaction) "0") with
    | Some timestamp => if timestamp =? 0 then now else timestamp
    | None => now
    end in
  {| orderNo := Bybit.id transaction;
     counterparty := Js.or_else (Bybit.targetNickName transaction) "Unknown";
     status := status;
     amount := Js.parseFloat (Js.or_else (Bybit.notifyTokenQuantity transaction) "0");
     asset := Js.or_else (Bybit.tokenId transaction) "Unknown";
     dateTime := dateTime;
     totalPrice := Js.parseFloat (Js.or_else (Bybit.amount transaction) "0");
     type := type;
     unitPrice := Js.parseFloat (Js.or_else (Bybit.price transaction) "0");
     originalData := transaction;
     cabinetId := cabinet;
     processed := false;
     extractedPhones := [];
     createdAt := now;
     updatedAt := now |}.

(** The store client refuses [findUnique] without a key; the wording of
    its error is the client's own. *)
Definition findUniqueWithoutKey : string :=
  "Argument `where` needs at least one of `id` or `orderNo` arguments.".

Definition statusPatch (now : Js.Date) (st : string) : Patch :=
  {| new_status := Some st; new_extractedPhones := None; new_processed := None;
     new_lastAttemptError := None; new_updatedAt := now |}.

(** One turn of the loop over [completedTransactions]. *)
Definition upsertOne (now : Js.Date) (cabinet : Z) (tx : Bybit.Order) (tbl : Table)
    : res Table :=
  let dbRecord := transformCabinetTransactionToDbFormat now tx cabinet in
  match orderNo dbRecord with
  | None => Throw findUniqueWithoutKey
  | Some no =>
      match findUnique no tbl with
      | None => Ok (create dbRecord tbl)
      | Some existingTransaction =>
          if String.eqb (status (fields existingTransaction)) (status dbRecord)
          then Ok tbl
          else Ok (update (rowId existingTransaction)
                          (statusPatch now (status dbRecord)) tbl)
      end
  end.

(** The loop; a thrown error leaves it with the table as it then is. *)
Fixpoint upsertAll (now : Js.Date) (cabinet : Z) (txs : list Bybit.Order) (tbl : Table)
    : Table * option string :=
  match txs with
  | [] => (tbl, None)
  | tx :: rest =>
      match upsertOne now cabinet tx tbl with
      | Ok tbl' => upsertAll now cabinet rest tbl'
      | Throw m => (tbl, Some m)
      end
  end.

(** [transactions.filter(tx => tx.status === 50).filter(tx => tx.side === 1)] *)
Definition completedTransactions (transactions : list Bybit.Order) : list Bybit.Order :=
  filter (fun tx => Bybit.side tx =? 1)
         (filter (fun tx => Bybit.status tx =? 50) transactions).

(** One [prisma.bybitCabinet.update] issued by [updateCabinetSyncStatus]. *)
Record StatusWrite : Type := {
  w_cabinetId : Z;
  lastBybitSyncAt : Js.Date;
  lastBybitSyncStatus : string
}.

Definition updateCabinetSyncStatus (now : Js.Date) (cabinet : Z) (st : string)
    : StatusWrite :=
  {| w_cabinetId := cabinet; lastBybitSyncAt := now; lastBybitSyncStatus := st |}.

(** The synchronisation period, from the local calendar date: [beginDate]
    is midnight three days ago and [endDate] midnight today. *)
Record Period : Type := { beginDate : Js.Date; endDate : Js.Date }.

Definition minTimestamp : Z := 1577836800000.   (* new Date('2020-01-01') *)
Definition maxTimestamp : Z := 1767139200000.   (* new Date('2025-12-31') *)

Record Run : Type := {
  table : Table;
  written : list StatusWrite
}.

Definition wrote (tbl : Table) (now : Js.Date) (cabinet : Z) (st : string) : Run :=
  {| table := tbl; written := [updateCabinetSyncStatus now cabinet st] |}.

(** [syncCabinetTransactions].  [answer] is what the one call
    [parser.getAndProcessAllOrders(1, 10, ..., apiBeginTime, apiEndTime)]
    gives when it is made. *)
Definition syncCabinetTransactions (answer : res Bybit.ProcessResult)
    (now : Js.Date) (period : Period) (cabinet : BybitCabinet) (tbl : Table) : Run :=
  if (negb (Js.truthy (bybitApiToken cabinet))
      || negb (Js.truthy (bybitApiSecret cabinet)))%bool
  then wrote tbl now (id cabinet) "ERROR: Отсутствуют API ключи"
  else
    let apiBeginTime := beginDate period in
    let apiEndTime := endDate period + 86400 * 1000 in
    if ((apiBeginTime <? minTimestamp) || (maxTimestamp <? apiBeginTime))%bool
    then {| table := tbl; written := [] |}
    else if ((apiEndTime <? minTimestamp) || (maxTimestamp <? apiEndTime))%bool
    then {| table := tbl; written := [] |}
    else
      match answer with
      | Throw m => wrote tbl now (id cabinet) ("ERROR: " ++ m)
      | Ok result =>
          match (if Bybit.success result then Bybit.data result else None) with
          | None =>
              wrote tbl now (id cabinet)
                ("ERROR: " ++ Js.or_else (Bybit.r_message result) "Ошибка получения данных")
          | Some d =>
              let transactions := Bybit.transactions d in
              let count := List.length transactions in
              if (count =? 0)%nat
              then wrote tbl now (id cabinet) "SUCCESS: Нет новых транзакций"
              else
                match upsertAll now (id cabinet) (completedTransactions transactions) tbl with
                | (tbl', None) =>
                    wrote tbl' now (id cabinet)
                      ("SUCCESS: Добавлено/обновлено " ++ Js.show_nat count ++ " транзакций")
                | (tbl', Some m) => wrote tbl' now (id cabinet) ("ERROR: " ++ m)
                end
          end
      end.

(** *** Enrichment of the cabinet transactions *)

Definition foundPatch (now : Js.Date) (phoneNumbers : list Phone.text) : Patch :=
  {| new_status := None; new_extractedPhones := Some phoneNumbers;
     new_processed := Some true; new_lastAttemptError := None; new_updatedAt := now |}.

Definition noChatPatch (now : Js.Date) : Patch :=
  {| new_status := None; new_extractedPhones := None;
     new_processed := Some true; new_lastAttemptError := None; new_updatedAt := now |}.

Definition errorPatch (now : Js.Date) (m : string) : Patch :=
  {| new_status := None; new_extractedPhones := None;
     new_processed := None; new_lastAttemptError := Some m; new_updatedAt := now |}.

(** The [try] block of one turn, after the credential check. *)
Definition enrichAttempt (now : Js.Date) (chatMessages : list (option Bybit.ChatMessage))
    (transaction : Row) (tbl : Table) : res Table :=
  match chatMessages with
  | _ :: _ =>
      match Phone.extractPhoneNumbers chatMessages with
      | Ok phoneNumbers => Ok (update (rowId transaction) (foundPatch now phoneNumbers) tbl)
      | Throw m => Throw m
      end
  | [] => Ok (update (rowId transaction) (noChatPatch now) tbl)
  end.

(** One turn of [processUnprocessedCabinetTransactions].  The object given
    to [getChatMessages] carries [bybitApiKey] and [bybitApiSecret], so the
    [bybitApiToken] it reads there is missing. *)
Definition enrichOne (net : Bybit.Network) (now : Js.Date)
    (cabinets : Z -> BybitCabinet) (transaction : Row) (tbl : Table) : Table :=
  let cabinet := cabinets (cabinetId (fields transaction)) in
  if (negb (Js.truthy (bybitApiToken cabinet))
      || negb (Js.truthy (bybitApiSecret cabinet)))%bool
  then tbl
  else
    let chatMessages :=
      Chat.getChatMessages net now (orderNo (fields transaction))
        {| Chat.bybitApiToken := None;
           Chat.bybitApiSecret := bybitApiSecret cabinet |} in
    match enrichAttempt now chatMessages transaction tbl with
    | Ok tbl' => tbl'
    | Throw m => update (rowId transaction) (errorPatch now m) tbl
    end.

(** [findMany({ where: { processed: false } })] *)
Definition unprocessed (tbl : Table) : list Row :=
  filter (fun r => negb (processed (fields r))) tbl.

Definition processUnprocessedCabinetTransactions (net : Bybit.Network) (now : Js.Date)
    (cabinets : Z -> BybitCabinet) (tbl : Table) : Table :=
  fold_left (fun t transaction => enrichOne net now cabinets transaction t)
            (unprocessed tbl) tbl.

End CabinetService.

(** ** The enrichment pass that records phone numbers in [bybitOrderInfo] *)

Module OrderInfoService.

(** The columns of a stored transaction this pass reads. *)
Record StoredTransaction : Type := {
  id : nat;
  orderNo : string;
  userId : Z
}.

Record BybitOrderInfo : Type := {
  i_orderNo : string;
  i_userId : Z;
  phoneNumbers : list Phone.text;
  bybitTransactionId : nat
}.

Record Store : Type := {
  bybitTransaction : list StoredTransaction;
  bybitOrderInfo : list BybitOrderInfo
}.

(** [findMany({ where: { BybitOrderInfo: null } })]: the transactions no
    order-info row points to. *)
Definition hasInfo (infos : list BybitOrderInfo) (t : StoredTransaction) : bool :=
  existsb (fun i => (bybitTransactionId i =? id t)%nat) infos.

Definition unprocessedTransactions (s : Store) : list StoredTransaction :=
  filter (fun t => negb (hasInfo (bybitOrderInfo s) t)) (bybitTransaction s).

(** One turn of the loop: the order-info rows afterwards.  Every exit but
    the last is a [continue]; a thrown error is logged by the [catch] of
    the turn and nothing is stored. *)
Definition processOne (net : Bybit.Network) (now : Js.Date) (users : Z -> Chat.Keys)
    (transaction : StoredTransaction) (infos : list BybitOrderInfo)
    : list BybitOrderInfo :=
  let user := users (userId transaction) in
  if (negb (Js.truthy (Chat.bybitApiToken user))
      || negb (Js.truthy (Chat.bybitApiSecret user)))%bool
  then infos
  else
    match Chat.getChatMessages net now (Some (orderNo transaction)) user with
    | [] => infos
    | chatMessages =>
        match Phone.extractPhoneNumbers chatMessages with
        | Throw _ => infos
        | Ok [] => infos
        | Ok phoneNumbers =>
            infos ++ [{| i_orderNo := orderNo transaction;
                         i_userId := userId transaction;
                         phoneNumbers := phoneNumbers;
                         bybitTransactionId := id transaction |}]
        end
    end.

Definition processUnprocessedTransactions (net : Bybit.Network) (now : Js.Date)
    (users : Z -> Chat.Keys) (s : Store) : Store :=
  {| bybitTransaction := bybitTransaction s;
     bybitOrderInfo :=
       fold_left (fun infos transaction => processOne net now users transaction infos)
                 (unprocessedTransactions s) (bybitOrderInfo s) |}.

End OrderInfoService.

(** ** Sample inputs *)

Module Samples.

(** A network whose time endpoint is down and whose chat endpoint answers. *)
Definition clockDown : Bybit.Network :=
  fun rq =>
    match rq with
    | Bybit.GetServerTime => Rejected "connect ETIMEDOUT"
    | Bybit.PostOrderList _ => Rejected "connect ETIMEDOUT"
    | Bybit.PostChatList _ => Replied (Bybit.ChatBody 0 (Some []))
    end.

Definition freshParser : Bybit.BybitP2PParser := Bybit.new (Some "key") (Some "secret").

(** A network whose time endpoint tells a time three seconds after
    1700000000000, and one whose time endpoint answers without [timeNano]. *)
Definition clockAhead : Bybit.Network :=
  fun rq =>
    match rq with
    | Bybit.GetServerTime => Replied (Bybit.TimeBody (Some 1700000003000000000))
    | _ => Rejected "connect ETIMEDOUT"
    end.

Definition clockMute : Bybit.Network :=
  fun rq =>
    match rq with
    | Bybit.GetServerTime => Replied (Bybit.TimeBody None)
    | _ => Rejected "connect ETIMEDOUT"
    end.

Definition chatOf42 : Bybit.Request := Bybit.PostChatList (Some "42").

(** An order with the given side, status and identifier. *)
Definition order (sd st : Z) (no : string) (quantity total unit : string) : Bybit.Order :=
  {| Bybit.id := Some no; Bybit.orderId := None;
     Bybit.side := sd; Bybit.status := st;
     Bybit.createDate := Some "1700000000000";
     Bybit.amount := Some total; Bybit.price := Some unit;
     Bybit.notifyTokenQuantity := Some quantity;
     Bybit.targetNickName := Some "trader"; Bybit.tokenId := Some "USDT" |}.

(** Two ways of writing one number in a chat, the first after the Russian
    word for "call" ([0x417 0x432 0x43E 0x43D 0x438 0x442 0x435]). *)
Definition textMessage (t : Phone.text) : option Bybit.ChatMessage :=
  Some {| Bybit.contentType := "str"; Bybit.message := Some t |}.

Definition callMe : option Bybit.ChatMessage :=
  textMessage ([1047; 1074; 1086; 1085; 1080; 1090; 1077; 32]%N
               ++ Phone.lit "8 (999) 123-45-67").

Definition spaced : option Bybit.ChatMessage :=
  textMessage (Phone.lit "+7 999 123 45 67").

(** A stored transaction of user 1 and the keys of that user. *)
Definition stored42 : OrderInfoService.StoredTransaction :=
  {| OrderInfoService.id := 1; OrderInfoService.orderNo := "42";
     OrderInfoService.userId := 1 |}.

Definition keysOf (uid : Z) : Chat.Keys :=
  {| Chat.bybitApiToken := Some "key"; Chat.bybitApiSecret := Some "secret" |}.

Definition pending42 : OrderInfoService.Store :=
  {| OrderInfoService.bybitTransaction := [stored42];
     OrderInfoService.bybitOrderInfo := [] |}.

(** A network whose chat endpoint answers with one [null] entry. *)
Definition nullChat : Bybit.Network :=
  fun rq =>
    match rq with
    | Bybit.PostChatList _ => Replied (Bybit.ChatBody 0 (Some [None]))
    | _ => Rejected "connect ETIMEDOUT"
    end.

(** An unprocessed cabinet row for order "42". *)
Definition cabinetRow42 : CabinetService.Row :=
  {| CabinetService.rowId := 1;
     CabinetService.fields :=
       CabinetService.transformCabinetTransactionToDbFormat 1700000000000
         (order 1 50 "42" "1.5" "45000" "30000") 7;
     CabinetService.lastAttemptError := None |}.

(** A user holding both keys, and one holding no secret. *)
Definition alice : SyncService.User :=
  {| SyncService.id := 1;
     SyncService.bybitApiToken := Some "key";
     SyncService.bybitApiSecret := Some "secret" |}.

Definition keyless : SyncService.User :=
  {| SyncService.id := 2;
     SyncService.bybitApiToken := Some "key";
     SyncService.bybitApiSecret := None |}.

(** A cabinet holding both keys, and a period in November 2023. *)
Definition cabinet7 : CabinetService.BybitCabinet :=
  {| CabinetService.id := 7;
     CabinetService.bybitEmail := "cabinet@example.org";
     CabinetService.bybitApiToken := Some "key";
     CabinetService.bybitApiSecret := Some "secret" |}.

Definition november : CabinetService.Period :=
  {| CabinetService.beginDate := 1699740800000;
     CabinetService.endDate := 1700000000000 |}.

Definition pageOf (txs : list Bybit.Order) : res Bybit.ProcessResult :=
  Ok {| Bybit.success := true;
        Bybit.data := Some (Bybit.processTransactions txs);
        Bybit.r_message := None |}.

(** Strategy 1 finds one completed sale on its first page and nothing after;
    the log never fails. *)
Definition oneSale : SyncService.Env :=
  {| SyncService.fetch :=
       fun s page =>
         match s, page with
         | SyncService.TimeWindow, 1%nat => pageOf [order 1 50 "A" "0" "1.5" "30000"]
         | _, _ => pageOf []
         end;
     SyncService.logFails := fun _ => None |}.

End Samples.

(** ** Notions used to state the properties *)

Module Notions.

(** The page answers that make the pagination loop go on. *)
Definition good (ask : nat -> res Bybit.ProcessResult) (page : nat) : bool :=
  match ask page with
  | Ok result =>
      match SyncService.pageTransactions result with
      | Some _ => true
      | None => false
      end
  | Throw _ => false
  end.

Definition hasKeys (user : SyncService.User) : bool :=
  (Js.truthy (SyncService.bybitApiToken user)
   && Js.truthy (SyncService.bybitApiSecret user))%bool.

(** The fetch state with which a run enters [afterFetch], when it gets there. *)
Definition fetchedBy (env : SyncService.Env) : option SyncService.Fetched :=
  match SyncService.logFails env SyncService.AtStrategy1 with
  | Some _ => None
  | None =>
      let st1 := SyncService.strategy1 env in
      if SyncService.hasSuccess st1 then Some st1
      else
        match SyncService.logFails env SyncService.AtFallback with
        | Some _ => None
        | None => Some (SyncService.strategy2 env st1)
        end
  end.

(** The transactions a run hands to the saving loop. *)
Definition batch (env : SyncService.Env) (user : SyncService.User) : list Bybit.Order :=
  if hasKeys user then
    match fetchedBy env with
    | Some st =>
        if SyncService.hasSuccess st then SyncService.allCompletedTransactions st else []
    | None => []
    end
  else [].

(** Rows of a user's table stored under an order number. *)
Definition userRows (no : string) (uid : Z) (tbl : SyncService.Table) : nat :=
  List.length (filter (fun r => (String.eqb (SyncService.orderNo r) no
                                 && (SyncService.userId r =? uid))%bool) tbl).


(** Two cabinet rows that differ at most in [status] and [updatedAt]. *)
Definition sameButStatus (old new : CabinetService.Row) : Prop :=
  exists st at',
    new = CabinetService.patched
            {| CabinetService.new_status := Some st;
               CabinetService.new_extractedPhones := None;
               CabinetService.new_processed := None;
               CabinetService.new_lastAttemptError := None;
               CabinetService.new_updatedAt := at' |} old.

(** Rows of the cabinet table stored under an order number, whatever the
    cabinet. *)
Definition orderRows (no : string) (tbl : CabinetService.Table) : nat :=
  List.length
    (filter (fun r => match CabinetService.orderNo (CabinetService.fields r) with
                      | Some k => String.eqb k no
                      | None => false
                      end) tbl).

(** An old cabinet row after a run: itself, or itself with a new status. *)
Definition keptRow (old new : CabinetService.Row) : Prop :=
  new = old \/ sameButStatus old new.

(** A cabinet row made from an order of a cabinet. *)
Definition madeFrom (cabinet : Z) (tx : Bybit.Order) (r : CabinetService.Row) : Prop :=
  CabinetService.originalData (CabinetService.fields r) = tx /\
  CabinetService.cabinetId (CabinetService.fields r) = cabinet /\
  CabinetService.orderNo (CabinetService.fields r) = Bybit.id tx /\
  CabinetService.type (CabinetService.fields r)
  = (if Bybit.side tx =? 0 then "BUY" else "SELL") /\
  CabinetService.totalPrice (CabinetService.fields r)
  = Js.parseFloat (Js.or_else (Bybit.amount tx) "0") /\
  CabinetService.amount (CabinetService.fields r)
  = Js.parseFloat (Js.or_else (Bybit.notifyTokenQuantity tx) "0") /\
  CabinetService.unitPrice (CabinetService.fields r)
  = Js.parseFloat (Js.or_else (Bybit.price tx) "0").

(** The transactions a cabinet run hands to its saving loop. *)
Definition cabinetBatch (answer : res Bybit.ProcessResult)
    (period : CabinetService.Period) (cabinet : CabinetService.BybitCabinet)
    : list Bybit.Order :=
  if (negb (Js.truthy (CabinetService.bybitApiToken cabinet))
      || negb (Js.truthy (CabinetService.bybitApiSecret cabinet)))%bool
  then []
  else
    let b := CabinetService.beginDate period in
    let e := CabinetService.endDate period + 86400 * 1000 in
    if ((b <? CabinetService.minTimestamp) || (CabinetService.maxTimestamp <? b))%bool
    then []
    else if ((e <? CabinetService.minTimestamp) || (CabinetService.maxTimestamp <? e))%bool
    then []
    else
      match answer with
      | Ok result =>
          match (if Bybit.success result then Bybit.data result else None) with
          | Some d => CabinetService.completedTransactions (Bybit.transactions d)
          | None => []
          end
      | Throw _ => []
      end.

(** The orders a cabinet loop reaches: those before the first one without
    an [id]. *)
Fixpoint keyed (txs : list Bybit.Order) : list Bybit.Order :=
  match txs with
  | [] => []
  | tx :: rest =>
      match Bybit.id tx with
      | Some _ => tx :: keyed rest
      | None => []
      end
  end.

(** The sizes of the capture groups of a pattern. *)
Fixpoint groupSizes (p : list Phone.item) : list nat :=
  match p with
  | [] => []
  | Phone.Group n :: q => n :: groupSizes q
  | _ :: q => groupSizes q
  end.

(** A group of exactly [n] digits. *)
Definition digitGroup (n : nat) (d : Phone.text) : Prop :=
  List.length d = n /\ forallb Phone.is_digit d = true.

(** [phone] comes from a match of one of the patterns in the text of one of
    the [messages]: it is "+7" followed by the four digit groups of the
    match, twelve code units in all. *)
Definition phoneFrom (messages : list (option Bybit.ChatMessage)) (phone : Phone.text)
    : Prop :=
  exists message txt p m g1 g2 g3 g4,
    In (Some message) messages /\
    Bybit.contentType message = "str" /\
    Bybit.message message = Some txt /\
    In p Phone.phonePatterns /\
    In m (Phone.exec_all p O txt) /\
    Phone.captured m = [g1; g2; g3; g4] /\
    digitGroup 3 g1 /\ digitGroup 3 g2 /\ digitGroup 2 g3 /\ digitGroup 2 g4 /\
    phone = Phone.phoneNumberOf m /\
    phone = Phone.lit "+7" ++ g1 ++ g2 ++ g3 ++ g4 /\
    List.length phone = 12%nat.

(** The number a match contributes, when it passes the length check. *)
Definition accepted (m : Phone.Match) : list Phone.text :=
  if (List.length (Phone.phoneNumberOf m) =? 12)%nat then [Phone.phoneNumberOf m] else [].

(** The numbers a message contributes, in the order the loops meet them. *)
Definition candidates (message : Bybit.ChatMessage) : list Phone.text :=
  match Bybit.message message with
  | Some (c :: r) =>
      if String.eqb (Bybit.contentType message) "str"
      then flat_map (fun p => flat_map accepted (Phone.exec_all p O (c :: r)))
                    Phone.phonePatterns
      else []
  | _ => []
  end.

(** What holds of the set of numbers all along: no value twice, and every
    value built from a match in one of the messages. *)
Definition collected (messages : list (option Bybit.ChatMessage))
    (set : list Phone.text) : Prop :=
  NoDup set /\ Forall (phoneFrom messages) set.

(** What the cabinet enrichment does to the row of a transaction, by what
    the chat fetch returned: no message; messages that were scanned; or
    messages whose scan threw. *)
Definition enriched (chat : list (option Bybit.ChatMessage))
    (old new : CabinetService.Row) : Prop :=
  CabinetService.rowId new = CabinetService.rowId old /\
  match chat with
  | [] =>
      CabinetService.processed (CabinetService.fields new) = true /\
      CabinetService.extractedPhones (CabinetService.fields new)
      = CabinetService.extractedPhones (CabinetService.fields old) /\
      CabinetService.lastAttemptError new = CabinetService.lastAttemptError old
  | _ :: _ =>
      match Phone.extractPhoneNumbers chat with
      | Ok phones =>
          CabinetService.processed (CabinetService.fields new) = true /\
          CabinetService.extractedPhones (CabinetService.fields new) = phones /\
          CabinetService.lastAttemptError new = CabinetService.lastAttemptError old
      | Throw m =>
          CabinetService.processed (CabinetService.fields new)
          = CabinetService.processed (CabinetService.fields old) /\
          CabinetService.extractedPhones (CabinetService.fields new)
          = CabinetService.extractedPhones (CabinetService.fields old) /\
          CabinetService.lastAttemptError new = Some m
      end
  end.

Definition cabinetHasKeys (cabinet : CabinetService.BybitCabinet) : bool :=
  (Js.truthy (CabinetService.bybitApiToken cabinet)
   && Js.truthy (CabinetService.bybitApiSecret cabinet))%bool.

(** The chat messages the cabinet enrichment gets for a row. *)
Definition cabinetChat (net : Bybit.Network) (now : Z)
    (cabinets : Z -> CabinetService.BybitCabinet) (transaction : CabinetService.Row)
    : list (option Bybit.ChatMessage) :=
  Chat.getChatMessages net now
    (CabinetService.orderNo (CabinetService.fields transaction))
    {| Chat.bybitApiToken := None;
       Chat.bybitApiSecret :=
         CabinetService.bybitApiSecret
           (cabinets (CabinetService.cabinetId (CabinetService.fields transaction))) |}.

(** A transaction is settled in a table when the saving loop leaves it alone. *)
Definition settled (uid : Z) (tx : Bybit.Order) (tbl : SyncService.Table) : Prop :=
  forall now n, SyncService.saveOne now uid tx tbl n = (tbl, n).


End Notions.

(** ** sync-service.ts: the life cycle of the service and the cycle over
       the users *)

Module Service.

Definition dbRetryAttempts : nat := 5.
Definition dbRetryDelay : Z := 5000.

(** What [connectWithRetry] did: how it ended, how many times [$connect]
    was called and the pauses it made. *)
Record Connection : Type := {
  connected : res unit;
  connects : nat;
  waits : list Z
}.

Definition cannotConnect : string :=
  "Не удалось подключиться к базе данных после "
  ++ Js.show_nat dbRetryAttempts ++ " попыток".

(** The [while (attempts < dbRetryAttempts)] loop, with [remaining] the
    turns the counter still allows.  [connect k] is the outcome of the call
    of [$connect] made after [k] failures. *)
Fixpoint retry (connect : nat -> res unit) (remaining attempts : nat) (paused : list Z)
    : Connection :=
  match remaining with
  | O => {| connected := Ok tt; connects := attempts; waits := paused |}
  | S r =>
      match connect attempts with
      | Ok _ => {| connected := Ok tt; connects := S attempts; waits := paused |}
      | Throw _ =>
          if (S attempts =? dbRetryAttempts)%nat
          then {| connected := Throw cannotConnect; connects := S attempts; waits := paused |}
          else retry connect r (S attempts) (paused ++ [dbRetryDelay])
      end
  end.

Definition connectWithRetry (connect : nat -> res unit) : Connection :=
  retry connect dbRetryAttempts O [].

(** [findMany] of the users whose two keys are not [null]. *)
Definition findUsers (users : list SyncService.User) : list SyncService.User :=
  filter (fun u =>
            match SyncService.bybitApiToken u, SyncService.bybitApiSecret u with
            | Some _, Some _ => true
            | _, _ => false
            end) users.

(** A cycle over the users: the table, the status updates issued and the
    pauses made. *)
Record Cycle : Type := {
  table : SyncService.Table;
  written : list SyncService.StatusWrite;
  pauses : list Z
}.

(** One turn of the loop of [syncAllUsers]: the user is synchronised, an
    error that escapes is turned into an error status, and the loop pauses
    for a second whatever happened. *)
Definition syncOne (envOf : SyncService.User -> SyncService.Env) (now : Js.Date)
    (c : Cycle) (user : SyncService.User) : Cycle :=
  let r := SyncService.syncUserTransactions (envOf user) now user (table c) in
  let status :=
    match SyncService.thrown r with
    | Some m =>
        SyncService.written r
        ++ [SyncService.updateUserSyncStatus now (SyncService.id user)
              (SyncService.errorStatus m)]
    | None => SyncService.written r
    end in
  {| table := SyncService.table r;
     written := written c ++ status;
     pauses := pauses c ++ [1000] |}.

Definition syncAllUsers (users : list SyncService.User)
    (envOf : SyncService.User -> SyncService.Env) (now : Js.Date)
    (tbl : SyncService.Table) : Cycle :=
  fold_left (syncOne envOf now) (findUsers users)
            {| table := tbl; written := []; pauses := [] |}.

(** The fields of the service object that [start] and [stop] change;
    [syncInterval] tells whether a timer is set. *)
Record State : Type := {
  isRunning : bool;
  syncInterval : bool
}.

Record Started : Type := {
  raised : option string;
  state : State;
  connection : option Connection;
  firstCycle : option Cycle
}.

(** [start]: nothing when already running; otherwise the flag is raised,
    the store is connected to, the users are synchronised once and the
    timer is set; an error lowers the flag and is thrown again. *)
Definition start (connect : nat -> res unit) (users : list SyncService.User)
    (envOf : SyncService.User -> SyncService.Env) (now : Js.Date)
    (s : State) (tbl : SyncService.Table) : Started :=
  if isRunning s then
    {| raised := None; state := s; connection := None; firstCycle := None |}
  else
    let c := connectWithRetry connect in
    match connected c with
    | Throw m =>
        {| raised := Some m;
           state := {| isRunning := false; syncInterval := syncInterval s |};
           connection := Some c; firstCycle := None |}
    | Ok _ =>
        {| raised := None;
           state := {| isRunning := true; syncInterval := true |};
           connection := Some c;
           firstCycle := Some (syncAllUsers users envOf now tbl) |}
    end.

(** [stop]: nothing when not running; otherwise the timer is cleared and
    the store disconnected from; the flag is lowered only when the
    disconnection succeeded, and a failure is logged, not thrown. *)
Definition stop (disconnect : res unit) (s : State) : State :=
  if negb (isRunning s) then s
  else
    match disconnect with
    | Ok _ => {| isRunning := false; syncInterval := false |}
    | Throw _ => {| isRunning := isRunning s; syncInterval := false |}
    end.

(** Every key of the table has at most one row. *)
Definition uniqueKeys (tbl : SyncService.Table) : Prop :=
  forall no u, (Notions.userRows no u tbl <= 1)%nat.

End Service.

(** ** Notions used to state further properties of the extractor, of the
       enrichment passes and of the cabinet synchronisation *)

Module Terms.

(** A chat entry the extractor reads: [null] (on which it throws) or a
    message with [contentType === 'str'] and a non-empty text. *)
Definition read (x : option Bybit.ChatMessage) : bool :=
  match x with
  | None => true
  | Some message =>
      match Bybit.message message with
      | Some (_ :: _) => String.eqb (Bybit.contentType message) "str"
      | _ => false
      end
  end.

(** A cabinet row after an enrichment pass: the same row, except that it
    may have been marked processed, given phone numbers or an error; a
    processed row is still processed and a recorded error is still there. *)
Definition advanced (old new : CabinetService.Row) : Prop :=
  CabinetService.rowId new = CabinetService.rowId old /\
  CabinetService.orderNo (CabinetService.fields new)
  = CabinetService.orderNo (CabinetService.fields old) /\
  CabinetService.cabinetId (CabinetService.fields new)
  = CabinetService.cabinetId (CabinetService.fields old) /\
  CabinetService.status (CabinetService.fields new)
  = CabinetService.status (CabinetService.fields old) /\
  (CabinetService.processed (CabinetService.fields old) = true ->
   CabinetService.processed (CabinetService.fields new) = true) /\
  (CabinetService.lastAttemptError old <> None ->
   CabinetService.lastAttemptError new <> None).

(** A row the pass has dealt with: processed, or carrying an error. *)
Definition dealtWith (r : CabinetService.Row) : Prop :=
  CabinetService.processed (CabinetService.fields r) = true \/
  CabinetService.lastAttemptError r <> None.



(** The least number of code units a match of a pattern covers. *)
Fixpoint minLen (p : list Phone.item) : nat :=
  match p with
  | [] => O
  | Phone.Lit _ :: q => S (minLen q)
  | Phone.Opt _ :: q => minLen q
  | Phone.Group n :: q => (n + minLen q)%nat
  end.


(** The three updates of the pass. *)
Definition enrichmentPatch (d : CabinetService.Patch) : Prop :=
  CabinetService.new_status d = None /\
  ((CabinetService.new_processed d = Some true /\
    CabinetService.new_lastAttemptError d = None) \/
   (CabinetService.new_processed d = None /\
    CabinetService.new_lastAttemptError d <> None)).



(** The guard of [syncCabinetTransactions] on the two bounds of the period. *)
Definition outOfRange (period : CabinetService.Period) : bool :=
  let apiBeginTime := CabinetService.beginDate period in
  let apiEndTime := CabinetService.endDate period + 86400 * 1000 in
  ((apiBeginTime <? CabinetService.minTimestamp)
   || (CabinetService.maxTimestamp <? apiBeginTime)
   || (apiEndTime <? CabinetService.minTimestamp)
   || (CabinetService.maxTimestamp <? apiEndTime))%bool.

(** The lookup by order number finds a row stored as completed. *)
Definition storedCompleted (no : string) (tbl : CabinetService.Table) : Prop :=
  exists r, CabinetService.findUnique no tbl = Some r /\
            CabinetService.status (CabinetService.fields r) = "COMPLETED".

(** No order number on two rows, and no key on two rows. *)
Definition oneRowPerOrder (tbl : CabinetService.Table) : Prop :=
  (forall no, (Notions.orderRows no tbl <= 1)%nat) /\
  NoDup (map CabinetService.rowId tbl).


(** A table after further runs: the old rows in place, each itself or
    itself with a new status, followed by added rows. *)
Definition keptPrefix (old new : CabinetService.Table) : Prop :=
  exists olds added, new = olds ++ added /\ Forall2 Notions.keptRow old olds.


(** A time value [new Date(t)] can print with [toISOString]. *)
Definition printable (t : Z) : bool := Z.abs t <=? 8640000000000000.

End Terms.

(** ** The cycle over the cabinets *)

Module Cabinets.

(** What a cabinet meets when its turn comes: the answer of the exchange
    to its one page request, the clock, and the period read off the local
    calendar. *)
Record Visit : Type := {
  answer : res Bybit.ProcessResult;
  clock : Js.Date;
  period : CabinetService.Period
}.

Record Cycle : Type := {
  table : CabinetService.Table;
  written : list CabinetService.StatusWrite;
  pauses : list Z
}.

(** One turn of the loop of [syncAllBybitCabinets]:
    [syncCabinetTransactions], which catches its own errors, then
    [sleep(1000)]. *)
Definition syncOne (visit : CabinetService.BybitCabinet -> Visit) (c : Cycle)
    (cabinet : CabinetService.BybitCabinet) : Cycle :=
  let run :=
    CabinetService.syncCabinetTransactions (answer (visit cabinet)) (clock (visit cabinet))
      (period (visit cabinet)) cabinet (table c) in
  {| table := CabinetService.table run;
     written := written c ++ CabinetService.written run;
     pauses := pauses c ++ [1000] |}.

(** [syncAllBybitCabinets]: every cabinet of [findMany()], in turn. *)
Definition syncAllBybitCabinets (cabinets : list CabinetService.BybitCabinet)
    (visit : CabinetService.BybitCabinet -> Visit) (tbl : CabinetService.Table) : Cycle :=
  fold_left (syncOne visit) cabinets {| table := tbl; written := []; pauses := [] |}.

End Cabinets.

(** ** The aggregates of [processTransactions]

    The counts per side and per coin.  The volumes, sums of floating-point
    products, are left out. *)

Module Summary.

Record Counts : Type := { buy : nat; sell : nat }.

Definition zero : Counts := {| buy := O; sell := O |}.

(** [summary[orderType].count += 1] *)
Definition bump (isBuy : bool) (c : Counts) : Counts :=
  if isBuy then {| buy := S (buy c); sell := sell c |}
  else {| buy := buy c; sell := S (sell c) |}.

(** [byCoin] is a plain object: reading a key it does not own finds the
    property of that name on [Object.prototype], if there is one. *)
Definition inherited (coin : string) : bool :=
  existsb (String.eqb coin)
    ["constructor"; "__defineGetter__"; "__defineSetter__"; "hasOwnProperty";
     "__lookupGetter__"; "__lookupSetter__"; "isPrototypeOf"; "propertyIsEnumerable";
     "toString"; "valueOf"; "__proto__"; "toLocaleString"].

(** The own properties of [byCoin]. *)
Definition ByCoin : Type := list (string * Counts).

Fixpoint get (coin : string) (byCoin : ByCoin) : option Counts :=
  match byCoin with
  | [] => None
  | (k, c) :: rest => if String.eqb k coin then Some c else get coin rest
  end.

(** [if (!byCoin[coin]) byCoin[coin] = {...}; byCoin[coin][orderType].count += 1]
    for a key that is not inherited. *)
Fixpoint bumpCoin (coin : string) (isBuy : bool) (byCoin : ByCoin) : ByCoin :=
  match byCoin with
  | [] => [(coin, bump isBuy zero)]
  | (k, c) :: rest =>
      if String.eqb k coin then (k, bump isBuy c) :: rest
      else (k, c) :: bumpCoin coin isBuy rest
  end.

Definition cannotReadCount : string :=
  "Cannot read properties of undefined (reading 'count')".

Definition coinOf (tx : Bybit.Order) : string := Js.or_else (Bybit.tokenId tx) "".

(** The [forEach] loop.  An order without a token is skipped.  For a token
    named like an inherited property the object found under that name is
    not a pair of counters and updating its count throws. *)
Fixpoint forEach (transactions : list Bybit.Order) (summary : Counts) (byCoin : ByCoin)
    : res (Counts * ByCoin) :=
  match transactions with
  | [] => Ok (summary, byCoin)
  | tx :: rest =>
      let isBuy := Bybit.side tx =? 0 in
      let coin := coinOf tx in
      if String.eqb coin "" then forEach rest summary byCoin
      else
        let summary' := bump isBuy summary in
        if inherited coin then Throw cannotReadCount
        else forEach rest summary' (bumpCoin coin isBuy byCoin)
  end.

Record ProcessedData : Type := {
  totalCount : nat;
  summary : Counts;
  byCoin : ByCoin;
  transactions : list Bybit.Order
}.

Definition processTransactions (transactions : list Bybit.Order) : res ProcessedData :=
  match transactions with
  | [] => Ok {| totalCount := O; summary := zero; byCoin := []; transactions := [] |}
  | _ =>
      match forEach transactions zero [] with
      | Ok (summary, byCoin) =>
          Ok {| totalCount := List.length transactions; summary := summary;
                byCoin := byCoin; transactions := transactions |}
      | Throw m => Throw m
      end
  end.

(** The counters found under a coin, zero when it has none. *)
Definition countsAt (coin : string) (byCoin : ByCoin) : Counts :=
  match get coin byCoin with
  | Some c => c
  | None => zero
  end.

(** The orders counted under a coin and a side. *)
Definition counted (coin : string) (isBuy : bool) (transactions : list Bybit.Order) : nat :=
  List.length
    (filter (fun tx => (String.eqb (coinOf tx) coin
                        && Bool.eqb (Bybit.side tx =? 0) isBuy)%bool)
            transactions).

(** The orders that name a token, by side. *)
Definition traded (isBuy : bool) (transactions : list Bybit.Order) : nat :=
  List.length
    (filter (fun tx => (negb (String.eqb (coinOf tx) "")
                        && Bool.eqb (Bybit.side tx =? 0) isBuy)%bool)
            transactions).

End Summary.

(** ** The client that fetches every page

    The variant of [getAndProcessAllOrders] that follows the [count] of the
    first answer over further pages. *)

Module Paged.

(** The answer to one page request: [ret_code], [ret_msg], [result?.count]
    and [result?.items]. *)
Record ApiResponse : Type := {
  ret_code : Z;
  ret_msg : option string;
  count : option nat;
  items : option (list Bybit.Order)
}.

(** What [getAllOrders(page, pageSize, ...)] gives for each page, the other
    arguments being those of the call: an answer, or a thrown error (the
    clock is not synchronised, or the request was rejected). *)
Definition Pages : Type := nat -> res ApiResponse.

Record ProcessResult : Type := {
  success : bool;
  data : option Summary.ProcessedData;
  message : option string
}.

Record Fetched : Type := {
  result : ProcessResult;
  requested : list nat;     (* the pages asked for, in order *)
  pauses : nat              (* the 300 ms pauses taken *)
}.

Definition maxPages : nat := 100.

Definition itemsOf (response : ApiResponse) : list Bybit.Order :=
  match items response with Some l => l | None => [] end.

Definition countOf (response : ApiResponse) : nat :=
  match count response with Some n => n | None => O end.

(** [Math.min(Math.ceil(totalCount / pageSize), maxPages)] for a positive
    [totalCount]; the quotient by 0 is [Infinity]. *)
Definition totalPagesOf (totalCount pageSize : nat) : nat :=
  match pageSize with
  | O => maxPages
  | S _ => Nat.min ((totalCount + pageSize - 1) / pageSize) maxPages
  end.

(** The loop over the further pages, [remaining] turns from [currentPage]
    on: the transactions gathered, or the error thrown, with the pages
    asked for and the pauses taken. *)
Fixpoint furtherPages (getAllOrders : Pages) (remaining currentPage : nat)
    (allTransactions : list Bybit.Order) (asked : list nat) (paused : nat)
    : res (list Bybit.Order) * list nat * nat :=
  match remaining with
  | O => (Ok allTransactions, asked, paused)
  | S k =>
      match getAllOrders currentPage with
      | Throw m => (Throw m, asked ++ [currentPage], paused)
      | Ok response =>
          if ret_code response =? 0 then
            furtherPages getAllOrders k (S currentPage)
              (allTransactions ++ itemsOf response) (asked ++ [currentPage]) (S paused)
          else (Ok allTransactions, asked ++ [currentPage], paused)
      end
  end.

Definition failed (m : string) (asked : list nat) (paused : nat) : Fetched :=
  {| result := {| success := false; data := None; message := Some m |};
     requested := asked; pauses := paused |}.

(** The end of the [try] block: [processTransactions], whose error the
    [catch] turns into an unsuccessful result like any other. *)
Definition finish (allTransactions : list Bybit.Order) (asked : list nat) (paused : nat)
    : Fetched :=
  match Summary.processTransactions allTransactions with
  | Ok processedData =>
      {| result := {| success := true; data := Some processedData; message := None |};
         requested := asked; pauses := paused |}
  | Throw m => failed m asked paused
  end.

Definition getAndProcessAllOrders (getAllOrders : Pages) (initialPage pageSize : nat)
    : Fetched :=
  match getAllOrders initialPage with
  | Throw m => failed m [initialPage] O
  | Ok response =>
      if negb (ret_code response =? 0) then
        failed (Js.or_else (ret_msg response) Bybit.failedToFetch) [initialPage] O
      else
        let firstPageTransactions := itemsOf response in
        let totalCount := countOf response in
        if ((pageSize <? totalCount) && (0 <? totalCount))%nat then
          let totalPages := totalPagesOf totalCount pageSize in
          match furtherPages getAllOrders (totalPages - initialPage) (S initialPage)
                  firstPageTransactions [initialPage] O with
          | (Ok allTransactions, asked, paused) => finish allTransactions asked paused
          | (Throw m, asked, paused) => failed m asked paused
          end
        else finish firstPageTransactions [initialPage] O
  end.

(** A page that answers with [ret_code] 0. *)
Definition answers (getAllOrders : Pages) (page : nat) : Prop :=
  exists response, getAllOrders page = Ok response /\ ret_code response = 0.

(** The items of the answer to a page, none when there is no answer. *)
Definition itemsAt (getAllOrders : Pages) (page : nat) : list Bybit.Order :=
  match getAllOrders page with
  | Ok response => itemsOf response
  | Throw _ => []
  end.

End Paged.

(** ** The export script

    [processCompletedTransactions] of the command-line entry point: three
    attempts to fetch the completed orders, then the CSV file.  Texts of
    the file are sequences of UTF-16 code units. *)

Module Script.

Inductive Attempt : Type :=
| WithoutTime     (* pages of 20, no time bounds *)
| OneDay          (* pages of 10, the last day *)
| Minimal.        (* pages of 5, no time bounds *)

Definition newline : N := 10.
Definition comma : N := 44.

Definition defaultHeaders : Phone.text :=
  Phone.lit
    "id,orderNo,counterparty,status,userId,createdAt,updatedAt,amount,asset,dateTime,originalData,totalPrice,type,unitPrice".

(** [fileContent.split('\n')]: the first line and the lines after it. *)
Fixpoint split (s : Phone.text) : Phone.text * list Phone.text :=
  match s with
  | [] => ([], [])
  | c :: r =>
      let '(line, others) := split r in
      if (c =? newline)%N then ([], line :: others) else (c :: line, others)
  end.

(** [line.trim() !== ''] *)
Definition notBlank (line : Phone.text) : bool :=
  existsb (fun c => negb (Phone.is_space c)) line.

(** [values[1]] of [line.split(',')] is there when the line holds a comma. *)
Definition hasComma (line : Phone.text) : bool :=
  existsb (fun c => (c =? comma)%N) line.

(** The parsing of the existing rows: its result is not read afterwards,
    but a row without a comma makes [values[1].replace] throw. *)
Definition existingParsed (others : list Phone.text) : bool :=
  forallb hasComma (filter notBlank others).

(** [new Date(parseInt(tx.createDate))] is a valid date, so that
    [toISOString] does not throw. *)
Definition validDate (tx : Bybit.Order) : bool :=
  match Bybit.createDate tx with
  | Some s =>
      match Js.parseInt false s with
      | Some t => (Z.abs t <=? 8640000000000000)
      | None => false
      end
  | None => false
  end.

(** [[headers, ...formattedRows].join('\n')] *)
Definition join (headers : Phone.text) (rows : list Phone.text) : Phone.text :=
  headers ++ flat_map (fun row => newline :: row) rows.

Record Outcome : Type := {
  asked : list Attempt;
  written : option Phone.text     (* the file as written, if it was *)
}.

Section Rows.

(** The text of the row of an order with a valid date: quoted fields, the
    date in ISO form, the amounts as the runtime prints them.  It is left
    open here. *)
Variable rowText : Bybit.Order -> Phone.text.

(** From the fetched orders on: the existing file is read, the rows are
    formatted and the file is written; an error thrown on the way is
    caught and logged, and nothing is written. *)
Definition exportRows (existing : option Phone.text) (asked : list Attempt)
    (completedTransactions : list Bybit.Order) : Outcome :=
  match completedTransactions with
  | [] => {| asked := asked; written := None |}
  | _ =>
      let '(headers, parsed) :=
        match existing with
        | Some fileContent =>
            let '(first, others) := split fileContent in
            (first, existingParsed others)
        | None => (defaultHeaders, true)
        end in
      if negb parsed then {| asked := asked; written := None |}
      else if negb (forallb validDate completedTransactions)
      then {| asked := asked; written := None |}
      else
        {| asked := asked;
           written := Some (join headers (map rowText completedTransactions)) |}
  end.

(** [processCompletedTransactions].  [ask] is what
    [parser.getAndProcessAllOrders] gives for each attempt; [existing] is
    the content of [BybitTransaction.csv] when the file is there. *)
Definition processCompletedTransactions (ask : Attempt -> res Bybit.ProcessResult)
    (existing : option Phone.text) : Outcome :=
  match ask WithoutTime with
  | Throw _ => {| asked := [WithoutTime]; written := None |}
  | Ok result =>
      match SyncService.pageTransactions result with
      | Some txs => exportRows existing [WithoutTime] txs
      | None =>
          match ask OneDay with
          | Throw _ => {| asked := [WithoutTime; OneDay]; written := None |}
          | Ok resultWithTime =>
              match SyncService.pageTransactions resultWithTime with
              | Some txs => exportRows existing [WithoutTime; OneDay] txs
              | None =>
                  match ask Minimal with
                  | Throw _ =>
                      {| asked := [WithoutTime; OneDay; Minimal]; written := None |}
                  | Ok minimalResult =>
                      match SyncService.pageTransactions minimalResult with
                      | Some txs => exportRows existing [WithoutTime; OneDay; Minimal] txs
                      | None =>
                          {| asked := [WithoutTime; OneDay; Minimal]; written := None |}
                      end
                  end
              end
          end
      end
  end.

End Rows.

(** The first line of a file. *)
Definition firstLine (fileContent : Phone.text) : Phone.text := fst (split fileContent).

(** The header the export writes. *)
Definition headerOf (existing : option Phone.text) : Phone.text :=
  match existing with
  | Some fileContent => firstLine fileContent
  | None => defaultHeaders
  end.

(** The rows of the existing file let themselves be parsed. *)
Definition readable (existing : option Phone.text) : bool :=
  match existing with
  | Some fileContent => existingParsed (snd (split fileContent))
  | None => true
  end.

(** An attempt that gave orders. *)
Definition fetched (ask : Attempt -> res Bybit.ProcessResult) (attempt : Attempt)
    : option (list Bybit.Order) :=
  match ask attempt with
  | Ok result => SyncService.pageTransactions result
  | Throw _ => None
  end.

End Script.

(** ** The per-user synchronisation when the log file cannot be written

    [SyncService] follows [syncUserTransactions] with a log file that can
    be written but at four places of the [try] block.  This module follows
    the same function with every write of the log file able to fail: [log]
    and [logError] both end in [fs.appendFileSync], which throws when the
    file cannot be written, also before the [try] block and inside the
    handlers.  The store is still taken to answer every call. *)

Module SyncAttempt.

(** What the surroundings answer during one run: the result of
    [parser.getAndProcessAllOrders] for each strategy and page, and for
    each call of [fs.appendFileSync], counted from 0 in the order the run
    makes them, the message of the error it throws, if it throws. *)
Record Env : Type := {
  fetch : SyncService.Strategy -> nat -> res Bybit.ProcessResult;
  appendFails : nat -> option string
}.

(** The store, what the run did so far, and the local variables of
    [syncUserTransactions] that outlive a thrown error. *)
Record State : Type := {
  table : SyncService.Table;
  written : list SyncService.StatusWrite;
  asked : list (SyncService.Strategy * nat);
  appends : nat;
  allCompletedTransactions : list Bybit.Order;
  hasSuccess : bool;
  savedCount : nat
}.

Definition initial (tbl : SyncService.Table) : State :=
  {| table := tbl; written := []; asked := []; appends := O;
     allCompletedTransactions := []; hasSuccess := false; savedCount := O |}.

(** A step of the run: it returns or throws, and leaves a state either
    way. *)
Definition M (A : Type) : Type := State -> res A * State.

Definition ret {A : Type} (a : A) : M A := fun st => (Ok a, st).

Definition throw {A : Type} (m : string) : M A := fun st => (Throw m, st).

Definition bind {A B : Type} (c : M A) (f : A -> M B) : M B :=
  fun st =>
    match c st with
    | (Ok a, st') => f a st'
    | (Throw m, st') => (Throw m, st')
    end.

(** [try { c } catch (error) { h error.message }] *)
Definition tryCatch {A : Type} (c : M A) (h : string -> M A) : M A :=
  fun st =>
    match c st with
    | (Ok a, st') => (Ok a, st')
    | (Throw m, st') => h m st'
    end.

Definition gets {A : Type} (f : State -> A) : M A := fun st => (Ok (f st), st).

Notation "x <- c ;; k" := (bind c (fun x => k))
  (at level 61, c at next level, right associativity).
Notation "c ;; k" := (bind c (fun _ => k))
  (at level 61, right associativity).

Section Run.

Variable env : Env.
Variable now : Js.Date.
Variable user : SyncService.User.

(** [log]: the line is appended to the log file. *)
Definition log : M unit :=
  fun st =>
    let st' :=
      {| table := table st; written := written st; asked := asked st;
         appends := S (appends st);
         allCompletedTransactions := allCompletedTransactions st;
         hasSuccess := hasSuccess st; savedCount := savedCount st |} in
    match appendFails env (appends st) with
    | Some m => (Throw m, st')
    | None => (Ok tt, st')
    end.

(** [logError] appends to the same file. *)
Definition logError : M unit := log.

Definition getAndProcessAllOrders (s : SyncService.Strategy) (page : nat)
    : M Bybit.ProcessResult :=
  fun st =>
    (fetch env s page,
     {| table := table st; written := written st;
        asked := asked st ++ [(s, page)];
        appends := appends st;
        allCompletedTransactions := allCompletedTransactions st;
        hasSuccess := hasSuccess st; savedCount := savedCount st |}).

(** [allCompletedTransactions = [...allCompletedTransactions, ...txs]] *)
Definition collect (txs : list Bybit.Order) : M unit :=
  fun st =>
    (Ok tt,
     {| table := table st; written := written st; asked := asked st;
        appends := appends st;
        allCompletedTransactions := allCompletedTransactions st ++ txs;
        hasSuccess := hasSuccess st; savedCount := savedCount st |}).

(** [hasSuccess = true] *)
Definition succeeded : M unit :=
  fun st =>
    (Ok tt,
     {| table := table st; written := written st; asked := asked st;
        appends := appends st;
        allCompletedTransactions := allCompletedTransactions st;
        hasSuccess := true; savedCount := savedCount st |}).

Definition findFirst (no : string) : M (option SyncService.BybitTransaction) :=
  gets (fun st => SyncService.findFirst no (SyncService.id user) (table st)).

(** [prisma.bybitTransaction.create] *)
Definition create (row : SyncService.BybitTransaction) : M unit :=
  fun st =>
    (Ok tt,
     {| table := SyncService.create row (table st);
        written := written st; asked := asked st; appends := appends st;
        allCompletedTransactions := allCompletedTransactions st;
        hasSuccess := hasSuccess st; savedCount := savedCount st |}).

(** [savedCount++] *)
Definition counted : M unit :=
  fun st =>
    (Ok tt,
     {| table := table st; written := written st; asked := asked st;
        appends := appends st;
        allCompletedTransactions := allCompletedTransactions st;
        hasSuccess := hasSuccess st; savedCount := S (savedCount st) |}).

(** [updateUserSyncStatus]: the store answers, so its handler is not
    entered. *)
Definition updateUserSyncStatus (status : string) : M unit :=
  fun st =>
    (Ok tt,
     {| table := table st;
        written := written st
                   ++ [SyncService.updateUserSyncStatus now (SyncService.id user) status];
        asked := asked st; appends := appends st;
        allCompletedTransactions := allCompletedTransactions st;
        hasSuccess := hasSuccess st; savedCount := savedCount st |}).

(** One turn of a page loop: whether the loop goes on. *)
Inductive Turn : Type :=
| Next
| Break.

Definition onePage (s : SyncService.Strategy) (page : nat) : M Turn :=
  tryCatch
    (result <- getAndProcessAllOrders s page ;;
     match SyncService.pageTransactions result with
     | Some txs => collect txs ;; log ;; succeeded ;; ret Next
     | None => log ;; ret Break
     end)
    (fun _ => logError ;; ret Break).

(** [for (let page = ...; page <= 10; page++)] with [remaining] pages
    left. *)
Fixpoint pages (s : SyncService.Strategy) (remaining page : nat) : M unit :=
  match remaining with
  | O => ret tt
  | S k =>
      turn <- onePage s page ;;
      match turn with
      | Next => pages s k (S page)
      | Break => ret tt
      end
  end.

(** The date of the row: [new Date(timestamp)], which is an invalid date,
    [None], beyond the range of the type; the date of the run when the
    creation date is no positive number, after an error line. *)
Definition dateOf (transaction : Bybit.Order) : M (option Js.Date) :=
  tryCatch
    (match Js.parseInt false (Js.or_else (Bybit.createDate transaction) "0") with
     | Some timestamp =>
         if 0 <? timestamp
         then ret (if Terms.printable timestamp then Some timestamp else None)
         else logError ;; ret (Some now)
     | None => logError ;; ret (Some now)
     end)
    (fun _ => logError ;; ret (Some now)).

(** The row built for a transaction that passed the checks. *)
Definition rowOf (dateTime : Js.Date) (no : string) (transaction : Bybit.Order)
    : SyncService.BybitTransaction :=
  let amount := Js.parseFloat (Js.or_else (Bybit.amount transaction) "0") in
  let unitPrice := Js.parseFloat (Js.or_else (Bybit.price transaction) "0") in
  let totalPrice := Js.mul amount unitPrice in
  {| SyncService.orderNo := no;
     SyncService.counterparty := Js.or_else (Bybit.targetNickName transaction) "Unknown";
     SyncService.status := "Completed";
     SyncService.userId := SyncService.id user;
     SyncService.amount := amount;
     SyncService.asset := Js.or_else (Bybit.tokenId transaction) "USDT";
     SyncService.dateTime := dateTime;
     SyncService.originalData := transaction;
     SyncService.totalPrice := totalPrice;
     SyncService.type := "Sell";
     SyncService.unitPrice := unitPrice;
     SyncService.updatedAt := now |}.

Definition invalidTime : string := "Invalid time value".

(** One turn of the saving loop.  The line logged before the row is
    created prints the date with [toISOString], which throws on an invalid
    date. *)
Definition saveOne (transaction : Bybit.Order) : M unit :=
  tryCatch
    (if (negb (Bybit.side transaction =? 1) || negb (Bybit.status transaction =? 50))%bool
     then ret tt
     else
       let orderNo := Js.or_else (Bybit.id transaction)
                        (Js.or_else (Bybit.orderId transaction) "") in
       if String.eqb orderNo "" then logError
       else
         existingTransaction <- findFirst orderNo ;;
         match existingTransaction with
         | Some _ => log
         | None =>
             dateTime <- dateOf transaction ;;
             match dateTime with
             | None => throw invalidTime
             | Some d => log ;; create (rowOf d orderNo transaction) ;; counted
             end
         end)
    (fun _ => logError).

Fixpoint saveAll (transactions : list Bybit.Order) : M unit :=
  match transactions with
  | [] => ret tt
  | transaction :: rest => saveOne transaction ;; saveAll rest
  end.

(** The [try] block up to the end of the page loops. *)
Definition fetchAll : M unit :=
  log ;;
  log ;;
  pages SyncService.TimeWindow 10 1 ;;
  found <- gets hasSuccess ;;
  if negb found then log ;; pages SyncService.NoTimeWindow 10 1 else ret tt.

(** The rest of the [try] block: the two exits that found nothing, then
    the saving loop and the status of success. *)
Definition conclude : M unit :=
  found <- gets hasSuccess ;;
  if negb found then
    log ;; log ;; updateUserSyncStatus SyncService.noneFound
  else
    transactions <- gets allCompletedTransactions ;;
    if (List.length transactions =? 0)%nat then
      log ;; updateUserSyncStatus SyncService.noneFound
    else
      saveAll transactions ;;
      n <- gets savedCount ;;
      log ;; updateUserSyncStatus (SyncService.savedStatus n).

Definition tryBlock : M unit := fetchAll ;; conclude.

(** [syncUserTransactions]: the credential check and the line logged at
    the start, both outside the [try] block; the [try] block; the outer
    [catch], which logs the error before it writes the error status. *)
Definition syncUserTransactions : M unit :=
  if (negb (Js.truthy (SyncService.bybitApiToken user))
      || negb (Js.truthy (SyncService.bybitApiSecret user)))%bool
  then log
  else
    log ;;
    tryCatch tryBlock
      (fun m => logError ;; updateUserSyncStatus (SyncService.errorStatus m)).

End Run.

(** A run on a table: how it ended and the state it left. *)
Definition run (env : Env) (now : Js.Date) (user : SyncService.User)
    (tbl : SyncService.Table) : res unit * State :=
  syncUserTransactions env now user (initial tbl).



(** A log file that cannot be written at one write of the run. *)
Definition failingAt (fetch : SyncService.Strategy -> nat -> res Bybit.ProcessResult)
    (k : nat) (m : string) : Env :=
  {| fetch := fetch;
     appendFails := fun n => if (n =? k)%nat then Some m else None |}.

(** The fetch state of [SyncService] that a state stands for. *)
Definition fetched (st : State) : SyncService.Fetched :=
  {| SyncService.allCompletedTransactions := allCompletedTransactions st;
     SyncService.hasSuccess := hasSuccess st;
     SyncService.calls := asked st |}.

(** The creation date of a transaction is one the runtime can print. *)
Definition datePrints (transaction : Bybit.Order) : Prop :=
  forall t, Js.parseInt false (Js.or_else (Bybit.createDate transaction) "0") = Some t ->
            Terms.printable t = true.



(** Nothing stored and no status written. *)
Definition still (st st' : State) : Prop :=
  table st' = table st /\ savedCount st' = savedCount st /\ written st' = written st.

(** The last write of the log file failed with the message. *)
Definition faulted (env : Env) (m : string) (st : State) : Prop :=
  exists n, appends st = S n /\ appendFails env n = Some m.

(** A step that throws nothing but the error of a failed write of the log
    file, and that right after the write. *)
Definition onlyFaults (env : Env) {A : Type} (c : M A) : Prop :=
  forall st m, fst (c st) = Throw m -> faulted env m (snd (c st)).

End SyncAttempt.

(** * Properties *)

(** ** The exchange client *)

Section Client.

Import Bybit.
Import Samples.

Lemma syncTime_returns (net : Network) (now : Z) (p : BybitP2PParser) :
  outcome (syncTime net now p) = Ok tt.
Proof.
  unfold syncTime.
  destruct (net GetServerTime) as [m | b]; [reflexivity |].
  destruct (timeNano_of b); reflexivity.
Qed.

Lemma syncTime_failed_state (net : Network) (now : Z) (p : BybitP2PParser) :
  timeRequestFailed net = true ->
  timeSyncComplete (parser (syncTime net now p)) = timeSyncComplete p /\
  (timeOffset (parser (syncTime net now p)) = 0 \/
   timeOffset (parser (syncTime net now p)) = timeOffset p).
Proof.
  unfold timeRequestFailed, syncTime.
  destruct (net GetServerTime) as [m | b].
  - intros _. simpl. auto.
  - destruct (timeNano_of b); [discriminate |].
    intros _. simpl. auto.
Qed.

Lemma p2pRequest_parser (net : Network) (now : Z) (rq : Request) (p : BybitP2PParser) :
  parser (p2pRequest net now rq p) =
  if negb (timeSyncComplete p) then parser (syncTime net now p) else p.
Proof.
  unfold p2pRequest.
  destruct (timeSyncComplete p); simpl.
  - destruct (net rq); reflexivity.
  - rewrite syncTime_returns. destruct (net rq); reflexivity.
Qed.

(** While the flag is down the offset is still the constructor's zero. *)
Lemma unsynced_offset (p : BybitP2PParser) :
  reachable p -> timeSyncComplete p = false -> timeOffset p = 0.
Proof.
  assert (step : forall net now q,
             (timeSyncComplete q = false -> timeOffset q = 0) ->
             timeSyncComplete (parser (syncTime net now q)) = false ->
             timeOffset (parser (syncTime net now q)) = 0).
  { intros net now q IH. unfold syncTime.
    destruct (net GetServerTime) as [m | b]; simpl; [reflexivity |].
    destruct (timeNano_of b); simpl; [discriminate | exact IH]. }
  induction 1 as [key secret | net now p _ IH | net now rq p _ IH].
  - reflexivity.
  - apply step, IH.
  - rewrite p2pRequest_parser.
    destruct (timeSyncComplete p) eqn:E; simpl.
    + rewrite E. discriminate.
    + apply step. intros _. apply IH. reflexivity.
Qed.

(** What the trade-page fetch gives on a parser whose flag is down. *)
Lemma getAndProcessAllOrders_unsynced
    (net : Network) (pg sz : nat) (tok : option string) (sd st : option (list Z))
    (bt et : option Z) (p : BybitP2PParser) :
  timeSyncComplete p = false ->
  getAndProcessAllOrders net pg sz tok sd st bt et p
  = {| outcome := Ok {| success := false; data := None; r_message := Some syncRequired |};
       parser := p; sent := [] |}.
Proof.
  intros H. unfold getAndProcessAllOrders, getAllOrders, makeRequest.
  rewrite H. reflexivity.
Qed.

(** What a failed server-time request leaves of the parser: the [catch]
    resets the offset after a rejected request, and an answer without
    [timeNano] changes nothing. *)
Lemma syncTime_failed_parser (net : Network) (now : Z) (p : BybitP2PParser) :
  timeRequestFailed net = true ->
  sent (syncTime net now p) = [GetServerTime] /\
  parser (syncTime net now p)
  = match net GetServerTime with
    | Rejected _ => set_timeOffset 0 p
    | Replied _ => p
    end.
Proof.
  unfold timeRequestFailed, syncTime.
  destruct (net GetServerTime) as [m | b].
  - intros _. split; reflexivity.
  - destruct (timeNano_of b); [discriminate |].
    intros _. split; reflexivity.
Qed.

(** C10, as stated, fails in two places.  After a failed synchronisation
    the chat fetch, an authenticated call, does not fail: it returns the
    answer of the exchange.  And an answer without [timeNano] resets
    nothing: on a parser synchronised before, three seconds behind the
    server, the flag stays up and the offset stays 3000. *)
Lemma failed_sync_goes_unnoticed :
  timeSyncComplete (parser (syncTime clockDown 1700000000000 freshParser)) = false /\
  outcome (p2pRequest clockDown 1700000060000 chatOf42
             (parser (syncTime clockDown 1700000000000 freshParser)))
  = Ok (ChatBody 0 (Some [])) /\
  timeSyncComplete (parser (syncTime clockAhead 1700000000000 freshParser)) = true /\
  timeOffset (parser (syncTime clockAhead 1700000000000 freshParser)) = 3000 /\
  timeRequestFailed clockMute = true /\
  outcome (syncTime clockMute 1700000060000
             (parser (syncTime clockAhead 1700000000000 freshParser))) = Ok tt /\
  timeSyncComplete
    (parser (syncTime clockMute 1700000060000
               (parser (syncTime clockAhead 1700000000000 freshParser)))) = true /\
  timeOffset
    (parser (syncTime clockMute 1700000060000
               (parser (syncTime clockAhead 1700000000000 freshParser)))) = 3000.
Proof.
  repeat split; vm_compute; reflexivity.
Qed.

(** C10, amended.  [syncTime] never throws.  When the server-time request
    is rejected, or its answer has no [timeNano], it returns normally after
    that one request and leaves [timeSyncComplete] as it was; a rejected
    request resets [timeOffset] to 0, an answer without [timeNano] leaves
    the parser as it was, so that on a parser of the class whose flag is
    down the offset is 0 afterwards in both cases.  On a parser whose flag
    was down, the failure shows afterwards in the calls that go through
    [makeRequest]: it refuses to send, and the trade-page fetch reports the
    refusal as an unsuccessful result; [p2pRequest] shows nothing of it: it
    asks for the server time again, sends its request and returns what the
    exchange answers. *)
Theorem syncTime_failure_is_silent
    (net : Network) (now later : Z) (p : BybitP2PParser)
    (Hfailed : timeRequestFailed net = true) :
  outcome (syncTime net now p) = Ok tt /\
  sent (syncTime net now p) = [GetServerTime] /\
  parser (syncTime net now p)
  = match net GetServerTime with
    | Rejected _ => set_timeOffset 0 p
    | Replied _ => p
    end /\
  timeSyncComplete (parser (syncTime net now p)) = timeSyncComplete p /\
  (reachable p -> timeSyncComplete p = false ->
   timeOffset (parser (syncTime net now p)) = 0) /\
  (timeSyncComplete p = false ->
   forall (rq : Request) (pg sz : nat) (tok : option string) (sd st : option (list Z))
          (bt et : option Z),
     failsFast (makeRequest net rq (parser (syncTime net now p))) /\
     getAndProcessAllOrders net pg sz tok sd st bt et (parser (syncTime net now p))
     = {| outcome := Ok {| success := false; data := None;
                           r_message := Some syncRequired |};
          parser := parser (syncTime net now p); sent := [] |} /\
     outcome (p2pRequest net later rq (parser (syncTime net now p)))
     = match net rq with
       | Rejected m => Throw m
       | Replied b => Ok b
       end /\
     sent (p2pRequest net later rq (parser (syncTime net now p)))
     = [GetServerTime; rq]).
Proof.
  destruct (syncTime_failed_state net now p Hfailed) as [Hflag Hoff].
  destruct (syncTime_failed_parser net now p Hfailed) as [Hsent Hparser].
  split; [apply syncTime_returns |].
  split; [exact Hsent |].
  split; [exact Hparser |].
  split; [exact Hflag |].
  split.
  - intros Hreach Hunsynced.
    destruct Hoff as [H0 | Hsame]; [exact H0 |].
    rewrite Hsame. apply unsynced_offset; assumption.
  - intros Hunsynced rq pg sz tok sd st bt et.
    assert (Hdown : timeSyncComplete (parser (syncTime net now p)) = false)
      by (rewrite Hflag; exact Hunsynced).
    split; [unfold failsFast, makeRequest; rewrite Hdown; split; reflexivity |].
    split; [apply getAndProcessAllOrders_unsynced; exact Hdown |].
    destruct (syncTime_failed_parser net later (parser (syncTime net now p)) Hfailed)
      as [Hagain _].
    unfold p2pRequest. rewrite Hdown. cbn [negb].
    rewrite syncTime_returns, Hagain.
    destruct (net rq); split; reflexivity.
Qed.

(** The theorem at a fresh parser and a network whose time endpoint is
    down. *)
Lemma syncTime_failure_is_silent_witness :
  outcome (syncTime clockDown 1700000000000 freshParser) = Ok tt /\
  sent (syncTime clockDown 1700000000000 freshParser) = [GetServerTime] /\
  parser (syncTime clockDown 1700000000000 freshParser)
  = match clockDown GetServerTime with
    | Rejected _ => set_timeOffset 0 freshParser
    | Replied _ => freshParser
    end /\
  timeSyncComplete (parser (syncTime clockDown 1700000000000 freshParser))
  = timeSyncComplete freshParser /\
  (reachable freshParser -> timeSyncComplete freshParser = false ->
   timeOffset (parser (syncTime clockDown 1700000000000 freshParser)) = 0) /\
  (timeSyncComplete freshParser = false ->
   forall (rq : Request) (pg sz : nat) (tok : option string) (sd st : option (list Z))
          (bt et : option Z),
     failsFast (makeRequest clockDown rq
                  (parser (syncTime clockDown 1700000000000 freshParser))) /\
     getAndProcessAllOrders clockDown pg sz tok sd st bt et
       (parser (syncTime clockDown 1700000000000 freshParser))
     = {| outcome := Ok {| success := false; data := None;
                           r_message := Some syncRequired |};
          parser := parser (syncTime clockDown 1700000000000 freshParser);
          sent := [] |} /\
     outcome (p2pRequest clockDown 1700000060000 rq
                (parser (syncTime clockDown 1700000000000 freshParser)))
     = match clockDown rq with
       | Rejected m => Throw m
       | Replied b => Ok b
       end /\
     sent (p2pRequest clockDown 1700000060000 rq
             (parser (syncTime clockDown 1700000000000 freshParser)))
     = [GetServerTime; rq]).
Proof.
  apply (syncTime_failure_is_silent clockDown 1700000000000 1700000060000 freshParser).
  reflexivity.
Defined.

(** C7, as stated, fails for the chat fetch: with the time endpoint down a
    fresh parser still sends the chat request and returns its answer. *)
Lemma p2pRequest_sends_unsynced :
  timeSyncComplete freshParser = false /\
  ~ failsFast (p2pRequest clockDown 1700000000000 chatOf42 freshParser) /\
  outcome (p2pRequest clockDown 1700000000000 chatOf42 freshParser)
    = Ok (ChatBody 0 (Some [])) /\
  sent (p2pRequest clockDown 1700000000000 chatOf42 freshParser)
    = [GetServerTime; chatOf42] /\
  timeSyncComplete (parser (p2pRequest clockDown 1700000000000 chatOf42 freshParser))
    = false.
Proof.
  repeat split.
  intros [H _]. discriminate H.
Qed.

(** C7, amended.  On a parser whose clock is not synchronised, [makeRequest]
    and [getAllOrders] throw the time-synchronisation error and send
    nothing, and [getAndProcessAllOrders] reports that error as an
    unsuccessful result; [p2pRequest] does not fail fast: it sends the
    server-time request and then the request itself, whether or not the
    clock got synchronised. *)
Theorem unsynced_parser_requests
    (net : Network) (now : Z) (rq : Request) (p : BybitP2PParser)
    (pg sz : nat) (tok : option string) (sd st : option (list Z)) (bt et : option Z)
    (Hunsynced : timeSyncComplete p = false) :
  failsFast (makeRequest net rq p) /\
  failsFast (getAllOrders net pg sz tok sd st bt et p) /\
  outcome (getAndProcessAllOrders net pg sz tok sd st bt et p)
    = Ok {| success := false; data := None; r_message := Some syncRequired |} /\
  sent (getAndProcessAllOrders net pg sz tok sd st bt et p) = [] /\
  sent (p2pRequest net now rq p) = [GetServerTime; rq] /\
  (outcome (p2pRequest net now rq p) = Throw syncRequired -> net rq = Rejected syncRequired).
Proof.
  assert (Hmake : forall r, makeRequest net r p
                            = {| outcome := Throw syncRequired; parser := p; sent := [] |}).
  { intros r. unfold makeRequest. rewrite Hunsynced. reflexivity. }
  unfold failsFast, getAndProcessAllOrders, getAllOrders.
  rewrite !Hmake. simpl.
  repeat split.
  - unfold p2pRequest. rewrite Hunsynced. simpl.
    rewrite syncTime_returns.
    assert (Hs : sent (syncTime net now p) = [GetServerTime]).
    { unfold syncTime. destruct (net GetServerTime) as [m | b]; [reflexivity |].
      destruct (timeNano_of b); reflexivity. }
    destruct (net rq); simpl; rewrite Hs; reflexivity.
  - unfold p2pRequest. rewrite Hunsynced. simpl.
    rewrite syncTime_returns.
    destruct (net rq) as [m | b]; simpl; intros H; [congruence | discriminate].
Qed.

(** The theorem at a fresh parser. *)
Lemma unsynced_parser_requests_witness :
  failsFast (makeRequest clockDown chatOf42 freshParser) /\
  failsFast (getAllOrders clockDown 1 20 None None (Some [50]) None None freshParser) /\
  outcome (getAndProcessAllOrders clockDown 1 20 None None (Some [50]) None None freshParser)
    = Ok {| success := false; data := None; r_message := Some syncRequired |} /\
  sent (getAndProcessAllOrders clockDown 1 20 None None (Some [50]) None None freshParser)
    = [] /\
  sent (p2pRequest clockDown 1700000000000 chatOf42 freshParser)
    = [GetServerTime; chatOf42] /\
  (outcome (p2pRequest clockDown 1700000000000 chatOf42 freshParser) = Throw syncRequired ->
   clockDown chatOf42 = Rejected syncRequired).
Proof.
  apply (unsynced_parser_requests clockDown 1700000000000 chatOf42 freshParser
           1%nat 20%nat None None (Some [50]) None None).
  reflexivity.
Defined.

End Client.

(** ** The normalisers *)

Section Normalisers.

Import Samples.

Ltac switch_default H :=
  repeat match goal with
         | |- context [Z.eqb ?a ?b] =>
             destruct (Z.eqb_spec a b) as [-> | _];
             [exfalso; apply H; simpl; tauto |]
         end;
  reflexivity.

(** C4, as stated, fails for the cabinet normaliser: its texts are in upper
    case, and code 40 is spelt CANCELED. *)
Lemma cabinet_status_texts_differ :
  CabinetService.status
    (CabinetService.transformCabinetTransactionToDbFormat 0 (order 1 50 "A" "1" "2" "3") 7)
    <> "Completed" /\
  CabinetService.status
    (CabinetService.transformCabinetTransactionToDbFormat 0 (order 1 40 "A" "1" "2" "3") 7)
    <> "Cancelled" /\
  CabinetService.status
    (CabinetService.transformCabinetTransactionToDbFormat 0 (order 1 7 "A" "1" "2" "3") 7)
    <> "Unknown".
Proof.
  repeat split; vm_compute; discriminate.
Qed.

(** C4, amended.  Each normaliser is a fixed function of the status code.
    The CSV export maps 50 to "Completed", 40 to "Cancelled" and a code
    outside its table to "Unknown"; the cabinet normaliser maps 50 to
    "COMPLETED", 40 to "CANCELED" and a code outside its own table to
    "UNKNOWN"; the user synchronisation stores "Completed" for every row. *)
Theorem status_texts
    (other other' : Z)
    (Hexport : ~ In other [5; 10; 20; 30; 40; 50; 60; 70; 80; 90; 100; 110])
    (Hcabinet : ~ In other' [40; 50; 30; 20; 0]) :
  Bybit.exportToMatchingFormat_status 50 = "Completed" /\
  Bybit.exportToMatchingFormat_status 40 = "Cancelled" /\
  Bybit.exportToMatchingFormat_status other = "Unknown" /\
  (forall now tx cabinet,
      CabinetService.status (CabinetService.transformCabinetTransactionToDbFormat now tx cabinet)
      = CabinetService.statusOf (Bybit.status tx)) /\
  CabinetService.statusOf 50 = "COMPLETED" /\
  CabinetService.statusOf 40 = "CANCELED" /\
  CabinetService.statusOf other' = "UNKNOWN" /\
  (forall now uid no tx,
      SyncService.status (SyncService.toRow now uid no tx) = "Completed").
Proof.
  repeat split.
  - unfold Bybit.exportToMatchingFormat_status. switch_default Hexport.
  - unfold CabinetService.statusOf. switch_default Hcabinet.
Qed.

(** The theorem at codes 7 and 5, which the two tables lack. *)
Lemma status_texts_witness :
  Bybit.exportToMatchingFormat_status 50 = "Completed" /\
  Bybit.exportToMatchingFormat_status 40 = "Cancelled" /\
  Bybit.exportToMatchingFormat_status 7 = "Unknown" /\
  (forall now tx cabinet,
      CabinetService.status (CabinetService.transformCabinetTransactionToDbFormat now tx cabinet)
      = CabinetService.statusOf (Bybit.status tx)) /\
  CabinetService.statusOf 50 = "COMPLETED" /\
  CabinetService.statusOf 40 = "CANCELED" /\
  CabinetService.statusOf 5 = "UNKNOWN" /\
  (forall now uid no tx,
      SyncService.status (SyncService.toRow now uid no tx) = "Completed").
Proof.
  apply (status_texts 7 5); simpl; lia.
Defined.

End Normalisers.

(** ** The per-user synchronisation *)

Section UserSync.

Import SyncService.
Import Notions.

Lemma findFirst_none_rows (no : string) (uid : Z) (tbl : Table) :
  findFirst no uid tbl = None <-> userRows no uid tbl = O.
Proof.
  unfold findFirst, userRows.
  induction tbl as [| r tbl IH]; simpl.
  - tauto.
  - destruct (String.eqb (orderNo r) no && (userId r =? uid))%bool; simpl.
    + split; discriminate.
    + exact IH.
Qed.

Lemma findFirst_app (no : string) (uid : Z) (tbl new : Table) (r : BybitTransaction) :
  findFirst no uid tbl = Some r -> findFirst no uid (tbl ++ new) = Some r.
Proof.
  unfold findFirst.
  induction tbl as [| x tbl IH]; simpl; [discriminate |].
  destruct (String.eqb (orderNo x) no && (userId x =? uid))%bool; auto.
Qed.

Lemma findFirst_app_none (no : string) (uid : Z) (tbl new : Table) :
  findFirst no uid tbl = None -> findFirst no uid (tbl ++ new) = findFirst no uid new.
Proof.
  unfold findFirst.
  induction tbl as [| x tbl IH]; simpl; [reflexivity |].
  destruct (String.eqb (orderNo x) no && (userId x =? uid))%bool; [discriminate | auto].
Qed.

Lemma userRows_app (no : string) (uid : Z) (tbl new : Table) :
  userRows no uid (tbl ++ new) = (userRows no uid tbl + userRows no uid new)%nat.
Proof.
  unfold userRows. rewrite filter_app, length_app. reflexivity.
Qed.

(** The two ways a turn of the saving loop ends. *)
Lemma saveOne_cases (now : Z) (uid : Z) (tx : Bybit.Order) (tbl : Table) (n : nat) :
  saveOne now uid tx tbl n = (tbl, n) \/
  exists no,
    no <> "" /\ Bybit.side tx = 1 /\ Bybit.status tx = 50 /\
    findFirst no uid tbl = None /\
    saveOne now uid tx tbl n = (tbl ++ [toRow now uid no tx], S n).
Proof.
  unfold saveOne.
  destruct (Z.eqb_spec (Bybit.side tx) 1) as [Hside | _]; simpl; [| now left].
  destruct (Z.eqb_spec (Bybit.status tx) 50) as [Hstatus | _]; simpl; [| now left].
  set (no := Js.or_else (Bybit.id tx) (Js.or_else (Bybit.orderId tx) "")).
  destruct (String.eqb_spec no "") as [_ | Hno]; [now left |].
  destruct (findFirst no uid tbl) eqn:Hfind; [now left |].
  right. exists no. auto.
Qed.

Lemma settled_app (uid : Z) (tx : Bybit.Order) (tbl new : Table) :
  settled uid tx tbl -> settled uid tx (tbl ++ new).
Proof.
  intros H now n. specialize (H now n). revert H. unfold saveOne.
  destruct (negb (Bybit.side tx =? 1) || negb (Bybit.status tx =? 50))%bool;
    [reflexivity |].
  set (no := Js.or_else (Bybit.id tx) (Js.or_else (Bybit.orderId tx) "")).
  destruct (String.eqb no ""); [reflexivity |].
  destruct (findFirst no uid tbl) as [r |] eqn:Hfind.
  - intros _. rewrite (findFirst_app _ _ _ new _ Hfind). reflexivity.
  - unfold create. intros H. injection H as H _.
    exfalso. apply (f_equal (@List.length _)) in H.
    rewrite length_app in H. simpl in H. lia.
Qed.

Lemma saveOne_settles (now : Z) (uid : Z) (tx : Bybit.Order) (tbl : Table) (n : nat) :
  settled uid tx (fst (saveOne now uid tx tbl n)).
Proof.
  intros now' n'. unfold saveOne.
  destruct (negb (Bybit.side tx =? 1) || negb (Bybit.status tx =? 50))%bool;
    [reflexivity |].
  set (no := Js.or_else (Bybit.id tx) (Js.or_else (Bybit.orderId tx) "")).
  destruct (String.eqb no "") eqn:Hno; [reflexivity |].
  destruct (findFirst no uid tbl) as [r |] eqn:Hfind; simpl.
  - rewrite Hfind. reflexivity.
  - assert (Hnew : findFirst no uid (create (toRow now uid no tx) tbl)
                   = Some (toRow now uid no tx)).
    { unfold create. rewrite (findFirst_app_none _ _ _ _ Hfind).
      unfold findFirst. simpl.
      rewrite String.eqb_refl, Z.eqb_refl. reflexivity. }
    rewrite Hnew. reflexivity.
Qed.

Lemma saveAll_extends (now : Z) (uid : Z) (txs : list Bybit.Order) :
  forall tbl n, exists new,
    saveAll now uid txs tbl n = (tbl ++ new, (n + List.length new)%nat) /\
    Forall (fun r => exists tx no,
                In tx txs /\ Bybit.side tx = 1 /\ Bybit.status tx = 50 /\
                no <> "" /\ r = toRow now uid no tx) new.
Proof.
  induction txs as [| tx rest IH]; intros tbl n; simpl.
  - exists []. rewrite app_nil_r, Nat.add_0_r. auto.
  - destruct (saveOne_cases now uid tx tbl n) as [Hsame | (no & Hno & Hsd & Hst & _ & Hadd)].
    + rewrite Hsame. destruct (IH tbl n) as (new & Heq & Hall).
      exists new. split; [exact Heq |].
      eapply Forall_impl; [| exact Hall].
      intros r (tx' & no' & Hin & H). exists tx', no'. split; [now right | exact H].
    + rewrite Hadd. destruct (IH (tbl ++ [toRow now uid no tx]) (S n)) as (new & Heq & Hall).
      exists (toRow now uid no tx :: new). split.
      * rewrite Heq, <- app_assoc. simpl. f_equal. lia.
      * constructor.
        -- exists tx, no. split; [now left | auto].
        -- eapply Forall_impl; [| exact Hall].
           intros r (tx' & no' & Hin & H). exists tx', no'. split; [now right | exact H].
Qed.

Lemma saveAll_settles (now : Z) (uid : Z) (txs : list Bybit.Order) :
  forall tbl n tx, In tx txs -> settled uid tx (fst (saveAll now uid txs tbl n)).
Proof.
  induction txs as [| x rest IH]; intros tbl n tx Hin; [contradiction |].
  simpl. destruct (saveOne now uid x tbl n) as [tbl1 n1] eqn:Hone.
  destruct Hin as [-> | Hin].
  - destruct (saveAll_extends now uid rest tbl1 n1) as (new & Heq & _).
    rewrite Heq. simpl. apply settled_app.
    pose proof (saveOne_settles now uid tx tbl n) as H. rewrite Hone in H. exact H.
  - apply IH, Hin.
Qed.

Lemma saveAll_settled (now : Z) (uid : Z) (txs : list Bybit.Order) (tbl : Table) :
  (forall tx, In tx txs -> settled uid tx tbl) ->
  forall n, saveAll now uid txs tbl n = (tbl, n).
Proof.
  induction txs as [| x rest IH]; intros Hall n; simpl; [reflexivity |].
  rewrite (Hall x (or_introl eq_refl)).
  apply IH. intros tx Hin. apply Hall. now right.
Qed.


(** No key gains a second row. *)
Lemma saveAll_rows (now : Z) (uid : Z) (txs : list Bybit.Order) (no : string) (u : Z) :
  forall tbl n,
    userRows no u (fst (saveAll now uid txs tbl n)) = userRows no u tbl \/
    (userRows no u tbl = O /\ userRows no u (fst (saveAll now uid txs tbl n)) = 1%nat).
Proof.
  induction txs as [| tx rest IH]; intros tbl n; simpl; [now left |].
  destruct (saveOne_cases now uid tx tbl n) as [Hsame | (no' & _ & _ & _ & Hnone & Hadd)].
  - rewrite Hsame. apply IH.
  - rewrite Hadd.
    specialize (IH (tbl ++ [toRow now uid no' tx]) (S n)).
    rewrite userRows_app in IH.
    apply findFirst_none_rows in Hnone.
    assert (Hone : userRows no u [toRow now uid no' tx]
                   = if (String.eqb no' no && (uid =? u))%bool then 1%nat else O).
    { unfold userRows. simpl.
      destruct (String.eqb no' no && (uid =? u))%bool; reflexivity. }
    rewrite Hone in IH. clear Hone.
    destruct (String.eqb no' no) eqn:Hno; simpl in IH; [| lia].
    destruct (uid =? u) eqn:Hu; simpl in IH; [| lia].
    apply String.eqb_eq in Hno. apply Z.eqb_eq in Hu. subst no' uid. lia.
Qed.

(** What a run stores is what the saving loop does with its batch. *)
Lemma sync_saves (env : Env) (now : Z) (user : User) (tbl : Table) :
  (table (syncUserTransactions env now user tbl),
   saved (syncUserTransactions env now user tbl))
  = saveAll now (id user) (batch env user) tbl O.
Proof.
  unfold syncUserTransactions, batch, hasKeys, fetchedBy.
  destruct (Js.truthy (bybitApiToken user)); simpl; [| reflexivity].
  destruct (Js.truthy (bybitApiSecret user)); simpl; [| reflexivity].
  unfold tryBlock.
  destruct (logFails env AtStrategy1); [reflexivity |].
  assert (Hafter : forall st,
             let r := afterFetch env now (id user) tbl st in
             let r' := match thrown r with
                       | Some m =>
                           {| table := table r;
                              written := written r
                                         ++ [updateUserSyncStatus now (id user) (errorStatus m)];
                              asked := asked r; saved := saved r; thrown := None |}
                       | None => r
                       end in
             (table r', saved r')
             = saveAll now (id user)
                 (if hasSuccess st then allCompletedTransactions st else []) tbl O).
  { intros st. unfold afterFetch.
    destruct (hasSuccess st); simpl.
    - destruct (allCompletedTransactions st) as [| tx txs] eqn:Hall; simpl.
      + destruct (logFails env AtNoneFound); reflexivity.
      + destruct (saveOne now (id user) tx tbl 0) as [t1 n1].
        destruct (saveAll now (id user) txs t1 n1) as [t2 n2].
        destruct (logFails env AtSaved); reflexivity.
    - destruct (logFails env AtNoneFound); reflexivity. }
  destruct (hasSuccess (strategy1 env)) eqn:H1; simpl.
  - specialize (Hafter (strategy1 env)). simpl in Hafter.
    rewrite H1 in Hafter |- *. exact Hafter.
  - destruct (logFails env AtFallback); [reflexivity |].
    apply (Hafter (strategy2 env (strategy1 env))).
Qed.

Lemma good_true (ask : nat -> res Bybit.ProcessResult) (page : nat) :
  good ask page = true ->
  exists result txs, ask page = Ok result /\ pageTransactions result = Some txs.
Proof.
  unfold good. destruct (ask page) as [result | m]; [| discriminate].
  destruct (pageTransactions result) as [txs |] eqn:E; [| discriminate].
  intros _. exists result, txs. split; [reflexivity | exact E].
Qed.

(** The pages one strategy asks for: [page], [page + 1], ... up to the first
    page without data, and never more than [remaining] of them. *)
Lemma pages_trace (ask : nat -> res Bybit.ProcessResult) (s : Strategy) :
  forall remaining page st,
  exists k : nat,
    (k <= remaining)%nat /\
    (0 < remaining -> 0 < k)%nat /\
    calls (pages ask s remaining page st) = calls st ++ map (pair s) (seq page k) /\
    (forall q, (page <= q)%nat -> (S q < page + k)%nat -> good ask q = true) /\
    ((k < remaining)%nat -> good ask (page + k - 1) = false) /\
    hasSuccess (pages ask s remaining page st)
    = (hasSuccess st || ((0 <? remaining)%nat && good ask page))%bool.
Proof.
  induction remaining as [| r IH]; intros page st.
  - exists O. simpl. rewrite app_nil_r, orb_false_r.
    repeat split; lia.
  - simpl pages. destruct (good ask page) eqn:Hgood.
    + destruct (good_true _ _ Hgood) as (result & txs & Hask & Htx).
      rewrite Hask, Htx.
      match goal with
      | |- context [pages ask s r (S page) ?st'] =>
          destruct (IH (S page) st') as (k & Hle & Hpos & Hcalls & Hgoods & Hstop & Hsucc)
      end.
      exists (S k). simpl in Hcalls, Hsucc.
      repeat split.
      * lia.
      * lia.
      * rewrite Hcalls, <- app_assoc. reflexivity.
      * intros q H1 H2.
        destruct (Nat.eq_dec q page) as [-> | Hne]; [exact Hgood |].
        apply Hgoods; lia.
      * intros Hlt.
        assert (Hk : (0 < k)%nat) by (apply Hpos; lia).
        replace (page + S k - 1)%nat with (S page + k - 1)%nat by lia.
        apply Hstop. lia.
      * rewrite Hsucc. simpl. rewrite orb_true_r. reflexivity.
    + assert (Hstay :
        hasSuccess (match ask page with
                    | Ok result =>
                        match pageTransactions result with
                        | Some txs =>
                            pages ask s r (S page)
                              {| allCompletedTransactions := allCompletedTransactions st ++ txs;
                                 hasSuccess := true;
                                 calls := calls st ++ [(s, page)] |}
                        | None =>
                            {| allCompletedTransactions := allCompletedTransactions st;
                               hasSuccess := hasSuccess st;
                               calls := calls st ++ [(s, page)] |}
                        end
                    | Throw _ =>
                        {| allCompletedTransactions := allCompletedTransactions st;
                           hasSuccess := hasSuccess st;
                           calls := calls st ++ [(s, page)] |}
                    end) = hasSuccess st /\
        calls (match ask page with
               | Ok result =>
                   match pageTransactions result with
                   | Some txs =>
                       pages ask s r (S page)
                         {| allCompletedTransactions := allCompletedTransactions st ++ txs;
                            hasSuccess := true;
                            calls := calls st ++ [(s, page)] |}
                   | None =>
                       {| allCompletedTransactions := allCompletedTransactions st;
                          hasSuccess := hasSuccess st;
                          calls := calls st ++ [(s, page)] |}
                   end
               | Throw _ =>
                   {| allCompletedTransactions := allCompletedTransactions st;
                      hasSuccess := hasSuccess st;
                      calls := calls st ++ [(s, page)] |}
               end) = calls st ++ [(s, page)]).
      { unfold good in Hgood. destruct (ask page) as [result | m]; [| auto].
        destruct (pageTransactions result); [discriminate | auto]. }
      destruct Hstay as [Hs Hc].
      exists 1%nat. repeat split.
      * lia.
      * lia.
      * rewrite Hc. reflexivity.
      * intros q H1 H2. lia.
      * intros _. replace (page + 1 - 1)%nat with page by lia. exact Hgood.
      * rewrite Hs. simpl. rewrite orb_false_r. reflexivity.
Qed.

Lemma afterFetch_asked (env : Env) (now : Z) (uid : Z) (tbl : Table) (st : Fetched) :
  asked (afterFetch env now uid tbl st) = calls st.
Proof.
  unfold afterFetch.
  destruct (hasSuccess st); simpl.
  - destruct (List.length (allCompletedTransactions st) =? 0)%nat.
    + destruct (logFails env AtNoneFound); reflexivity.
    + destruct (saveAll now uid (allCompletedTransactions st) tbl 0) as [t n].
      destruct (logFails env AtSaved); reflexivity.
  - destruct (logFails env AtNoneFound); reflexivity.
Qed.

(** The calls a run makes are those of the fetch state it ends with. *)
Lemma sync_asked (env : Env) (now : Z) (user : User) (tbl : Table) :
  hasKeys user = true ->
  logFails env AtStrategy1 = None ->
  logFails env AtFallback = None ->
  asked (syncUserTransactions env now user tbl)
  = calls (if hasSuccess (strategy1 env) then strategy1 env
           else strategy2 env (strategy1 env)).
Proof.
  unfold hasKeys, syncUserTransactions, tryBlock. intros Hkeys Hl1 Hl2.
  apply andb_true_iff in Hkeys. destruct Hkeys as [-> ->]. simpl.
  rewrite Hl1.
  destruct (hasSuccess (strategy1 env)); simpl.
  - rewrite <- (afterFetch_asked env now (id user) tbl (strategy1 env)).
    destruct (thrown (afterFetch env now (id user) tbl (strategy1 env))); reflexivity.
  - rewrite Hl2.
    rewrite <- (afterFetch_asked env now (id user) tbl (strategy2 env (strategy1 env))).
    destruct (thrown (afterFetch env now (id user) tbl (strategy2 env (strategy1 env))));
      reflexivity.
Qed.

(** C2.  In a run of the per-user synchronisation whose log does not fail
    before the fetch, the calls of [getAndProcessAllOrders] are pages
    1..k1 of strategy 1 followed by pages 1..k2 of strategy 2, with k1 and
    k2 at most 10; within a strategy every page before the last asked one
    had data, and the loop stopped before the tenth page only at a page
    that was empty, failed or threw; strategy 2 is asked (from its page 1)
    when the first page of strategy 1 had no data, and is not asked at all
    when it had. *)
Theorem fallback_order
    (env : Env) (now : Z) (user : User) (tbl : Table)
    (Hkeys : hasKeys user = true)
    (Hlog1 : logFails env AtStrategy1 = None)
    (Hlog2 : logFails env AtFallback = None) :
  exists k1 k2 : nat,
    asked (syncUserTransactions env now user tbl)
    = map (pair TimeWindow) (seq 1 k1) ++ map (pair NoTimeWindow) (seq 1 k2) /\
    (1 <= k1 <= 10)%nat /\ (k2 <= 10)%nat /\
    (forall q, (1 <= q < k1)%nat -> good (fetch env TimeWindow) q = true) /\
    ((k1 < 10)%nat -> good (fetch env TimeWindow) k1 = false) /\
    (forall q, (1 <= q < k2)%nat -> good (fetch env NoTimeWindow) q = true) /\
    ((0 < k2 < 10)%nat -> good (fetch env NoTimeWindow) k2 = false) /\
    (good (fetch env TimeWindow) 1 = false -> (1 <= k2)%nat) /\
    (good (fetch env TimeWindow) 1 = true -> k2 = O).
Proof.
  rewrite (sync_asked env now user tbl Hkeys Hlog1 Hlog2).
  unfold strategy1, strategy2.
  destruct (pages_trace (fetch env TimeWindow) TimeWindow 10 1 start)
    as (k1 & Hle1 & Hpos1 & Hcalls1 & Hgood1 & Hstop1 & Hsucc1).
  change (hasSuccess start || ((0 <? 10)%nat && good (fetch env TimeWindow) 1))%bool
    with (good (fetch env TimeWindow) 1) in Hsucc1.
  change (calls start ++ map (pair TimeWindow) (seq 1 k1))
    with (map (pair TimeWindow) (seq 1 k1)) in Hcalls1.
  rewrite Hsucc1.
  destruct (good (fetch env TimeWindow) 1) eqn:Hfirst.
  - exists k1, O. rewrite Hcalls1.
    change (map (pair NoTimeWindow) (seq 1 0)) with (@nil (Strategy * nat)).
    rewrite app_nil_r.
    repeat split; try lia; try discriminate.
    + intros q Hq. apply Hgood1; lia.
    + intros Hlt. replace k1 with (1 + k1 - 1)%nat by lia. apply Hstop1. lia.
  - destruct (pages_trace (fetch env NoTimeWindow) NoTimeWindow 10 1
                (pages (fetch env TimeWindow) TimeWindow 10 1 start))
      as (k2 & Hle2 & Hpos2 & Hcalls2 & Hgood2 & Hstop2 & _).
    exists k1, k2. rewrite Hcalls2, Hcalls1.
    repeat split; try lia; try discriminate.
    + intros q Hq. apply Hgood1; lia.
    + intros Hlt. replace k1 with (1 + k1 - 1)%nat by lia. apply Hstop1. lia.
    + intros q Hq. apply Hgood2; lia.
    + intros Hlt. replace k2 with (1 + k2 - 1)%nat by lia. apply Hstop2. lia.
Qed.

(** The theorem at a run whose first strategy finds one sale. *)
Lemma fallback_order_witness :
  exists k1 k2 : nat,
    asked (syncUserTransactions Samples.oneSale 1700000000000 Samples.alice [])
    = map (pair TimeWindow) (seq 1 k1) ++ map (pair NoTimeWindow) (seq 1 k2) /\
    (1 <= k1 <= 10)%nat /\ (k2 <= 10)%nat /\
    (forall q, (1 <= q < k1)%nat -> good (fetch Samples.oneSale TimeWindow) q = true) /\
    ((k1 < 10)%nat -> good (fetch Samples.oneSale TimeWindow) k1 = false) /\
    (forall q, (1 <= q < k2)%nat -> good (fetch Samples.oneSale NoTimeWindow) q = true) /\
    ((0 < k2 < 10)%nat -> good (fetch Samples.oneSale NoTimeWindow) k2 = false) /\
    (good (fetch Samples.oneSale TimeWindow) 1 = false -> (1 <= k2)%nat) /\
    (good (fetch Samples.oneSale TimeWindow) 1 = true -> k2 = O).
Proof.
  apply (fallback_order Samples.oneSale 1700000000000 Samples.alice []); reflexivity.
Defined.

Lemma afterFetch_written (env : Env) (now : Z) (uid : Z) (tbl : Table) (st : Fetched) :
  let r := afterFetch env now uid tbl st in
  match thrown r with
  | Some m =>
      written r = [] /\ exists site, logFails env site = Some m
  | None =>
      written r = [updateUserSyncStatus now uid (savedStatus (saved r))] \/
      (written r = [updateUserSyncStatus now uid noneFound] /\ table r = tbl)
  end.
Proof.
  unfold afterFetch.
  destruct (hasSuccess st); simpl.
  - destruct (List.length (allCompletedTransactions st) =? 0)%nat.
    + destruct (logFails env AtNoneFound) as [m |] eqn:Hlog; simpl.
      * split; [reflexivity | exists AtNoneFound; exact Hlog].
      * right. split; reflexivity.
    + destruct (saveAll now uid (allCompletedTransactions st) tbl 0) as [t n].
      destruct (logFails env AtSaved) as [m |] eqn:Hlog; simpl.
      * split; [reflexivity | exists AtSaved; exact Hlog].
      * left. reflexivity.
  - destruct (logFails env AtNoneFound) as [m |] eqn:Hlog; simpl.
    + split; [reflexivity | exists AtNoneFound; exact Hlog].
    + right. split; reflexivity.
Qed.

(** The one status a run with keys writes, and why. *)
Lemma sync_written (env : Env) (now : Z) (user : User) (tbl : Table) :
  hasKeys user = true ->
  let r := syncUserTransactions env now user tbl in
  thrown r = None /\
  exists s,
    written r = [updateUserSyncStatus now (id user) s] /\
    (s = savedStatus (saved r) \/
     (s = noneFound /\ table r = tbl) \/
     (exists site m, logFails env site = Some m /\ s = errorStatus m)).
Proof.
  unfold hasKeys, syncUserTransactions. intros Hkeys.
  apply andb_true_iff in Hkeys. destruct Hkeys as [-> ->]. simpl.
  assert (Hwrap : forall r0 : Run,
             match thrown r0 with
             | Some m => written r0 = [] /\ exists site, logFails env site = Some m
             | None =>
                 written r0 = [updateUserSyncStatus now (id user) (savedStatus (saved r0))] \/
                 (written r0 = [updateUserSyncStatus now (id user) noneFound]
                  /\ table r0 = tbl)
             end ->
             let r := match thrown r0 with
                      | Some m =>
                          {| table := table r0;
                             written := written r0
                                        ++ [updateUserSyncStatus now (id user) (errorStatus m)];
                             asked := asked r0; saved := saved r0; thrown := None |}
                      | None => r0
                      end in
             thrown r = None /\
             exists s,
               written r = [updateUserSyncStatus now (id user) s] /\
               (s = savedStatus (saved r) \/
                (s = noneFound /\ table r = tbl) \/
                (exists site m, logFails env site = Some m /\ s = errorStatus m))).
  { intros r0. destruct (thrown r0) as [m |] eqn:Hthrown; simpl.
    - intros [Hw [site Hsite]]. split; [reflexivity |].
      exists (errorStatus m). rewrite Hw. split; [reflexivity |].
      right. right. exists site, m. auto.
    - intros [Hw | [Hw Ht]]; (split; [exact Hthrown |]).
      + exists (savedStatus (saved r0)). auto.
      + exists noneFound. auto. }
  apply Hwrap. unfold tryBlock.
  destruct (logFails env AtStrategy1) as [m |] eqn:Hlog1; simpl.
  - split; [reflexivity | exists AtStrategy1; exact Hlog1].
  - destruct (hasSuccess (strategy1 env)); simpl.
    + apply afterFetch_written.
    + destruct (logFails env AtFallback) as [m |] eqn:Hlog2; simpl.
      * split; [reflexivity | exists AtFallback; exact Hlog2].
      * apply afterFetch_written.
Qed.

Lemma sync_new_rows (env : Env) (now : Z) (user : User) (tbl : Table) :
  exists new,
    table (syncUserTransactions env now user tbl) = tbl ++ new /\
    saved (syncUserTransactions env now user tbl) = List.length new /\
    Forall (fun r => exists tx no,
                In tx (batch env user) /\ Bybit.side tx = 1 /\ Bybit.status tx = 50 /\
                no <> "" /\ r = toRow now (id user) no tx) new.
Proof.
  pose proof (sync_saves env now user tbl) as Hsaves.
  destruct (saveAll_extends now (id user) (batch env user) tbl O) as (new & Heq & Hall).
  rewrite Heq in Hsaves. injection Hsaves as Ht Hn.
  exists new. auto.
Qed.

Lemma pages_stop (ask : nat -> res Bybit.ProcessResult) (s : Strategy)
    (k page : nat) (st : Fetched) (result : Bybit.ProcessResult) :
  ask page = Ok result -> pageTransactions result = None ->
  pages ask s (S k) page st
  = {| allCompletedTransactions := allCompletedTransactions st;
       hasSuccess := hasSuccess st;
       calls := calls st ++ [(s, page)] |}.
Proof.
  intros Hask Hnone. cbn [pages]. rewrite Hask, Hnone. reflexivity.
Qed.

(** When the clock could not be synchronised every page fetch is refused by
    the client, so a run asks for the first page of each strategy, stores
    nothing and reports that nothing was found. *)
Lemma unsynced_run_finds_nothing
    (net : Bybit.Network) (now : Z) (user : User) (tbl : Table) :
  Bybit.timeRequestFailed net = true ->
  hasKeys user = true ->
  syncUserTransactions
    {| fetch := parserFetch net now user; logFails := fun _ => None |} now user tbl
  = {| table := tbl;
       written := [updateUserSyncStatus now (id user) noneFound];
       asked := [(TimeWindow, 1%nat); (NoTimeWindow, 1%nat)];
       saved := O;
       thrown := None |}.
Proof.
  intros Hfailed Hkeys.
  assert (Hflag : Bybit.timeSyncComplete
                    (Bybit.parser (Bybit.syncTime net now
                                     (Bybit.new (bybitApiToken user) (bybitApiSecret user))))
                  = false).
  { destruct (syncTime_failed_state net now
                (Bybit.new (bybitApiToken user) (bybitApiSecret user)) Hfailed) as [-> _].
    reflexivity. }
  assert (Hfetch : forall s page,
             parserFetch net now user s page
             = Ok {| Bybit.success := false; Bybit.data := None;
                     Bybit.r_message := Some Bybit.syncRequired |}).
  { intros s page. unfold parserFetch.
    destruct s; rewrite (getAndProcessAllOrders_unsynced _ _ _ _ _ _ _ _ _ Hflag);
      reflexivity. }
  unfold hasKeys in Hkeys. apply andb_true_iff in Hkeys. destruct Hkeys as [Ht Hs].
  unfold syncUserTransactions, tryBlock, strategy1, strategy2.
  rewrite Ht, Hs. cbn [negb orb logFails fetch].
  rewrite (pages_stop _ TimeWindow 9 1 start _ (Hfetch TimeWindow 1%nat) eq_refl).
  cbn [hasSuccess start negb].
  rewrite (pages_stop _ NoTimeWindow 9 1 _ _ (Hfetch NoTimeWindow 1%nat) eq_refl).
  reflexivity.
Qed.

End UserSync.

(** ** The per-user synchronisation when the log file cannot be written *)

Section AttemptSteps.

Import SyncAttempt.

Variable env : Env.
Variable now : Js.Date.
Variable user : SyncService.User.






(** *** Steps that keep a relation between the states *)

Section Keeps.

Variable R : State -> State -> Prop.
Hypothesis R_refl : forall st, R st st.
Hypothesis R_trans : forall a b c, R a b -> R b c -> R a c.






End Keeps.

(** *** Steps that throw nothing but a failed write of the log file *)

Lemma onlyFaults_ret {A : Type} (a : A) : onlyFaults env (ret a).
Proof.
  intros st m H. discriminate H.
Qed.


Lemma onlyFaults_bind {A B : Type} (c : M A) (f : A -> M B) :
  onlyFaults env c -> (forall a, onlyFaults env (f a)) -> onlyFaults env (bind c f).
Proof.
  intros Hc Hf st m. unfold bind.
  specialize (Hc st). destruct (c st) as [[a | m'] st']; cbn [fst snd] in *.
  - apply Hf.
  - intros H. apply Hc. injection H as <-. reflexivity.
Qed.

(** A handler that throws nothing else makes the whole [try] statement
    so, whatever its block throws. *)
Lemma onlyFaults_tryCatch {A : Type} (c : M A) (h : string -> M A) :
  (forall m, onlyFaults env (h m)) -> onlyFaults env (tryCatch c h).
Proof.
  intros Hh st m. unfold tryCatch.
  destruct (c st) as [[a | m'] st']; cbn [fst snd].
  - intros H. discriminate H.
  - apply Hh.
Qed.

Lemma onlyFaults_log : onlyFaults env (log env).
Proof.
  intros st m. unfold log.
  destruct (appendFails env (appends st)) as [m' |] eqn:Hfault; cbn [fst snd].
  - intros H. injection H as <-. exists (appends st). split; [reflexivity | exact Hfault].
  - intros H. discriminate H.
Qed.



(** *** The page loops *)







(** *** The saving loop *)


Lemma onlyFaults_dateOf (transaction : Bybit.Order) :
  onlyFaults env (dateOf env now transaction).
Proof.
  unfold dateOf. apply onlyFaults_tryCatch. intros _.
  apply onlyFaults_bind; [apply onlyFaults_log |]. intros _. apply onlyFaults_ret.
Qed.






(** *** The end of a run *)


(** The exits of the [try] block after the page loops, one by one. *)
Lemma conclude_exits (st : State) :
  conclude env now user st
  = if hasSuccess st then
      if (List.length (allCompletedTransactions st) =? 0)%nat then
        (log env ;; updateUserSyncStatus now user SyncService.noneFound) st
      else
        match saveAll env now user (allCompletedTransactions st) st with
        | (Ok _, st1) =>
            (log env ;;
             updateUserSyncStatus now user (SyncService.savedStatus (savedCount st1))) st1
        | (Throw m, st1) => (Throw m, st1)
        end
    else
      match log env st with
      | (Ok _, st1) =>
          (log env ;; updateUserSyncStatus now user SyncService.noneFound) st1
      | (Throw m, st1) => (Throw m, st1)
      end.
Proof.
  unfold conclude, bind, gets.
  destruct (hasSuccess st); cbn [negb]; [| reflexivity].
  destruct (List.length (allCompletedTransactions st) =? 0)%nat; reflexivity.
Qed.



(** A run on a user holding both keys, step by step. *)
Lemma run_steps (tbl : SyncService.Table) :
  Notions.hasKeys user = true ->
  run env now user tbl
  = match log env (initial tbl) with
    | (Throw m, st1) => (Throw m, st1)
    | (Ok _, st1) =>
        match fetchAll env st1 with
        | (Throw m, st2) =>
            (logError env ;; updateUserSyncStatus now user (SyncService.errorStatus m)) st2
        | (Ok _, st2) =>
            match conclude env now user st2 with
            | (Throw m, st3) =>
                (logError env ;; updateUserSyncStatus now user (SyncService.errorStatus m))
                  st3
            | (Ok u, st3) => (Ok u, st3)
            end
        end
    end.
Proof.
  intros Hkeys. unfold Notions.hasKeys in Hkeys.
  apply andb_true_iff in Hkeys. destruct Hkeys as [Htoken Hsecret].
  unfold run, syncUserTransactions. rewrite Htoken, Hsecret. cbn [negb orb].
  unfold bind at 1. destruct (log env (initial tbl)) as [[u | m] st1]; [| reflexivity].
  unfold tryCatch, tryBlock. unfold bind at 1.
  destruct (fetchAll env st1) as [[u2 | m] st2]; [| reflexivity].
  destruct (conclude env now user st2) as [[u3 | m] st3]; reflexivity.
Qed.


(** *** Agreement with [SyncService] when the log file can be written *)

Lemma log_writable (st : State) :
  (forall n, appendFails env n = None) ->
  fst (log env st) = Ok tt /\
  fetched (snd (log env st)) = fetched st /\ still st (snd (log env st)).
Proof.
  intros Hwritable. unfold log. rewrite Hwritable. repeat split.
Qed.

Lemma onePage_writable (s : SyncService.Strategy) (page : nat) (st : State) :
  (forall n, appendFails env n = None) ->
  onePage env s page st
  = match fetch env s page with
    | Ok result =>
        match SyncService.pageTransactions result with
        | Some txs =>
            (Ok Next,
             {| table := table st; written := written st;
                asked := asked st ++ [(s, page)]; appends := S (appends st);
                allCompletedTransactions := allCompletedTransactions st ++ txs;
                hasSuccess := true; savedCount := savedCount st |})
        | None =>
            (Ok Break,
             {| table := table st; written := written st;
                asked := asked st ++ [(s, page)]; appends := S (appends st);
                allCompletedTransactions := allCompletedTransactions st;
                hasSuccess := hasSuccess st; savedCount := savedCount st |})
        end
    | Throw _ =>
        (Ok Break,
         {| table := table st; written := written st;
            asked := asked st ++ [(s, page)]; appends := S (appends st);
            allCompletedTransactions := allCompletedTransactions st;
            hasSuccess := hasSuccess st; savedCount := savedCount st |})
    end.
Proof.
  intros Hwritable.
  unfold onePage, tryCatch, logError, bind, getAndProcessAllOrders, collect, log,
    succeeded, ret.
  destruct (fetch env s page) as [result | m].
  - destruct (SyncService.pageTransactions result) as [txs |];
      cbn [appends]; rewrite Hwritable; reflexivity.
  - cbn [appends]. rewrite Hwritable. reflexivity.
Qed.

Lemma pages_step (s : SyncService.Strategy) (k page : nat) (st : State) :
  pages env s (S k) page st
  = match onePage env s page st with
    | (Ok Next, st') => pages env s k (S page) st'
    | (Ok Break, st') => (Ok tt, st')
    | (Throw m, st') => (Throw m, st')
    end.
Proof.
  cbn [pages]. unfold bind.
  destruct (onePage env s page st) as [[[|] | m] st']; reflexivity.
Qed.

Lemma pages_writable (s : SyncService.Strategy) (remaining page : nat) (st : State) :
  (forall n, appendFails env n = None) ->
  (forall page result txs,
      fetch env s page = Ok result ->
      SyncService.pageTransactions result = Some txs -> Forall datePrints txs) ->
  Forall datePrints (allCompletedTransactions st) ->
  fst (pages env s remaining page st) = Ok tt /\
  fetched (snd (pages env s remaining page st))
  = SyncService.pages (fetch env s) s remaining page (fetched st) /\
  still st (snd (pages env s remaining page st)) /\
  Forall datePrints (allCompletedTransactions (snd (pages env s remaining page st))).
Proof.
  intros Hwritable Hfetch. revert page st.
  induction remaining as [| k IH]; intros page st Hdates.
  - repeat split. exact Hdates.
  - rewrite pages_step, (onePage_writable s page st Hwritable).
    cbn [SyncService.pages].
    cbn [SyncService.calls SyncService.allCompletedTransactions SyncService.hasSuccess
           fetched].
    destruct (fetch env s page) as [result | m] eqn:Hpage.
    + destruct (SyncService.pageTransactions result) as [txs |] eqn:Htxs.
      * match goal with
        | |- context [pages env s k (S page) ?st2] =>
            destruct (IH (S page) st2) as (Hok & Hfetched & Hstill & Hall)
        end.
        { cbn [allCompletedTransactions]. apply Forall_app. split; [exact Hdates |].
          apply (Hfetch page result txs Hpage Htxs). }
        split; [exact Hok |]. split; [exact Hfetched |]. split; [| exact Hall].
        destruct Hstill as (H1 & H2 & H3). repeat split; assumption.
      * repeat split. exact Hdates.
    + repeat split. exact Hdates.
Qed.

(** The row of this module is the row of [SyncService]. *)
Lemma dateOf_writable (transaction : Bybit.Order) (no : string) (st : State) :
  (forall n, appendFails env n = None) ->
  datePrints transaction ->
  exists d st',
    dateOf env now transaction st = (Ok (Some d), st') /\
    rowOf now user d no transaction
    = SyncService.toRow now (SyncService.id user) no transaction /\
    fetched st' = fetched st /\ still st st'.
Proof.
  intros Hwritable Hprints. unfold dateOf, tryCatch, rowOf, SyncService.toRow, logError.
  unfold datePrints in Hprints.
  destruct (Js.parseInt false (Js.or_else (Bybit.createDate transaction) "0"))
    as [timestamp |].
  - destruct (0 <? timestamp).
    + rewrite (Hprints timestamp eq_refl). unfold ret.
      exists timestamp, st. repeat split.
    + unfold bind, log, ret. rewrite Hwritable.
      eexists now, _. repeat split.
  - unfold bind, log, ret. rewrite Hwritable.
    eexists now, _. repeat split.
Qed.

Lemma saveOne_writable (transaction : Bybit.Order) (st : State) :
  (forall n, appendFails env n = None) ->
  datePrints transaction ->
  exists st',
    saveOne env now user transaction st = (Ok tt, st') /\
    (table st', savedCount st')
    = SyncService.saveOne now (SyncService.id user) transaction (table st) (savedCount st) /\
    written st' = written st /\ fetched st' = fetched st.
Proof.
  intros Hwritable Hprints.
  unfold saveOne, SyncService.saveOne, tryCatch, logError.
  destruct (negb (Bybit.side transaction =? 1) || negb (Bybit.status transaction =? 50))%bool;
    [exists st; repeat split |].
  cbv zeta.
  destruct (String.eqb _ "") eqn:Hno.
  - unfold log. rewrite Hwritable. eexists. repeat split.
  - unfold bind at 1. unfold findFirst, gets. cbv iota beta.
    destruct (SyncService.findFirst _ (SyncService.id user) (table st)) as [existing |].
    + unfold log. rewrite Hwritable. eexists. repeat split.
    + unfold bind at 1.
      destruct (dateOf_writable transaction
                  (Js.or_else (Bybit.id transaction)
                     (Js.or_else (Bybit.orderId transaction) "")) st Hwritable Hprints)
        as (d & st' & -> & Hrow & Hfetched & (Ht & Hn & Hw)).
      unfold bind, log, create, counted. rewrite Hwritable.
      eexists. split; [reflexivity |].
      cbn [fst snd table savedCount written fetched allCompletedTransactions hasSuccess
             asked].
      rewrite Hrow, Ht, Hn, Hw. repeat split.
      unfold fetched in Hfetched. injection Hfetched as -> -> ->. reflexivity.
Qed.

Lemma saveAll_writable (transactions : list Bybit.Order) (st : State) :
  (forall n, appendFails env n = None) ->
  Forall datePrints transactions ->
  exists st',
    saveAll env now user transactions st = (Ok tt, st') /\
    (table st', savedCount st')
    = SyncService.saveAll now (SyncService.id user) transactions (table st) (savedCount st) /\
    written st' = written st /\ fetched st' = fetched st.
Proof.
  intros Hwritable. revert st.
  induction transactions as [| transaction rest IH]; intros st Hdates;
    cbn [saveAll SyncService.saveAll].
  - exists st. repeat split.
  - inversion Hdates as [| ? ? Hone Hrest]; subst.
    destruct (saveOne_writable transaction st Hwritable Hone)
      as (st1 & Hrun & Hsaved & Hw & Hf).
    unfold bind. rewrite Hrun, <- Hsaved.
    destruct (IH st1 Hrest) as (st2 & Hrun' & Hsaved' & Hw' & Hf').
    exists st2. split; [exact Hrun' |]. split; [exact Hsaved' |]. split; congruence.
Qed.

Lemma fetchAll_writable (st : State) :
  (forall n, appendFails env n = None) ->
  (forall s page result txs,
      fetch env s page = Ok result ->
      SyncService.pageTransactions result = Some txs -> Forall datePrints txs) ->
  fetched st = SyncService.start ->
  exists st',
    fetchAll env st = (Ok tt, st') /\
    fetched st'
    = (let st1 := SyncService.pages (fetch env SyncService.TimeWindow)
                    SyncService.TimeWindow 10 1 SyncService.start in
       if negb (SyncService.hasSuccess st1)
       then SyncService.pages (fetch env SyncService.NoTimeWindow)
              SyncService.NoTimeWindow 10 1 st1
       else st1) /\
    still st st' /\
    Forall datePrints (allCompletedTransactions st').
Proof.
  intros Hwritable Hfetch Hstart.
  assert (Hlog : forall st0,
             log env st0
             = (Ok tt,
                {| table := table st0; written := written st0; asked := asked st0;
                   appends := S (appends st0);
                   allCompletedTransactions := allCompletedTransactions st0;
                   hasSuccess := hasSuccess st0; savedCount := savedCount st0 |})).
  { intros st0. unfold log. rewrite Hwritable. reflexivity. }
  unfold fetchAll. unfold bind at 1. rewrite Hlog.
  unfold bind at 1. rewrite Hlog.
  unfold bind at 1.
  match goal with
  | |- context [pages env SyncService.TimeWindow 10 1 ?st2] =>
      destruct (pages_writable SyncService.TimeWindow 10 1 st2 Hwritable
                  (Hfetch SyncService.TimeWindow))
        as (Hok & Hfetched & Hstill & Hall);
      [ cbn [allCompletedTransactions];
        replace (allCompletedTransactions st) with (@nil Bybit.Order)
          by (change (allCompletedTransactions st)
                with (SyncService.allCompletedTransactions (fetched st));
              rewrite Hstart; reflexivity);
        constructor
      | replace (fetched st2) with SyncService.start in Hfetched
          by (rewrite <- Hstart; reflexivity);
        destruct (pages env SyncService.TimeWindow 10 1 st2) as [[[] | m] st3];
        cbn [fst snd] in *; [| discriminate Hok] ]
  end.
  unfold bind at 1. unfold gets at 1. cbv iota beta zeta.
  rewrite <- Hfetched.
  change (SyncService.hasSuccess (fetched st3)) with (hasSuccess st3).
  destruct Hstill as (Ht & Hn & Hw). cbn [table savedCount written] in Ht, Hn, Hw.
  destruct (hasSuccess st3); cbn [negb].
  - exists st3. split; [reflexivity |]. split; [reflexivity |].
    split; [repeat split; assumption | exact Hall].
  - unfold bind at 1. rewrite Hlog.
    match goal with
    | |- context [pages env SyncService.NoTimeWindow 10 1 ?st4] =>
        destruct (pages_writable SyncService.NoTimeWindow 10 1 st4 Hwritable
                    (Hfetch SyncService.NoTimeWindow) Hall)
          as (Hok' & Hfetched' & (Ht' & Hn' & Hw') & Hall');
        destruct (pages env SyncService.NoTimeWindow 10 1 st4) as [[[] | m] st5];
        cbn [fst snd] in *; [| discriminate Hok']
    end.
    cbn [table savedCount written] in Ht', Hn', Hw'.
    exists st5. split; [reflexivity |]. split; [exact Hfetched' |].
    split; [repeat split; congruence | exact Hall'].
Qed.

Lemma conclude_writable (logFails : SyncService.LogSite -> option string) (st : State) :
  (forall n, appendFails env n = None) ->
  (forall site, logFails site = None) ->
  Forall datePrints (allCompletedTransactions st) ->
  written st = [] -> savedCount st = O ->
  exists st',
    conclude env now user st = (Ok tt, st') /\
    {| SyncService.table := table st'; SyncService.written := written st';
       SyncService.asked := asked st'; SyncService.saved := savedCount st';
       SyncService.thrown := None |}
    = SyncService.afterFetch
        {| SyncService.fetch := fetch env; SyncService.logFails := logFails |}
        now (SyncService.id user) (table st) (fetched st).
Proof.
  intros Hwritable Hsites Hdates Hnone Hzero.
  assert (Hlog : forall st0,
             log env st0
             = (Ok tt,
                {| table := table st0; written := written st0; asked := asked st0;
                   appends := S (appends st0);
                   allCompletedTransactions := allCompletedTransactions st0;
                   hasSuccess := hasSuccess st0; savedCount := savedCount st0 |})).
  { intros st0. unfold log. rewrite Hwritable. reflexivity. }
  rewrite conclude_exits. unfold SyncService.afterFetch.
  cbn [SyncService.logFails fetched SyncService.hasSuccess
         SyncService.allCompletedTransactions].
  rewrite !Hsites.
  destruct (hasSuccess st); cbn [negb].
  - destruct (List.length (allCompletedTransactions st) =? 0)%nat.
    + unfold bind. rewrite Hlog. unfold updateUserSyncStatus.
      eexists. split; [reflexivity |].
      cbn [table written asked savedCount]. rewrite Hnone, Hzero. reflexivity.
    + destruct (saveAll_writable (allCompletedTransactions st) st Hwritable Hdates)
        as (st1 & -> & Hsaved & Hw & Hf).
      rewrite Hzero in Hsaved. rewrite <- Hsaved.
      unfold bind. rewrite Hlog. unfold updateUserSyncStatus.
      eexists. split; [reflexivity |].
      cbn [table written asked savedCount]. rewrite Hw, Hnone.
      unfold SyncService.finished. cbn [SyncService.calls fetched].
      replace (asked st1) with (asked st); [reflexivity |].
      change (SyncService.calls (fetched st) = SyncService.calls (fetched st1)).
      rewrite Hf. reflexivity.
  - rewrite Hlog. unfold bind. rewrite Hlog. unfold updateUserSyncStatus.
    eexists. split; [reflexivity |].
    cbn [table written asked savedCount]. rewrite Hnone, Hzero. reflexivity.
Qed.

(** With a log file that can be written, and creation dates the runtime
    can print, a run of this module is the run of [SyncService]. *)
Lemma writable_run_agrees (tbl : SyncService.Table) :
  (forall n, appendFails env n = None) ->
  (forall s page result txs,
      fetch env s page = Ok result ->
      SyncService.pageTransactions result = Some txs -> Forall datePrints txs) ->
  fst (run env now user tbl) = Ok tt /\
  {| SyncService.table := table (snd (run env now user tbl));
     SyncService.written := written (snd (run env now user tbl));
     SyncService.asked := asked (snd (run env now user tbl));
     SyncService.saved := savedCount (snd (run env now user tbl));
     SyncService.thrown := None |}
  = SyncService.syncUserTransactions
      {| SyncService.fetch := fetch env; SyncService.logFails := fun _ => None |}
      now user tbl.
Proof.
  intros Hwritable Hfetch.
  assert (Hlog : forall st0,
             log env st0
             = (Ok tt,
                {| table := table st0; written := written st0; asked := asked st0;
                   appends := S (appends st0);
                   allCompletedTransactions := allCompletedTransactions st0;
                   hasSuccess := hasSuccess st0; savedCount := savedCount st0 |})).
  { intros st0. unfold log. rewrite Hwritable. reflexivity. }
  destruct (Notions.hasKeys user) eqn:Hkeys.
  - rewrite (run_steps tbl Hkeys). rewrite Hlog.
    match goal with
    | |- context [fetchAll env ?st1] =>
        destruct (fetchAll_writable st1 Hwritable Hfetch eq_refl)
          as (st2 & -> & Hfetched & (Ht & Hn & Hw) & Hall)
    end.
    cbn [initial table savedCount written] in Ht, Hn, Hw.
    destruct (conclude_writable (fun _ => None) st2 Hwritable (fun _ => eq_refl)
                Hall Hw Hn) as (st3 & -> & Hsame).
    cbn [fst snd]. split; [reflexivity |]. rewrite Hsame.
    unfold Notions.hasKeys in Hkeys. apply andb_true_iff in Hkeys.
    destruct Hkeys as [Htoken Hsecret].
    unfold SyncService.syncUserTransactions, SyncService.tryBlock,
      SyncService.strategy1, SyncService.strategy2.
    rewrite Htoken, Hsecret. cbn [negb orb SyncService.logFails SyncService.fetch].
    rewrite Hfetched, Ht. cbv zeta.
    assert (Hquiet : forall st,
               SyncService.thrown
                 (SyncService.afterFetch
                    {| SyncService.fetch := fetch env;
                       SyncService.logFails := fun _ => None |}
                    now (SyncService.id user) tbl st) = None).
    { intros st. unfold SyncService.afterFetch. cbn [SyncService.logFails].
      destruct (negb (SyncService.hasSuccess st)); [reflexivity |].
      destruct (List.length (SyncService.allCompletedTransactions st) =? 0)%nat;
        [reflexivity |].
      destruct (SyncService.saveAll now (SyncService.id user)
                  (SyncService.allCompletedTransactions st) tbl O); reflexivity. }
    destruct (negb (SyncService.hasSuccess
                      (SyncService.pages (fetch env SyncService.TimeWindow)
                         SyncService.TimeWindow 10 1 SyncService.start)));
      rewrite Hquiet; reflexivity.
  - unfold run, syncUserTransactions, SyncService.syncUserTransactions.
    unfold Notions.hasKeys in Hkeys. apply andb_false_iff in Hkeys.
    replace (negb (Js.truthy (SyncService.bybitApiToken user))
             || negb (Js.truthy (SyncService.bybitApiSecret user)))%bool with true
      by (destruct Hkeys as [-> | ->]; [reflexivity | apply eq_sym, orb_true_r]).
    rewrite Hlog. split; reflexivity.
Qed.

End AttemptSteps.

(** *** The status of an attempt *)

Section UserAttempt.

Import SyncAttempt.


(** The outer [catch] at work: the line logged after the saving loop, the
    seventh of this run, cannot be written; the row is stored, and the
    status written is that of the error. *)
Lemma error_status_after_save :
  fst (run (failingAt (SyncService.fetch Samples.oneSale) 6 "EIO: i/o error, write")
         1700000000000 Samples.alice []) = Ok tt /\
  written (snd (run (failingAt (SyncService.fetch Samples.oneSale) 6
                       "EIO: i/o error, write")
                  1700000000000 Samples.alice []))
  = [SyncService.updateUserSyncStatus 1700000000000 1
       (SyncService.errorStatus "EIO: i/o error, write")] /\
  List.length (table (snd (run (failingAt (SyncService.fetch Samples.oneSale) 6
                                  "EIO: i/o error, write")
                             1700000000000 Samples.alice []))) = 1%nat /\
  appends (snd (run (failingAt (SyncService.fetch Samples.oneSale) 6
                       "EIO: i/o error, write")
                  1700000000000 Samples.alice [])) = 8%nat.
Proof.
  repeat split; vm_compute; reflexivity.
Qed.



End UserAttempt.

(** ** The cabinet synchronisation *)

Section CabinetSync.

Import CabinetService.
Import Notions.

Lemma findUnique_none_rows (no : string) (tbl : Table) :
  findUnique no tbl = None <-> orderRows no tbl = O.
Proof.
  unfold findUnique, orderRows.
  induction tbl as [| r tbl IH]; simpl; [tauto |].
  destruct (match orderNo (fields r) with
            | Some k => String.eqb k no
            | None => false
            end); simpl.
  - split; discriminate.
  - exact IH.
Qed.



Lemma update_orderRows (key : nat) (d : Patch) (no : string) (tbl : Table) :
  orderRows no (update key d tbl) = orderRows no tbl.
Proof.
  unfold orderRows, update.
  induction tbl as [| r tbl IH]; simpl; [reflexivity |].
  destruct (rowId r =? key)%nat; simpl;
    destruct (match orderNo (fields r) with
              | Some k => String.eqb k no
              | None => false
              end); simpl; rewrite IH; reflexivity.
Qed.


(** The three ways a turn of the cabinet loop ends when the order has an
    [id]; without one it throws. *)
Lemma upsertOne_cases (now : Z) (cabinet : Z) (tx : Bybit.Order) (tbl : Table) :
  match Bybit.id tx with
  | None => upsertOne now cabinet tx tbl = Throw findUniqueWithoutKey
  | Some no =>
      (findUnique no tbl <> None /\ upsertOne now cabinet tx tbl = Ok tbl) \/
      (findUnique no tbl = None /\
       upsertOne now cabinet tx tbl
       = Ok (create (transformCabinetTransactionToDbFormat now tx cabinet) tbl)) \/
      (exists key,
          findUnique no tbl <> None /\
          upsertOne now cabinet tx tbl
          = Ok (update key (statusPatch now (statusOf (Bybit.status tx))) tbl))
  end.
Proof.
  unfold upsertOne. simpl.
  destruct (Bybit.id tx) as [no |]; [| reflexivity].
  destruct (findUnique no tbl) as [existing |] eqn:Hfind.
  - destruct (String.eqb (status (fields existing)) (statusOf (Bybit.status tx))).
    + left. split; [discriminate | reflexivity].
    + right. right. exists (rowId existing). split; [discriminate | reflexivity].
  - right. left. split; reflexivity.
Qed.

Lemma create_orderRows (d : DbRecord) (no : string) (tbl : Table) :
  orderRows no (create d tbl)
  = Nat.add (orderRows no tbl)
      match orderNo d with
      | Some k => if String.eqb k no then 1%nat else O
      | None => O
      end.
Proof.
  unfold orderRows, create. rewrite filter_app, length_app. simpl.
  destruct (orderNo d) as [k |]; [| reflexivity].
  destruct (String.eqb k no); reflexivity.
Qed.








Lemma keptRow_trans (a b c : Row) : keptRow a b -> keptRow b c -> keptRow a c.
Proof.
  unfold keptRow, sameButStatus. intros H1 H2.
  destruct H1 as [-> | (st1 & at1 & ->)]; [exact H2 |].
  destruct H2 as [-> | (st2 & at2 & ->)]; right.
  - exists st1, at1. reflexivity.
  - exists st2, at2. reflexivity.
Qed.

Lemma keptRow_all_refl (tbl : Table) : Forall2 keptRow tbl tbl.
Proof. induction tbl; constructor; [now left | assumption]. Qed.

Lemma keptRow_all_trans (l1 : Table) :
  forall l2 l3, Forall2 keptRow l1 l2 -> Forall2 keptRow l2 l3 -> Forall2 keptRow l1 l3.
Proof.
  induction l1 as [| a l1 IH]; intros l2 l3 H12 H23.
  - inversion H12; subst. inversion H23; subst. constructor.
  - inversion H12 as [| ? b ? l2' Hab H12']; subst.
    inversion H23 as [| ? c ? l3' Hbc H23']; subst.
    constructor; [eapply keptRow_trans; eassumption | eapply IH; eassumption].
Qed.

Lemma update_kept (key : nat) (now : Z) (st : string) (tbl : Table) :
  Forall2 keptRow tbl (update key (statusPatch now st) tbl).
Proof.
  unfold update.
  induction tbl as [| r tbl IH]; simpl; constructor; [| exact IH].
  destruct (rowId r =? key)%nat; [| now left].
  right. exists st, now. reflexivity.
Qed.

Lemma madeFrom_kept (cabinet : Z) (tx : Bybit.Order) (r r' : Row) :
  madeFrom cabinet tx r -> keptRow r r' -> madeFrom cabinet tx r'.
Proof.
  unfold madeFrom. intros H [-> | (st & at' & ->)]; [exact H |].
  simpl. exact H.
Qed.

(** After the loop the old rows are in place, each with at most its status
    renewed, followed by the rows made from orders of the batch. *)
Lemma upsertAll_shape (now : Z) (cabinet : Z) (txs : list Bybit.Order) :
  forall tbl, exists olds new,
    fst (upsertAll now cabinet txs tbl) = olds ++ new /\
    Forall2 keptRow tbl olds /\
    Forall (fun r => exists tx, In tx txs /\ madeFrom cabinet tx r) new.
Proof.
  induction txs as [| tx rest IH]; intros tbl; simpl.
  - exists tbl, []. rewrite app_nil_r. auto using keptRow_all_refl.
  - assert (Hwiden : forall new,
               Forall (fun r => exists tx0, In tx0 rest /\ madeFrom cabinet tx0 r) new ->
               Forall (fun r => exists tx0, In tx0 (tx :: rest) /\ madeFrom cabinet tx0 r) new).
    { intros new. apply Forall_impl. intros r (tx0 & Hin & Hm). exists tx0.
      split; [now right | exact Hm]. }
    pose proof (upsertOne_cases now cabinet tx tbl) as Hcases.
    destruct (Bybit.id tx) as [k |] eqn:Hid.
    + destruct Hcases as [[_ H] | [[_ H] | (key & _ & H)]]; rewrite H.
      * destruct (IH tbl) as (olds & new & Heq & Hold & Hnew).
        exists olds, new. auto.
      * destruct (IH (create (transformCabinetTransactionToDbFormat now tx cabinet) tbl))
          as (olds & new & Heq & Hold & Hnew).
        unfold create in Hold.
        apply Forall2_app_inv_l in Hold.
        destruct Hold as (o1 & o2 & Ho1 & Ho2 & ->).
        exists o1, (o2 ++ new). rewrite Heq, app_assoc.
        split; [reflexivity |]. split; [exact Ho1 |].
        apply Forall_app. split; [| apply Hwiden, Hnew].
        inversion Ho2 as [| ? r0 ? o2' Hkept Hnil]; subst.
        inversion Hnil; subst.
        constructor; [| constructor].
        exists tx. split; [now left |].
        eapply madeFrom_kept; [| exact Hkept].
        unfold madeFrom. simpl. repeat split.
      * destruct (IH (update key (statusPatch now (statusOf (Bybit.status tx))) tbl))
          as (olds & new & Heq & Hold & Hnew).
        exists olds, new. split; [exact Heq |]. split; [| apply Hwiden, Hnew].
        eapply keptRow_all_trans; [apply update_kept | exact Hold].
    + rewrite Hcases. simpl. exists tbl, []. rewrite app_nil_r.
      auto using keptRow_all_refl.
Qed.

(** What a cabinet run stores is what its saving loop does with its batch. *)
Lemma cabinet_sync_table (answer : res Bybit.ProcessResult) (now : Z) (period : Period)
    (cabinet : BybitCabinet) (tbl : Table) :
  table (syncCabinetTransactions answer now period cabinet tbl)
  = fst (upsertAll now (id cabinet) (cabinetBatch answer period cabinet) tbl).
Proof.
  unfold syncCabinetTransactions, cabinetBatch.
  destruct (negb (Js.truthy (bybitApiToken cabinet))
            || negb (Js.truthy (bybitApiSecret cabinet)))%bool; [reflexivity |].
  destruct ((beginDate period <? minTimestamp)
            || (maxTimestamp <? beginDate period))%bool; [reflexivity |].
  destruct ((endDate period + 86400 * 1000 <? minTimestamp)
            || (maxTimestamp <? endDate period + 86400 * 1000))%bool; [reflexivity |].
  destruct answer as [result | m]; [| reflexivity].
  destruct (if Bybit.success result then Bybit.data result else None) as [d |];
    [| reflexivity].
  destruct (Bybit.transactions d) as [| tx txs] eqn:Htx; [reflexivity |].
  change (List.length (tx :: txs) =? 0)%nat with false. cbv iota.
  destruct (upsertAll now (id cabinet) (completedTransactions (tx :: txs)) tbl)
    as [tbl' [m |]]; reflexivity.
Qed.

Lemma cabinetBatch_sells (answer : res Bybit.ProcessResult) (period : Period)
    (cabinet : BybitCabinet) (tx : Bybit.Order) :
  In tx (cabinetBatch answer period cabinet) -> Bybit.side tx = 1.
Proof.
  unfold cabinetBatch.
  destruct (negb (Js.truthy (bybitApiToken cabinet))
            || negb (Js.truthy (bybitApiSecret cabinet)))%bool; [simpl; tauto |].
  destruct ((beginDate period <? minTimestamp)
            || (maxTimestamp <? beginDate period))%bool; [simpl; tauto |].
  destruct ((endDate period + 86400 * 1000 <? minTimestamp)
            || (maxTimestamp <? endDate period + 86400 * 1000))%bool; [simpl; tauto |].
  destruct answer as [result | m]; [| simpl; tauto].
  destruct (if Bybit.success result then Bybit.data result else None) as [d |];
    [| simpl; tauto].
  unfold completedTransactions. intros Hin.
  apply filter_In in Hin. destruct Hin as [_ Hside].
  apply Z.eqb_eq. exact Hside.
Qed.

End CabinetSync.

(** ** What the two synchronisations store *)

Section Persistence.

Import Notions.
Import Samples.


(** C8, as stated, fails on the cabinet path: a completed Buy order the
    exchange returns is not stored. *)
Lemma cabinet_drops_buy_orders :
  Bybit.side (order 0 50 "B" "1.5" "45000" "30000") = 0 /\
  CabinetService.table
    (CabinetService.syncCabinetTransactions
       (pageOf [order 0 50 "B" "1.5" "45000" "30000"])
       1700000000000 november cabinet7 [])
  = [] /\
  CabinetService.written
    (CabinetService.syncCabinetTransactions
       (pageOf [order 0 50 "B" "1.5" "45000" "30000"])
       1700000000000 november cabinet7 [])
  = [CabinetService.updateCabinetSyncStatus 1700000000000 7
       "SUCCESS: Добавлено/обновлено 1 транзакций"].
Proof.
  repeat split; vm_compute; reflexivity.
Qed.

(** C8, amended.  The user synchronisation adds a row only for an order with
    side 1 and status 50, stored as a "Sell" with status "Completed".  The
    cabinet normaliser maps status 50 and status 30 to "COMPLETED" and tags
    side 0 as "BUY" and any other side as "SELL"; the cabinet
    synchronisation hands to it only orders with side 1, so every row it
    adds is a "SELL". *)
Theorem persisted_sides :
  (forall env now user tbl,
      exists new,
        SyncService.table (SyncService.syncUserTransactions env now user tbl) = tbl ++ new /\
        Forall (fun r =>
                  Bybit.side (SyncService.originalData r) = 1 /\
                  Bybit.status (SyncService.originalData r) = 50 /\
                  SyncService.type r = "Sell" /\
                  SyncService.status r = "Completed") new) /\
  CabinetService.statusOf 50 = "COMPLETED" /\
  CabinetService.statusOf 30 = "COMPLETED" /\
  (forall now tx cabinet,
      CabinetService.type (CabinetService.transformCabinetTransactionToDbFormat now tx cabinet)
      = if Bybit.side tx =? 0 then "BUY" else "SELL") /\
  (forall answer now period cabinet tbl,
      exists olds new,
        CabinetService.table
          (CabinetService.syncCabinetTransactions answer now period cabinet tbl)
        = olds ++ new /\
        Forall2 keptRow tbl olds /\
        Forall (fun r =>
                  Bybit.side (CabinetService.originalData (CabinetService.fields r)) = 1 /\
                  CabinetService.type (CabinetService.fields r) = "SELL") new).
Proof.
  split; [| split; [reflexivity | split; [reflexivity | split; [reflexivity |]]]].
  - intros env now user tbl.
    destruct (sync_new_rows env now user tbl) as (new & Ht & _ & Hall).
    exists new. split; [exact Ht |].
    eapply Forall_impl; [| exact Hall].
    intros r (tx & no & _ & Hside & Hstatus & _ & ->). simpl. auto.
  - intros answer now period cabinet tbl.
    rewrite cabinet_sync_table.
    destruct (upsertAll_shape now (CabinetService.id cabinet)
                (cabinetBatch answer period cabinet) tbl) as (olds & new & Heq & Hold & Hnew).
    exists olds, new. split; [exact Heq |]. split; [exact Hold |].
    eapply Forall_impl; [| exact Hnew].
    intros r (tx & Hin & Horig & _ & _ & Htype & _).
    apply cabinetBatch_sells in Hin.
    rewrite Horig, Htype, Hin. split; reflexivity.
Qed.

(** C5, as stated, fails on the cabinet path: the stored total is the
    upstream [amount] field, not the product of the stored amount and unit
    price. *)
Lemma cabinet_total_is_copied :
  CabinetService.totalPrice
    (CabinetService.transformCabinetTransactionToDbFormat 0 (order 1 50 "A" "1.5" "7" "30000") 1)
  <> Js.mul
       (CabinetService.amount
          (CabinetService.transformCabinetTransactionToDbFormat 0
             (order 1 50 "A" "1.5" "7" "30000") 1))
       (CabinetService.unitPrice
          (CabinetService.transformCabinetTransactionToDbFormat 0
             (order 1 50 "A" "1.5" "7" "30000") 1)) /\
  List.map (fun r => CabinetService.totalPrice (CabinetService.fields r))
    (CabinetService.table
       (CabinetService.syncCabinetTransactions
          (pageOf [order 1 50 "A" "1.5" "7" "30000"])
          1700000000000 november cabinet7 []))
  = [Js.parseFloat "7"].
Proof.
  split; [vm_compute; discriminate | vm_compute; reflexivity].
Qed.

(** C5, amended.  Every row the user synchronisation adds stores as
    [totalPrice] the product of its [amount] and [unitPrice], both parsed
    from the [amount] and [price] of the order it was made from; amount 1.5
    and unit price 30000 give 45000.  Every row the cabinet synchronisation
    adds stores as [totalPrice] the parsed upstream [amount], as [amount]
    the parsed [notifyTokenQuantity] and as [unitPrice] the parsed [price]
    of its order. *)
Theorem total_price_sources :
  (forall env now user tbl,
      exists new,
        SyncService.table (SyncService.syncUserTransactions env now user tbl) = tbl ++ new /\
        Forall (fun r =>
                  SyncService.totalPrice r
                  = Js.mul (SyncService.amount r) (SyncService.unitPrice r) /\
                  SyncService.amount r
                  = Js.parseFloat (Js.or_else (Bybit.amount (SyncService.originalData r)) "0") /\
                  SyncService.unitPrice r
                  = Js.parseFloat (Js.or_else (Bybit.price (SyncService.originalData r)) "0"))
               new) /\
  List.map SyncService.totalPrice
    (SyncService.table
       (SyncService.syncUserTransactions oneSale 1700000000000 alice []))
  = [Js.parseFloat "45000.0"] /\
  (forall answer now period cabinet tbl,
      exists olds new,
        CabinetService.table
          (CabinetService.syncCabinetTransactions answer now period cabinet tbl)
        = olds ++ new /\
        Forall2 keptRow tbl olds /\
        Forall (fun r =>
                  let tx := CabinetService.originalData (CabinetService.fields r) in
                  CabinetService.totalPrice (CabinetService.fields r)
                  = Js.parseFloat (Js.or_else (Bybit.amount tx) "0") /\
                  CabinetService.amount (CabinetService.fields r)
                  = Js.parseFloat (Js.or_else (Bybit.notifyTokenQuantity tx) "0") /\
                  CabinetService.unitPrice (CabinetService.fields r)
                  = Js.parseFloat (Js.or_else (Bybit.price tx) "0"))
               new).
Proof.
  split; [| split; [vm_compute; reflexivity |]].
  - intros env now user tbl.
    destruct (sync_new_rows env now user tbl) as (new & Ht & _ & Hall).
    exists new. split; [exact Ht |].
    eapply Forall_impl; [| exact Hall].
    intros r (tx & no & _ & _ & _ & _ & ->). simpl. auto.
  - intros answer now period cabinet tbl.
    rewrite cabinet_sync_table.
    destruct (upsertAll_shape now (CabinetService.id cabinet)
                (cabinetBatch answer period cabinet) tbl) as (olds & new & Heq & Hold & Hnew).
    exists olds, new. split; [exact Heq |]. split; [exact Hold |].
    eapply Forall_impl; [| exact Hnew].
    intros r (tx & _ & Horig & _ & _ & _ & Htotal & Hamount & Hunit).
    cbv zeta. rewrite Horig. auto.
Qed.

End Persistence.

(** ** The phone extractor *)

Section PhoneExtractor.

Import Phone.
Import Notions.
Import Samples.

Lemma take_digits_group (n : nat) :
  forall s d r, take_digits n s = Some (d, r) -> digitGroup n d.
Proof.
  unfold digitGroup.
  induction n as [| n IH]; intros s d r H; simpl in H.
  - injection H as <- _. auto.
  - destruct s as [| c s]; [discriminate |].
    destruct (is_digit c) eqn:Hc; [| discriminate].
    destruct (take_digits n s) as [[d' r'] |] eqn:Htake; [| discriminate].
    injection H as <- _.
    destruct (IH s d' r' Htake) as [Hlen Hall].
    simpl. rewrite Hc, Hlen, Hall. auto.
Qed.

(** The groups a match captures have the sizes the pattern asks for. *)
Lemma match_here_groups (p : list item) :
  forall s g n, match_here p s = Some (g, n) -> Forall2 digitGroup (groupSizes p) g.
Proof.
  induction p as [| it q IH]; intros s g n H; simpl in H.
  - injection H as <- _. constructor.
  - destruct it as [c | k | size]; simpl.
    + destruct s as [| x r]; [discriminate |].
      destruct (x =? c)%N; [| discriminate].
      destruct (match_here q r) as [[g' n'] |] eqn:Hq; [| discriminate].
      injection H as <- _. eapply IH; eassumption.
    + destruct s as [| x r]; [eapply IH; eassumption |].
      destruct (in_cls k x); [| eapply IH; eassumption].
      destruct (match_here q r) as [[g' n'] |] eqn:Hq.
      * injection H as <- _. eapply IH; eassumption.
      * eapply IH; eassumption.
    + destruct (take_digits size s) as [[d r] |] eqn:Htake; [| discriminate].
      destruct (match_here q r) as [[g' n'] |] eqn:Hq; [| discriminate].
      injection H as <- _. constructor.
      * eapply take_digits_group; eassumption.
      * eapply IH; eassumption.
Qed.

Lemma exec_all_groups (p : list item) :
  forall s skip m,
    In m (exec_all p skip s) -> Forall2 digitGroup (groupSizes p) (captured m).
Proof.
  induction s as [| c r IH]; intros skip m Hin; simpl in Hin; [contradiction |].
  destruct skip as [| k]; [| eapply IH; eassumption].
  destruct (match_here p (c :: r)) as [[g n] |] eqn:Hm; [| eapply IH; eassumption].
  destruct Hin as [<- | Hin]; [| eapply IH; eassumption].
  simpl. eapply match_here_groups; eassumption.
Qed.

Lemma phonePatterns_sizes (p : list item) :
  In p phonePatterns -> groupSizes p = [3; 3; 2; 2]%nat.
Proof.
  unfold phonePatterns. simpl.
  intros [<- | [<- | [<- | [<- | [<- | []]]]]]; reflexivity.
Qed.

Lemma filter_digits (d : text) :
  forallb is_digit d = true ->
  filter (fun c => (is_digit c || (c =? plus)%N)%bool) d = d.
Proof.
  induction d as [| c d IH]; simpl; [reflexivity |].
  intros H. apply andb_true_iff in H. destruct H as [Hc Hd].
  rewrite Hc. simpl. rewrite IH; auto.
Qed.

(** The number built from a match of one of the patterns. *)
Lemma phoneNumberOf_groups (m : Match) (g1 g2 g3 g4 : text) :
  captured m = [g1; g2; g3; g4] ->
  digitGroup 3 g1 -> digitGroup 3 g2 -> digitGroup 2 g3 -> digitGroup 2 g4 ->
  phoneNumberOf m = lit "+7" ++ g1 ++ g2 ++ g3 ++ g4 /\
  List.length (phoneNumberOf m) = 12%nat.
Proof.
  intros Hc [L1 D1] [L2 D2] [L3 D3] [L4 D4].
  assert (Heq : phoneNumberOf m = lit "+7" ++ g1 ++ g2 ++ g3 ++ g4).
  { unfold phoneNumberOf, group. rewrite Hc. simpl nth.
    assert (Hsame : (if startsWith (lit "+7") (whole m)
                     then lit "+7" ++ g1 ++ g2 ++ g3 ++ g4
                     else if startsWith (lit "8") (whole m)
                          then lit "+7" ++ g1 ++ g2 ++ g3 ++ g4
                          else lit "+7" ++ g1 ++ g2 ++ g3 ++ g4)
                    = lit "+7" ++ g1 ++ g2 ++ g3 ++ g4).
    { destruct (startsWith (lit "+7") (whole m)); [reflexivity |].
      destruct (startsWith (lit "8") (whole m)); reflexivity. }
    rewrite Hsame.
    rewrite !filter_app.
    rewrite (filter_digits g1 D1), (filter_digits g2 D2),
      (filter_digits g3 D3), (filter_digits g4 D4).
    reflexivity. }
  split; [exact Heq |].
  rewrite Heq, !length_app, L1, L2, L3, L4. reflexivity.
Qed.

Lemma mem_false (x : text) (set : list text) : mem x set = false -> ~ In x set.
Proof.
  unfold mem. intros H Hin.
  assert (Htrue : existsb (text_eqb x) set = true).
  { apply existsb_exists. exists x. split; [exact Hin |].
    unfold text_eqb. destruct (list_eq_dec N.eq_dec x x); [reflexivity | contradiction]. }
  rewrite H in Htrue. discriminate.
Qed.

Lemma add_collected (messages : list (option Bybit.ChatMessage)) (x : text)
    (set : list text) :
  collected messages set -> phoneFrom messages x -> collected messages (add x set).
Proof.
  unfold collected, add. intros [Hnd Hall] Hx.
  destruct (mem x set) eqn:Hmem; [auto |].
  split.
  - apply NoDup_app.
    + exact Hnd.
    + constructor; [intros [] | constructor].
    + intros y Hy [<- | []]. exact (mem_false _ _ Hmem Hy).
  - apply Forall_app. auto.
Qed.

Lemma scanPattern_collected (messages : list (option Bybit.ChatMessage))
    (message : Bybit.ChatMessage) (txt : text) (p : list item) :
  In (Some message) messages ->
  Bybit.contentType message = "str" ->
  Bybit.message message = Some txt ->
  In p phonePatterns ->
  forall set, collected messages set -> collected messages (scanPattern txt set p).
Proof.
  intros Hin Htype Htxt Hp. unfold scanPattern.
  assert (Hms : forall ms set,
             (forall m, In m ms -> In m (exec_all p O txt)) ->
             collected messages set -> collected messages (fold_left addMatch ms set)).
  { induction ms as [| m ms IH]; intros set Hsub Hset; simpl; [exact Hset |].
    apply IH; [intros m' Hm'; apply Hsub; now right |].
    unfold addMatch.
    assert (Hm : In m (exec_all p O txt)) by (apply Hsub; now left).
    pose proof (exec_all_groups p txt O m Hm) as Hg.
    rewrite (phonePatterns_sizes p Hp) in Hg.
    inversion Hg as [| ? g1 ? ? H1 Hg1 Ec]; subst.
    inversion Hg1 as [| ? g2 ? ? H2 Hg2]; subst.
    inversion Hg2 as [| ? g3 ? ? H3 Hg3]; subst.
    inversion Hg3 as [| ? g4 ? ? H4 Hg4]; subst.
    inversion Hg4; subst.
    match goal with
    | E : _ = captured m |- _ => symmetry in E;
        destruct (phoneNumberOf_groups m g1 g2 g3 g4 E H1 H2 H3 H4) as [Heq Hlen];
        rewrite Hlen; simpl; apply add_collected; [exact Hset |];
        exists message, txt, p, m, g1, g2, g3, g4;
        repeat match goal with |- _ /\ _ => split end; auto; congruence
    end. }
  intros set. apply Hms. auto.
Qed.

Lemma scanMessage_collected (all : list (option Bybit.ChatMessage))
    (message : Bybit.ChatMessage) (set : list text) :
  In (Some message) all -> collected all set -> collected all (scanMessage message set).
Proof.
  intros Hin Hset. unfold scanMessage.
  destruct (Bybit.message message) as [[| c r] |] eqn:Htxt; try exact Hset.
  destruct (String.eqb (Bybit.contentType message) "str") eqn:Htype; [| exact Hset].
  apply String.eqb_eq in Htype.
  assert (Hps : forall ps set0,
             (forall p, In p ps -> In p phonePatterns) ->
             collected all set0 ->
             collected all (fold_left (scanPattern (c :: r)) ps set0)).
  { induction ps as [| p ps IHp]; intros set0 Hsub Hset0; [exact Hset0 |].
    cbn [fold_left].
    apply IHp; [intros q Hq; apply Hsub; now right |].
    apply (scanPattern_collected all message (c :: r) p); auto.
    apply Hsub. now left. }
  apply Hps; [intros p Hp; exact Hp | exact Hset].
Qed.

Lemma scanMessages_collected (all : list (option Bybit.ChatMessage)) :
  forall messages set,
    (forall x, In x messages -> In x all) ->
    collected all set ->
    match scanMessages messages set with
    | Ok phones => collected all phones
    | Throw _ => True
    end.
Proof.
  induction messages as [| x rest IH]; intros set Hsub Hset; [exact Hset |].
  destruct x as [message |]; [| exact I].
  cbn [scanMessages].
  apply IH; [intros y Hy; apply Hsub; now right |].
  apply scanMessage_collected; [apply Hsub; now left | exact Hset].
Qed.

Lemma mem_true (x : text) (set : list text) : In x set -> mem x set = true.
Proof.
  intros Hin. unfold mem. apply existsb_exists. exists x. split; [exact Hin |].
  unfold text_eqb. destruct (list_eq_dec N.eq_dec x x); [reflexivity | contradiction].
Qed.

Lemma add_keeps (x y : text) (set : list text) : In y set -> In y (add x set).
Proof.
  unfold add. destruct (mem x set); [auto |]. intros H. apply in_or_app. now left.
Qed.

Lemma add_has (x : text) (set : list text) : In x (add x set).
Proof.
  unfold add. destruct (mem x set) eqn:Hmem.
  - apply existsb_exists in Hmem. destruct Hmem as (y & Hy & Heq).
    unfold text_eqb in Heq. destruct (list_eq_dec N.eq_dec x y); [subst; exact Hy | discriminate].
  - apply in_or_app. right. now left.
Qed.

Lemma add_absorbs (x : text) (set : list text) : In x set -> add x set = set.
Proof. intros H. unfold add. rewrite (mem_true _ _ H). reflexivity. Qed.

(** The loops of one message amount to adding its candidates in order. *)
Lemma scanMessage_adds (message : Bybit.ChatMessage) (set : list text) :
  scanMessage message set = fold_left (fun s x => add x s) (candidates message) set.
Proof.
  unfold scanMessage, candidates.
  destruct (Bybit.message message) as [[| c r] |]; try reflexivity.
  destruct (String.eqb (Bybit.contentType message) "str"); [| reflexivity].
  generalize phonePatterns as ps. intros ps. revert set.
  induction ps as [| p ps IH]; intros set; [reflexivity |].
  cbn [fold_left flat_map]. rewrite fold_left_app, IH. f_equal.
  unfold scanPattern. generalize (exec_all p O (c :: r)) as ms. intros ms. revert set.
  induction ms as [| m ms IHm]; intros set; [reflexivity |].
  cbn [fold_left flat_map]. rewrite fold_left_app, IHm. f_equal.
  unfold addMatch, accepted.
  destruct (List.length (phoneNumberOf m) =? 12)%nat; reflexivity.
Qed.

Lemma adds_keep (xs : list text) :
  forall set y, In y set -> In y (fold_left (fun s x => add x s) xs set).
Proof.
  induction xs as [| x xs IH]; intros set y Hy; [exact Hy |].
  simpl. apply IH, add_keeps, Hy.
Qed.

Lemma adds_have (xs : list text) :
  forall set x, In x xs -> In x (fold_left (fun s x0 => add x0 s) xs set).
Proof.
  induction xs as [| x0 xs IH]; intros set x Hx; [contradiction |].
  simpl. destruct Hx as [-> | Hx]; [apply adds_keep, add_has | apply IH, Hx].
Qed.

Lemma adds_absorb (xs : list text) :
  forall set, (forall x, In x xs -> In x set) ->
              fold_left (fun s x => add x s) xs set = set.
Proof.
  induction xs as [| x xs IH]; intros set Hall; [reflexivity |].
  simpl. rewrite add_absorbs by (apply Hall; now left).
  apply IH. intros y Hy. apply Hall. now right.
Qed.

Lemma scanMessages_app (a b : list (option Bybit.ChatMessage)) :
  forall set,
    scanMessages (a ++ b) set
    = match scanMessages a set with
      | Ok s => scanMessages b s
      | Throw m => Throw m
      end.
Proof.
  induction a as [| x a IH]; intros set; [reflexivity |].
  destruct x as [message |]; [| reflexivity].
  cbn [app scanMessages]. apply IH.
Qed.

(** After a scan the set holds what it held and every candidate of every
    message, and no message was [null]. *)
Lemma scanMessages_holds (messages : list (option Bybit.ChatMessage)) :
  forall set phones,
    scanMessages messages set = Ok phones ->
    (forall y, In y set -> In y phones) /\
    (forall x, In x messages ->
               exists message, x = Some message /\
                               forall y, In y (candidates message) -> In y phones).
Proof.
  induction messages as [| x rest IH]; intros set phones H.
  - injection H as <-. split; [auto | intros x []].
  - destruct x as [message |]; [| discriminate H].
    cbn [scanMessages] in H.
    destruct (IH _ _ H) as [Hkeep Hrest].
    split.
    + intros y Hy. apply Hkeep. rewrite scanMessage_adds. apply adds_keep, Hy.
    + intros x [<- | Hx]; [| apply Hrest, Hx].
      exists message. split; [reflexivity |].
      intros y Hy. apply Hkeep. rewrite scanMessage_adds. apply adds_have, Hy.
Qed.

(** Scanning messages whose candidates are all in the set changes nothing. *)
Lemma scanMessages_absorbs (messages : list (option Bybit.ChatMessage)) :
  forall set,
    (forall x, In x messages ->
               exists message, x = Some message /\
                               forall y, In y (candidates message) -> In y set) ->
    scanMessages messages set = Ok set.
Proof.
  induction messages as [| x rest IH]; intros set Hall; [reflexivity |].
  destruct (Hall x (or_introl eq_refl)) as (message & -> & Hcands).
  cbn [scanMessages]. rewrite scanMessage_adds, (adds_absorb _ _ Hcands).
  apply IH. intros y Hy. apply Hall. now right.
Qed.

(** C3.  The message "Звоните 8 (999) 123-45-67" gives exactly
    "+79991234567", and so does "+7 999 123 45 67", which two patterns
    match; the two messages together, or one of them twice, give that
    single value.  Whatever the messages, the result holds no value twice,
    repeating the messages adds nothing to it, and each value is "+7"
    followed by the four digit groups of a match of one of the patterns in
    a text message, which is what the stripping of other characters
    leaves, and is twelve code units long. *)
Theorem phone_normalisation :
  extractPhoneNumbers [callMe] = Ok [lit "+79991234567"] /\
  extractPhoneNumbers [spaced] = Ok [lit "+79991234567"] /\
  extractPhoneNumbers [callMe; spaced] = Ok [lit "+79991234567"] /\
  extractPhoneNumbers [callMe; callMe] = Ok [lit "+79991234567"] /\
  forall messages,
    match extractPhoneNumbers messages with
    | Ok phones =>
        NoDup phones /\
        Forall (phoneFrom messages) phones /\
        extractPhoneNumbers (messages ++ messages) = Ok phones
    | Throw _ => True
    end.
Proof.
  split; [vm_compute; reflexivity |].
  split; [vm_compute; reflexivity |].
  split; [vm_compute; reflexivity |].
  split; [vm_compute; reflexivity |].
  intros messages. unfold extractPhoneNumbers.
  pose proof (scanMessages_collected messages messages []
                (fun x H => H) (conj (NoDup_nil _) (Forall_nil _))) as Hcollected.
  rewrite scanMessages_app.
  destruct (scanMessages messages []) as [phones | m] eqn:Hscan; [| exact I].
  destruct Hcollected as [Hnodup Hfrom].
  split; [exact Hnodup |]. split; [exact Hfrom |].
  apply scanMessages_absorbs.
  destruct (scanMessages_holds messages [] phones Hscan) as [_ Hall]. exact Hall.
Qed.

End PhoneExtractor.

(** ** The enrichment passes *)

Section Enrichment.

Import Notions.
Import Samples.

Lemma update_rows (key : nat) (d : CabinetService.Patch) (tbl : CabinetService.Table) :
  Forall2 (fun old new =>
             if (CabinetService.rowId old =? key)%nat
             then new = CabinetService.patched d old
             else new = old)
          tbl (CabinetService.update key d tbl).
Proof.
  unfold CabinetService.update.
  induction tbl as [| r tbl IH]; simpl; constructor; [| exact IH].
  destruct (CabinetService.rowId r =? key)%nat; reflexivity.
Qed.

(** C6, as stated, fails for the pass that records phone numbers in
    [bybitOrderInfo]: a transaction whose chat has no message gets no
    record and is still selected as unprocessed afterwards, and when the
    scan of its chat throws nothing is stored for it either. *)
Lemma order_info_pass_leaves_pending :
  Chat.getChatMessages clockDown 1700000000000 (Some "42") (keysOf 1) = [] /\
  OrderInfoService.processUnprocessedTransactions clockDown 1700000000000 keysOf pending42
  = pending42 /\
  OrderInfoService.unprocessedTransactions
    (OrderInfoService.processUnprocessedTransactions clockDown 1700000000000 keysOf pending42)
  = [stored42] /\
  Phone.extractPhoneNumbers
    (Chat.getChatMessages nullChat 1700000000000 (Some "42") (keysOf 1))
  = Throw Phone.nullContentType /\
  OrderInfoService.processUnprocessedTransactions nullChat 1700000000000 keysOf pending42
  = pending42.
Proof.
  repeat split.
Qed.

(** C6, amended.  In the cabinet enrichment pass, for a transaction whose
    cabinet holds both keys, the row with its key is the only one changed:
    when the chat fetch returns no message it is marked processed, its
    phone list (empty since the row was created) and its error left as
    they were; when messages were scanned it is marked processed with the
    numbers found, an empty list when there were none; when the scan throws
    its [processed] flag is left as it was and the error message is stored
    in [lastAttemptError], so an unprocessed row is selected again by the
    next pass.  Rows are created unprocessed with an empty phone list.  The
    pass that records numbers in [bybitOrderInfo] stores nothing for a
    transaction whose chat has no message or no number, or whose scan
    throws. *)
Theorem enrichment_outcomes
    (net : Bybit.Network) (now : Z) (cabinets : Z -> CabinetService.BybitCabinet)
    (transaction : CabinetService.Row) (tbl : CabinetService.Table)
    (Hkeys : cabinetHasKeys
               (cabinets (CabinetService.cabinetId (CabinetService.fields transaction)))
             = true) :
  Forall2 (fun old new =>
             if (CabinetService.rowId old =? CabinetService.rowId transaction)%nat
             then enriched (cabinetChat net now cabinets transaction) old new
             else new = old)
          tbl (CabinetService.enrichOne net now cabinets transaction tbl) /\
  (forall m old new,
      Phone.extractPhoneNumbers (cabinetChat net now cabinets transaction) = Throw m ->
      enriched (cabinetChat net now cabinets transaction) old new ->
      In old (CabinetService.unprocessed [old]) ->
      In new (CabinetService.unprocessed [new])) /\
  (forall at' tx cabinet,
      CabinetService.processed
        (CabinetService.transformCabinetTransactionToDbFormat at' tx cabinet) = false /\
      CabinetService.extractedPhones
        (CabinetService.transformCabinetTransactionToDbFormat at' tx cabinet) = []) /\
  (forall users stored infos,
      match Chat.getChatMessages net now (Some (OrderInfoService.orderNo stored))
              (users (OrderInfoService.userId stored)) with
      | [] => OrderInfoService.processOne net now users stored infos = infos
      | chat =>
          match Phone.extractPhoneNumbers chat with
          | Ok (_ :: _) => True
          | _ => OrderInfoService.processOne net now users stored infos = infos
          end
      end).
Proof.
  split; [| split; [| split]].
  - unfold CabinetService.enrichOne, cabinetHasKeys in *.
    apply andb_true_iff in Hkeys. destruct Hkeys as [Ht Hs].
    rewrite Ht, Hs. simpl.
    fold (cabinetChat net now cabinets transaction).
    unfold CabinetService.enrichAttempt, enriched.
    destruct (cabinetChat net now cabinets transaction) as [| x chat] eqn:Hchat.
    + eapply Forall2_impl; [| apply update_rows].
      intros old new. simpl.
      destruct (CabinetService.rowId old =? CabinetService.rowId transaction)%nat;
        [| auto].
      intros ->. simpl. auto.
    + destruct (Phone.extractPhoneNumbers (x :: chat)) as [phones | m].
      * eapply Forall2_impl; [| apply update_rows].
        intros old new. simpl.
        destruct (CabinetService.rowId old =? CabinetService.rowId transaction)%nat;
          [| auto].
        intros ->. simpl. auto.
      * eapply Forall2_impl; [| apply update_rows].
        intros old new. simpl.
        destruct (CabinetService.rowId old =? CabinetService.rowId transaction)%nat;
          [| auto].
        intros ->. simpl. auto.
  - intros m old new Hthrow [_ Henriched] Hold.
    unfold CabinetService.unprocessed in *. simpl in *.
    destruct (cabinetChat net now cabinets transaction) as [| x chat];
      [discriminate Hthrow |].
    rewrite Hthrow in Henriched. destruct Henriched as (Hp & _ & _).
    rewrite Hp.
    destruct (CabinetService.processed (CabinetService.fields old)); simpl in *;
      [contradiction | now left].
  - intros at' tx cabinet. split; reflexivity.
  - intros users stored infos. unfold OrderInfoService.processOne.
    destruct (negb (Js.truthy (Chat.bybitApiToken (users (OrderInfoService.userId stored))))
              || negb (Js.truthy
                         (Chat.bybitApiSecret (users (OrderInfoService.userId stored)))))%bool.
    + destruct (Chat.getChatMessages net now (Some (OrderInfoService.orderNo stored))
                  (users (OrderInfoService.userId stored))) as [| x chat];
        [reflexivity |].
      destruct (Phone.extractPhoneNumbers (x :: chat)) as [[| ph phs] | m];
        auto.
    + destruct (Chat.getChatMessages net now (Some (OrderInfoService.orderNo stored))
                  (users (OrderInfoService.userId stored))) as [| x chat];
        [reflexivity |].
      destruct (Phone.extractPhoneNumbers (x :: chat)) as [[| ph phs] | m];
        auto.
Qed.

(** The theorem at a row whose chat holds a [null] entry. *)
Lemma enrichment_outcomes_witness :
  Forall2 (fun old new =>
             if (CabinetService.rowId old =? CabinetService.rowId cabinetRow42)%nat
             then enriched (cabinetChat nullChat 1700000000000 (fun _ => cabinet7)
                              cabinetRow42) old new
             else new = old)
          [cabinetRow42]
          (CabinetService.enrichOne nullChat 1700000000000 (fun _ => cabinet7)
             cabinetRow42 [cabinetRow42]) /\
  (forall m old new,
      Phone.extractPhoneNumbers
        (cabinetChat nullChat 1700000000000 (fun _ => cabinet7) cabinetRow42) = Throw m ->
      enriched (cabinetChat nullChat 1700000000000 (fun _ => cabinet7) cabinetRow42)
        old new ->
      In old (CabinetService.unprocessed [old]) ->
      In new (CabinetService.unprocessed [new])) /\
  (forall at' tx cabinet,
      CabinetService.processed
        (CabinetService.transformCabinetTransactionToDbFormat at' tx cabinet) = false /\
      CabinetService.extractedPhones
        (CabinetService.transformCabinetTransactionToDbFormat at' tx cabinet) = []) /\
  (forall users stored infos,
      match Chat.getChatMessages nullChat 1700000000000
              (Some (OrderInfoService.orderNo stored))
              (users (OrderInfoService.userId stored)) with
      | [] => OrderInfoService.processOne nullChat 1700000000000 users stored infos = infos
      | chat =>
          match Phone.extractPhoneNumbers chat with
          | Ok (_ :: _) => True
          | _ => OrderInfoService.processOne nullChat 1700000000000 users stored infos = infos
          end
      end).
Proof.
  apply (enrichment_outcomes nullChat 1700000000000 (fun _ => cabinet7)
           cabinetRow42 [cabinetRow42]).
  reflexivity.
Defined.

End Enrichment.

(** ** The life cycle of the service and the cycle over the users *)

Section ServiceFacts.

Import Notions.

Lemma retry_outcome (connect : nat -> res unit) :
  forall remaining attempts paused,
    (0 < remaining)%nat ->
    (attempts + remaining = Service.dbRetryAttempts)%nat ->
    let c := Service.retry connect remaining attempts paused in
    (attempts < Service.connects c <= Service.dbRetryAttempts)%nat /\
    Service.waits c
    = paused ++ repeat Service.dbRetryDelay (Service.connects c - 1 - attempts) /\
    (forall j, (attempts <= j)%nat -> (S j < Service.connects c)%nat ->
               exists m, connect j = Throw m) /\
    match Service.connected c with
    | Ok _ => connect (Service.connects c - 1)%nat = Ok tt
    | Throw m =>
        m = Service.cannotConnect /\
        Service.connects c = Service.dbRetryAttempts /\
        exists m', connect (Service.connects c - 1)%nat = Throw m'
    end.
Proof.
  induction remaining as [| r IH]; intros attempts paused Hpos Hsum; [lia |].
  cbn [Service.retry].
  destruct (connect attempts) as [[] | m] eqn:Hconnect.
  - cbn. replace (attempts - 0 - attempts)%nat with O by lia.
    rewrite Nat.sub_0_r, app_nil_r.
    repeat split; try lia; auto.
  - destruct (Nat.eqb_spec (S attempts) Service.dbRetryAttempts) as [Hlast | Hmore].
    + cbn. replace (attempts - 0 - attempts)%nat with O by lia.
      rewrite Nat.sub_0_r, app_nil_r.
      repeat split; try lia; auto.
      exists m. exact Hconnect.
    + assert (Hr : (0 < r)%nat) by lia.
      specialize (IH (S attempts) (paused ++ [Service.dbRetryDelay]) Hr ltac:(lia)).
      cbv zeta in IH. destruct IH as (Hrange & Hwaits & Hfailed & Hend).
      split; [lia |]. split; [| split; [| exact Hend]].
      * rewrite Hwaits, <- app_assoc. f_equal.
        replace (Service.connects
                   (Service.retry connect r (S attempts) (paused ++ [Service.dbRetryDelay]))
                 - 1 - attempts)%nat
          with (S (Service.connects
                     (Service.retry connect r (S attempts)
                        (paused ++ [Service.dbRetryDelay])) - 1 - S attempts))%nat by lia.
        reflexivity.
      * intros j H1 H2.
        destruct (Nat.eq_dec j attempts) as [-> | Hne]; [exists m; exact Hconnect |].
        apply Hfailed; lia.
Qed.

(** X1.  [connectWithRetry] calls [$connect] between one and five times,
    stopping at the first call that succeeds; it pauses five seconds after
    each failure but the fifth, and after five failures it throws its own
    error, whatever the store reported. *)
Theorem connectWithRetry_outcome (connect : nat -> res unit) :
  (1 <= Service.connects (Service.connectWithRetry connect) <= 5)%nat /\
  Service.waits (Service.connectWithRetry connect)
  = repeat 5000 (Service.connects (Service.connectWithRetry connect) - 1) /\
  (forall j, (S j < Service.connects (Service.connectWithRetry connect))%nat ->
             exists m, connect j = Throw m) /\
  match Service.connected (Service.connectWithRetry connect) with
  | Ok _ => connect (Service.connects (Service.connectWithRetry connect) - 1)%nat = Ok tt
  | Throw m =>
      m = Service.cannotConnect /\
      Service.connects (Service.connectWithRetry connect) = 5%nat /\
      exists m', connect 4%nat = Throw m'
  end.
Proof.
  unfold Service.connectWithRetry.
  destruct (retry_outcome connect Service.dbRetryAttempts O []
              ltac:(unfold Service.dbRetryAttempts; lia) eq_refl)
    as (Hrange & Hwaits & Hfailed & Hend).
  unfold Service.dbRetryAttempts in *.
  split; [lia |]. split; [| split].
  - rewrite Hwaits. simpl. rewrite Nat.sub_0_r. reflexivity.
  - intros j Hj. apply Hfailed; lia.
  - destruct (Service.connected (Service.retry connect 5 0 [])); [exact Hend |].
    destruct Hend as (Hm & Hfive & m' & Hlast).
    split; [exact Hm |]. split; [exact Hfive |].
    exists m'. rewrite Hfive in Hlast. exact Hlast.
Qed.

Lemma sync_never_throws (env : SyncService.Env) (now : Z) (user : SyncService.User)
    (tbl : SyncService.Table) :
  SyncService.thrown (SyncService.syncUserTransactions env now user tbl) = None.
Proof.
  unfold SyncService.syncUserTransactions.
  destruct (negb (Js.truthy (SyncService.bybitApiToken user))
            || negb (Js.truthy (SyncService.bybitApiSecret user)))%bool; [reflexivity |].
  destruct (SyncService.thrown
              (SyncService.tryBlock env now (SyncService.id user) tbl)) eqn:H;
    [reflexivity | exact H].
Qed.

Lemma sync_keyless (env : SyncService.Env) (now : Z) (user : SyncService.User)
    (tbl : SyncService.Table) :
  hasKeys user = false ->
  SyncService.written (SyncService.syncUserTransactions env now user tbl) = [].
Proof.
  unfold hasKeys, SyncService.syncUserTransactions. intros H.
  destruct (Js.truthy (SyncService.bybitApiToken user));
    destruct (Js.truthy (SyncService.bybitApiSecret user)); try discriminate; reflexivity.
Qed.

(** What one turn of the cycle adds to the status updates. *)
Lemma syncOne_written (envOf : SyncService.User -> SyncService.Env) (now : Z)
    (c : Service.Cycle) (user : SyncService.User) :
  map SyncService.w_userId (Service.written (Service.syncOne envOf now c user))
  = map SyncService.w_userId (Service.written c)
    ++ (if hasKeys user then [SyncService.id user] else []) /\
  Service.pauses (Service.syncOne envOf now c user) = Service.pauses c ++ [1000].
Proof.
  unfold Service.syncOne. cbn [Service.written Service.pauses].
  rewrite sync_never_throws. split; [| reflexivity].
  rewrite map_app. f_equal.
  destruct (hasKeys user) eqn:Hkeys.
  - destruct (sync_written (envOf user) now user (Service.table c) Hkeys)
      as (_ & s & Hw & _).
    rewrite Hw. reflexivity.
  - rewrite sync_keyless by exact Hkeys. reflexivity.
Qed.

Lemma cycle_written (envOf : SyncService.User -> SyncService.Env) (now : Z)
    (us : list SyncService.User) :
  forall c,
    map SyncService.w_userId
      (Service.written (fold_left (Service.syncOne envOf now) us c))
    = map SyncService.w_userId (Service.written c)
      ++ map SyncService.id (filter hasKeys us) /\
    Service.pauses (fold_left (Service.syncOne envOf now) us c)
    = Service.pauses c ++ repeat 1000 (List.length us).
Proof.
  induction us as [| u us IH]; intros c; cbn [fold_left].
  - cbn. rewrite !app_nil_r. auto.
  - destruct (IH (Service.syncOne envOf now c u)) as [Hw Hp].
    destruct (syncOne_written envOf now c u) as [Hw1 Hp1].
    rewrite Hw, Hp, Hw1, Hp1, <- !app_assoc. cbn [filter].
    split.
    + f_equal. destruct (hasKeys u); reflexivity.
    + reflexivity.
Qed.

(** X2.  A cycle of [syncAllUsers] issues exactly one status update for
    each selected user whose two keys are non-empty, in the order of the
    users, and none for a user with an empty key; it pauses one second
    after every selected user, whatever the outcome. *)
Theorem cycle_status_and_pacing
    (users : list SyncService.User) (envOf : SyncService.User -> SyncService.Env)
    (now : Z) (tbl : SyncService.Table) :
  map SyncService.w_userId (Service.written (Service.syncAllUsers users envOf now tbl))
  = map SyncService.id (filter hasKeys (Service.findUsers users)) /\
  Service.pauses (Service.syncAllUsers users envOf now tbl)
  = repeat 1000 (List.length (Service.findUsers users)).
Proof.
  unfold Service.syncAllUsers.
  destruct (cycle_written envOf now (Service.findUsers users)
              {| Service.table := tbl; Service.written := []; Service.pauses := [] |})
    as [Hw Hp].
  rewrite Hw, Hp. split; reflexivity.
Qed.

Lemma sync_rows (env : SyncService.Env) (now : Z) (user : SyncService.User)
    (tbl : SyncService.Table) (no : string) (u : Z) :
  userRows no u (SyncService.table (SyncService.syncUserTransactions env now user tbl))
  = userRows no u tbl \/
  (userRows no u tbl = O /\
   userRows no u (SyncService.table (SyncService.syncUserTransactions env now user tbl))
   = 1%nat).
Proof.
  pose proof (sync_saves env now user tbl) as H.
  replace (SyncService.table (SyncService.syncUserTransactions env now user tbl))
    with (fst (SyncService.saveAll now (SyncService.id user) (batch env user) tbl O))
    by (rewrite <- H; reflexivity).
  apply saveAll_rows.
Qed.

Lemma cycle_unique (envOf : SyncService.User -> SyncService.Env) (now : Z)
    (us : list SyncService.User) :
  forall c,
    Service.uniqueKeys (Service.table c) ->
    Service.uniqueKeys (Service.table (fold_left (Service.syncOne envOf now) us c)).
Proof.
  induction us as [| u us IH]; intros c Hc; cbn [fold_left]; [exact Hc |].
  apply IH. unfold Service.syncOne. cbn [Service.table].
  intros no k. specialize (Hc no k).
  destruct (sync_rows (envOf u) now u (Service.table c) no k) as [-> | [_ ->]]; lia.
Qed.

Lemma cycle_extends (envOf : SyncService.User -> SyncService.Env) (now : Z)
    (us : list SyncService.User) :
  forall c, exists new,
    Service.table (fold_left (Service.syncOne envOf now) us c) = Service.table c ++ new /\
    Forall (fun r => exists user,
                In user us /\ SyncService.userId r = SyncService.id user) new.
Proof.
  induction us as [| u us IH]; intros c; cbn [fold_left].
  - exists []. rewrite app_nil_r. auto.
  - destruct (IH (Service.syncOne envOf now c u)) as (new & Heq & Hall).
    destruct (sync_new_rows (envOf u) now u (Service.table c)) as (new0 & Heq0 & _ & Hall0).
    exists (new0 ++ new).
    assert (Hone : Service.table (Service.syncOne envOf now c u)
                   = SyncService.table
                       (SyncService.syncUserTransactions (envOf u) now u (Service.table c)))
      by reflexivity.
    rewrite Heq, Hone, Heq0, <- app_assoc. split; [reflexivity |].
    apply Forall_app. split.
    + eapply Forall_impl; [| exact Hall0].
      intros r (tx & no & _ & _ & _ & _ & ->). exists u. split; [now left | reflexivity].
    + eapply Forall_impl; [| exact Hall].
      intros r (user & Hin & Hid). exists user. split; [now right | exact Hid].
Qed.

(** X3.  A cycle of [syncAllUsers] keeps the rows it finds, in place, adds
    rows only under the identifiers of the users it selected, and keeps the
    table free of two rows with the same order number and user when it was
    so before. *)
Theorem cycle_keeps_keys_unique
    (users : list SyncService.User) (envOf : SyncService.User -> SyncService.Env)
    (now : Z) (tbl : SyncService.Table)
    (Hunique : Service.uniqueKeys tbl) :
  Service.uniqueKeys (Service.table (Service.syncAllUsers users envOf now tbl)) /\
  exists new,
    Service.table (Service.syncAllUsers users envOf now tbl) = tbl ++ new /\
    Forall (fun r => exists user,
                In user (Service.findUsers users) /\
                SyncService.userId r = SyncService.id user) new.
Proof.
  unfold Service.syncAllUsers. split.
  - apply cycle_unique. exact Hunique.
  - apply (cycle_extends envOf now (Service.findUsers users)
             {| Service.table := tbl; Service.written := []; Service.pauses := [] |}).
Qed.

(** The theorem at the empty table. *)
Lemma cycle_keeps_keys_unique_witness :
  Service.uniqueKeys
    (Service.table
       (Service.syncAllUsers [Samples.alice; Samples.keyless] (fun _ => Samples.oneSale)
          1700000000000 [])) /\
  exists new,
    Service.table
      (Service.syncAllUsers [Samples.alice; Samples.keyless] (fun _ => Samples.oneSale)
         1700000000000 []) = [] ++ new /\
    Forall (fun r => exists user,
                In user (Service.findUsers [Samples.alice; Samples.keyless]) /\
                SyncService.userId r = SyncService.id user) new.
Proof.
  apply (cycle_keeps_keys_unique [Samples.alice; Samples.keyless]
           (fun _ => Samples.oneSale) 1700000000000 []).
  intros no u. unfold userRows. simpl. lia.
Defined.

(** A user's batch is settled in a table. *)
Lemma sync_settled (env : SyncService.Env) (now : Z) (user : SyncService.User)
    (tbl : SyncService.Table) :
  (forall tx, In tx (batch env user) -> settled (SyncService.id user) tx tbl) ->
  SyncService.table (SyncService.syncUserTransactions env now user tbl) = tbl.
Proof.
  intros Hall. pose proof (sync_saves env now user tbl) as H.
  rewrite (saveAll_settled now (SyncService.id user) (batch env user) tbl Hall) in H.
  injection H as H _. exact H.
Qed.

Lemma sync_settles (env : SyncService.Env) (now : Z) (user : SyncService.User)
    (tbl : SyncService.Table) (tx : Bybit.Order) :
  In tx (batch env user) ->
  settled (SyncService.id user) tx
    (SyncService.table (SyncService.syncUserTransactions env now user tbl)).
Proof.
  intros Hin. pose proof (sync_saves env now user tbl) as H.
  replace (SyncService.table (SyncService.syncUserTransactions env now user tbl))
    with (fst (SyncService.saveAll now (SyncService.id user) (batch env user) tbl O))
    by (rewrite <- H; reflexivity).
  apply saveAll_settles. exact Hin.
Qed.

Lemma cycle_settles (envOf : SyncService.User -> SyncService.Env) (now : Z)
    (us : list SyncService.User) :
  forall c user tx,
    In user us -> In tx (batch (envOf user) user) ->
    settled (SyncService.id user) tx
      (Service.table (fold_left (Service.syncOne envOf now) us c)).
Proof.
  induction us as [| u us IH]; intros c user tx Hin Htx; [contradiction |].
  cbn [fold_left]. destruct Hin as [-> | Hin]; [| apply IH; assumption].
  destruct (cycle_extends envOf now us (Service.syncOne envOf now c user))
    as (new & -> & _).
  apply settled_app. unfold Service.syncOne. cbn [Service.table].
  apply sync_settles. exact Htx.
Qed.

Lemma cycle_settled (envOf : SyncService.User -> SyncService.Env) (now : Z)
    (us : list SyncService.User) :
  forall c,
    (forall user tx, In user us -> In tx (batch (envOf user) user) ->
                     settled (SyncService.id user) tx (Service.table c)) ->
    Service.table (fold_left (Service.syncOne envOf now) us c) = Service.table c.
Proof.
  induction us as [| u us IH]; intros c Hall; cbn [fold_left]; [reflexivity |].
  assert (Hsame : Service.table (Service.syncOne envOf now c u) = Service.table c).
  { unfold Service.syncOne. cbn [Service.table]. apply sync_settled.
    intros tx Htx. apply Hall; [now left | exact Htx]. }
  rewrite IH; [exact Hsame |].
  intros user tx Hin Htx. rewrite Hsame. apply Hall; [now right | exact Htx].
Qed.

(** X4.  A second cycle of [syncAllUsers] over the same users and the same
    answers of the exchange leaves the table as the first cycle left it. *)
Theorem cycle_twice
    (users : list SyncService.User) (envOf : SyncService.User -> SyncService.Env)
    (now now' : Z) (tbl : SyncService.Table) :
  Service.table
    (Service.syncAllUsers users envOf now'
       (Service.table (Service.syncAllUsers users envOf now tbl)))
  = Service.table (Service.syncAllUsers users envOf now tbl).
Proof.
  unfold Service.syncAllUsers at 1.
  apply (cycle_settled envOf now' (Service.findUsers users)
           {| Service.table := Service.table (Service.syncAllUsers users envOf now tbl);
              Service.written := []; Service.pauses := [] |}).
  intros user tx Hin Htx. cbn [Service.table]. unfold Service.syncAllUsers.
  apply cycle_settles; assumption.
Qed.

(** X5.  [start] on a stopped service connects first: when the five
    connection attempts fail it throws, runs no cycle and leaves the
    service stopped, so that it can be started again; when the connection
    succeeds the service is running with its timer set, and starting it
    again does nothing, not even a connection attempt.  [stop] with a
    working disconnection brings a started service back to the stopped
    state. *)
Theorem start_and_stop
    (connect connect' : nat -> res unit) (users : list SyncService.User)
    (envOf : SyncService.User -> SyncService.Env) (now : Z)
    (tbl tbl' : SyncService.Table) (timer : bool) :
  let stopped := {| Service.isRunning := false; Service.syncInterval := timer |} in
  let first := Service.start connect users envOf now stopped tbl in
  match Service.connected (Service.connectWithRetry connect) with
  | Throw m =>
      Service.raised first = Some Service.cannotConnect /\
      Service.firstCycle first = None /\
      Service.state first = stopped
  | Ok _ =>
      Service.raised first = None /\
      Service.state first = {| Service.isRunning := true; Service.syncInterval := true |} /\
      Service.firstCycle first = Some (Service.syncAllUsers users envOf now tbl) /\
      Service.start connect' users envOf now (Service.state first) tbl'
      = {| Service.raised := None; Service.state := Service.state first;
           Service.connection := None; Service.firstCycle := None |} /\
      Service.stop (Ok tt) (Service.state first)
      = {| Service.isRunning := false; Service.syncInterval := false |}
  end.
Proof.
  intros stopped first. unfold first, Service.start. cbn [Service.isRunning stopped].
  destruct (retry_outcome connect Service.dbRetryAttempts O []
              ltac:(unfold Service.dbRetryAttempts; lia) eq_refl) as (_ & _ & _ & Hend).
  fold (Service.connectWithRetry connect) in Hend.
  destruct (Service.connected (Service.connectWithRetry connect)) as [[] | m].
  - repeat split.
  - destruct Hend as (-> & _). repeat split.
Qed.

(** X6.  When the disconnection fails, [stop] has cleared the timer but
    leaves the service marked as running; a later [start] then returns at
    once, without connecting, running a cycle or setting a timer, and only
    a [stop] whose disconnection succeeds lowers the flag. *)
Theorem failed_stop_strands
    (m : string) (connect : nat -> res unit) (users : list SyncService.User)
    (envOf : SyncService.User -> SyncService.Env) (now : Z)
    (s : Service.State) (tbl : SyncService.Table)
    (Hrunning : Service.isRunning s = true) :
  let stranded := Service.stop (Throw m) s in
  stranded = {| Service.isRunning := true; Service.syncInterval := false |} /\
  Service.start connect users envOf now stranded tbl
  = {| Service.raised := None; Service.state := stranded;
       Service.connection := None; Service.firstCycle := None |} /\
  Service.stop (Throw m) stranded = stranded /\
  Service.stop (Ok tt) stranded
  = {| Service.isRunning := false; Service.syncInterval := false |}.
Proof.
  intros stranded. unfold stranded, Service.stop, Service.start.
  rewrite Hrunning. cbn. repeat split.
Qed.

(** The theorem at a running service with its timer set. *)
Lemma failed_stop_strands_witness :
  Service.stop (Throw "connection lost")
    {| Service.isRunning := true; Service.syncInterval := true |}
  = {| Service.isRunning := true; Service.syncInterval := false |} /\
  Service.start (fun _ => Ok tt) [Samples.alice] (fun _ => Samples.oneSale) 1700000000000
    (Service.stop (Throw "connection lost")
       {| Service.isRunning := true; Service.syncInterval := true |}) []
  = {| Service.raised := None;
       Service.state :=
         Service.stop (Throw "connection lost")
           {| Service.isRunning := true; Service.syncInterval := true |};
       Service.connection := None; Service.firstCycle := None |} /\
  Service.stop (Throw "connection lost")
    (Service.stop (Throw "connection lost")
       {| Service.isRunning := true; Service.syncInterval := true |})
  = Service.stop (Throw "connection lost")
      {| Service.isRunning := true; Service.syncInterval := true |} /\
  Service.stop (Ok tt)
    (Service.stop (Throw "connection lost")
       {| Service.isRunning := true; Service.syncInterval := true |})
  = {| Service.isRunning := false; Service.syncInterval := false |}.
Proof.
  apply (failed_stop_strands "connection lost" (fun _ => Ok tt) [Samples.alice]
           (fun _ => Samples.oneSale) 1700000000000
           {| Service.isRunning := true; Service.syncInterval := true |} []).
  reflexivity.
Defined.

End ServiceFacts.


(** ** Further properties of the exchange client *)

Section ClientFacts.

Import Bybit.

(** *** The rounding of the server time *)

Lemma nearest_close (a b : Z) :
  0 <= a -> 0 < b ->
  0 <= Js.nearest a b /\ - b <= 2 * (Js.nearest a b * b - a) <= b.
Proof.
  intros Ha Hb. unfold Js.nearest. cbv zeta.
  pose proof (Z.div_mod a b ltac:(lia)) as Hdiv.
  pose proof (Z.mod_pos_bound a b Hb) as Hmod.
  pose proof (Z.div_pos a b Ha Hb) as Hquot.
  destruct (Z.ltb_spec (2 * (a mod b)) b); [split; lia |].
  destruct (Z.ltb_spec b (2 * (a mod b))); [split; lia |].
  destruct (Z.even (a / b)); split; lia.
Qed.

Lemma binade_le (a b : Z) : Js.binade a b <= Z.log2 a - Z.log2 b.
Proof.
  unfold Js.binade. cbv zeta.
  destruct (if 0 <=? Z.log2 a - Z.log2 b
            then b * 2 ^ (Z.log2 a - Z.log2 b) <=? a
            else b <=? a * 2 ^ (- (Z.log2 a - Z.log2 b))); lia.
Qed.

(** A rounded quotient: its exponent is bounded by the logarithms, and its
    significand is within half a unit of the scaled quotient. *)
Lemma rounded_close (a b : Z) :
  0 < a -> 0 < b ->
  Js.exponent2 (Js.rounded a b) <= Z.log2 a - Z.log2 b - 52 /\
  0 <= Js.significand (Js.rounded a b) /\
  (0 <= Js.exponent2 (Js.rounded a b) ->
   - (b * 2 ^ Js.exponent2 (Js.rounded a b))
   <= 2 * (Js.significand (Js.rounded a b) * (b * 2 ^ Js.exponent2 (Js.rounded a b)) - a)
   <= b * 2 ^ Js.exponent2 (Js.rounded a b)) /\
  (Js.exponent2 (Js.rounded a b) < 0 ->
   - b
   <= 2 * (Js.significand (Js.rounded a b) * b
           - a * 2 ^ (- Js.exponent2 (Js.rounded a b)))
   <= b).
Proof.
  intros Ha Hb. unfold Js.rounded.
  destruct (Z.eqb_spec a 0) as [Hzero | _]; [lia |].
  cbv zeta. cbn [Js.exponent2 Js.significand].
  pose proof (binade_le a b) as Hbin.
  split; [lia |].
  destruct (Z.leb_spec 0 (Js.binade a b - 52)) as [Hk | Hk].
  - assert (Hpow : 0 < 2 ^ (Js.binade a b - 52)) by (apply Z.pow_pos_nonneg; lia).
    destruct (nearest_close a (b * 2 ^ (Js.binade a b - 52)) ltac:(lia) ltac:(nia))
      as [Hn Hc].
    split; [exact Hn |]. split; [intros _; exact Hc | lia].
  - assert (Hpow : 0 < 2 ^ (- (Js.binade a b - 52))) by (apply Z.pow_pos_nonneg; lia).
    destruct (nearest_close (a * 2 ^ (- (Js.binade a b - 52))) b ltac:(nia) Hb)
      as [Hn Hc].
    split; [exact Hn |]. split; [lia | intros _; exact Hc].
Qed.

(** The last step: a quotient by a million within half a unit in the last
    place of a value within 512 of the reading. *)
Lemma floor_close (t v m p : Z) :
  0 <= t -> - 512 <= v - t <= 512 -> 1 <= p ->
  - 1000000 <= 2 * (m * 1000000 - v * p) <= 1000000 ->
  t / 1000000 - 1 <= m / p <= t / 1000000 + 1.
Proof.
  intros Ht Hv Hp Hm.
  pose proof (Z.div_mod t 1000000 ltac:(lia)) as Hq.
  pose proof (Z.mod_pos_bound t 1000000 ltac:(lia)) as Hqr.
  pose proof (Z.div_mod m p ltac:(lia)) as Hs.
  pose proof (Z.mod_pos_bound m p ltac:(lia)) as Hsr.
  set (q := t / 1000000) in *. set (s := m / p) in *.
  set (r := t mod 1000000) in *. set (u := m mod p) in *.
  assert (Hvp1 : v * p <= (t + 512) * p) by (apply Z.mul_le_mono_nonneg_r; lia).
  assert (Hvp2 : (t - 512) * p <= v * p) by (apply Z.mul_le_mono_nonneg_r; lia).
  split.
  - destruct (Z.le_gt_cases (q - 1) s) as [H | H]; [exact H | exfalso].
    assert (Hsp : p * s <= p * (q - 2)) by (apply Z.mul_le_mono_nonneg_l; lia).
    nia.
  - destruct (Z.le_gt_cases s (q + 1)) as [H | H]; [exact H | exfalso].
    assert (Hsp : p * (q + 2) <= p * s) by (apply Z.mul_le_mono_nonneg_l; lia).
    nia.
Qed.

(** What [syncTime] takes for the server time is within a millisecond of
    the reading in nanoseconds divided by a million. *)
Lemma serverTime_close (t : Z) :
  0 <= t < 2 ^ 63 ->
  t / 1000000 - 1
  <= Js.floor (Js.divide (Js.ofInteger t) 1000000)
  <= t / 1000000 + 1.
Proof.
  intros Ht.
  destruct (Z.eq_dec t 0) as [-> | Hpos]; [vm_compute; split; discriminate |].
  assert (Hlog : Z.log2 t <= 62).
  { assert (Z.log2 t < 63) by (apply Z.log2_lt_pow2; lia). lia. }
  unfold Js.ofInteger. destruct (Z.ltb_spec t 0) as [Hneg | _]; [lia |].
  destruct (rounded_close t 1 ltac:(lia) ltac:(lia)) as (Hk1 & Hm1 & Hup1 & Hdown1).
  change (Z.log2 1) with 0 in Hk1.
  set (d1 := Js.rounded t 1) in *.
  unfold Js.divide. cbv zeta.
  destruct (Z.ltb_spec (Js.significand d1) 0) as [Habs | _]; [lia |].
  (* the value of the first double, and the quotient that is rounded next *)
  assert (Hvalue : exists v c a2 b2,
             0 <= v /\ - 512 <= v - t <= 512 /\ 0 < c /\ a2 = v * c /\ b2 = 1000000 * c /\
             Z.log2 a2 - Z.log2 b2 - 52 < 0 /\
             (if 0 <=? Js.exponent2 d1
              then Js.rounded (Js.significand d1 * 2 ^ Js.exponent2 d1) 1000000
              else Js.rounded (Js.significand d1) (1000000 * 2 ^ (- Js.exponent2 d1)))
             = Js.rounded a2 b2).
  { destruct (Z.leb_spec 0 (Js.exponent2 d1)) as [Hk | Hk].
    - specialize (Hup1 Hk). rewrite Z.mul_1_l in Hup1.
      assert (Hp1 : 0 < 2 ^ Js.exponent2 d1 <= 2 ^ 10).
      { split; [apply Z.pow_pos_nonneg; lia | apply Z.pow_le_mono_r; lia]. }
      change (2 ^ 10) with 1024 in Hp1.
      exists (Js.significand d1 * 2 ^ Js.exponent2 d1), 1,
        (Js.significand d1 * 2 ^ Js.exponent2 d1), 1000000.
      split; [nia |].
      split; [lia |]. split; [lia |]. split; [lia |]. split; [reflexivity |].
      split; [| reflexivity].
      change (Z.log2 1000000) with 19.
      destruct (Z.le_gt_cases (Js.significand d1 * 2 ^ Js.exponent2 d1) 0) as [Hz | Hz].
      + rewrite (Z.log2_nonpos _ Hz). lia.
      + assert (Z.log2 (Js.significand d1 * 2 ^ Js.exponent2 d1) < 64).
        { apply Z.log2_lt_pow2; [exact Hz |].
          change (2 ^ 64) with 18446744073709551616.
          change (2 ^ 63) with 9223372036854775808 in Ht. lia. }
        lia.
    - specialize (Hdown1 Hk). rewrite Z.mul_1_r in Hdown1.
      assert (Hq1 : 0 < 2 ^ (- Js.exponent2 d1)) by (apply Z.pow_pos_nonneg; lia).
      assert (Hexact : Js.significand d1 = t * 2 ^ (- Js.exponent2 d1)) by lia.
      exists t, (2 ^ (- Js.exponent2 d1)), (t * 2 ^ (- Js.exponent2 d1)),
        (1000000 * 2 ^ (- Js.exponent2 d1)).
      split; [lia |].
      split; [lia |]. split; [exact Hq1 |]. split; [reflexivity |].
      split; [reflexivity |].
      split; [| rewrite Hexact; reflexivity].
      rewrite !Z.log2_mul_pow2 by lia.
      change (Z.log2 1000000) with 19. lia. }
  destruct Hvalue as (v & c & a2 & b2 & Hv0 & Hv & Hc & -> & -> & Hk2 & ->).
  unfold Js.floor.
  destruct (Z.le_gt_cases (v * c) 0) as [Hz | Hz].
  - (* the first double is zero *)
    assert (Hzero : v = 0) by nia.
    subst v. rewrite Z.mul_0_l. cbn.
    pose proof (Z.div_mod t 1000000 ltac:(lia)) as Hq.
    pose proof (Z.mod_pos_bound t 1000000 ltac:(lia)) as Hqr.
    split; lia.
  - destruct (rounded_close (v * c) (1000000 * c) Hz ltac:(lia))
      as (Hk2' & Hm2 & _ & Hdown2).
    assert (Hneg : Js.exponent2 (Js.rounded (v * c) (1000000 * c)) < 0) by lia.
    specialize (Hdown2 Hneg).
    destruct (Z.leb_spec 0 (Js.exponent2 (Js.rounded (v * c) (1000000 * c))))
      as [Habs | _]; [lia |].
    set (m := Js.significand (Js.rounded (v * c) (1000000 * c))) in *.
    set (p := 2 ^ (- Js.exponent2 (Js.rounded (v * c) (1000000 * c)))) in *.
    assert (Hp : 1 <= p).
    { assert (0 < p) by (apply Z.pow_pos_nonneg; lia). lia. }
    apply (floor_close t v m p); [lia | exact Hv | exact Hp |].
    (* divide the half-unit bound by [c] *)
    assert (Hfactor : m * (1000000 * c) - v * c * p = (m * 1000000 - v * p) * c) by ring.
    rewrite Hfactor in Hdown2.
    split.
    + destruct (Z.le_gt_cases (- 1000000) (2 * (m * 1000000 - v * p))) as [H | H];
        [exact H | exfalso].
      assert ((2 * (m * 1000000 - v * p) + 1000001) * c <= 0 * c)
        by (apply Z.mul_le_mono_nonneg_r; lia).
      lia.
    + destruct (Z.le_gt_cases (2 * (m * 1000000 - v * p)) 1000000) as [H | H];
        [exact H | exfalso].
      assert (0 * c <= (2 * (m * 1000000 - v * p) - 1000001) * c)
        by (apply Z.mul_le_mono_nonneg_r; lia).
      lia.
Qed.

(** The reading 1700000000123999999 is rounded up to the next
    millisecond. *)
Lemma serverTime_rounds_up :
  Js.floor (Js.divide (Js.ofInteger 1700000000123999999) 1000000) = 1700000000124 /\
  1700000000123999999 / 1000000 = 1700000000123.
Proof.
  split; vm_compute; reflexivity.
Qed.

(** X7.  After [syncTime] got a server time, a reading in nanoseconds that
    fits 63 bits, the parser is synchronised, one request was sent, and the
    adjusted timestamp is the server time in milliseconds moved on by the
    local time elapsed since: the reading divided by a million as the
    runtime computes it in doubles, which is within a millisecond of the
    exact quotient. *)
Theorem syncTime_adopts_server_clock
    (net : Network) (now later : Z) (p : BybitP2PParser) (timeNano : Z)
    (Hreply : net GetServerTime = Replied (TimeBody (Some timeNano)))
    (Hrange : 0 <= timeNano < 2 ^ 63) :
  timeSyncComplete (parser (syncTime net now p)) = true /\
  sent (syncTime net now p) = [GetServerTime] /\
  getTimestamp now (parser (syncTime net now p))
  = Js.floor (Js.divide (Js.ofInteger timeNano) 1000000) /\
  timeNano / 1000000 - 1
  <= getTimestamp now (parser (syncTime net now p))
  <= timeNano / 1000000 + 1 /\
  getTimestamp later (parser (syncTime net now p))
  = getTimestamp now (parser (syncTime net now p)) + (later - now).
Proof.
  pose proof (serverTime_close timeNano Hrange) as Hclose.
  unfold syncTime, getTimestamp. rewrite Hreply.
  cbn [timeNano_of outcome parser sent timeSyncComplete timeOffset
         set_timeSyncComplete set_timeOffset].
  split; [reflexivity |]. split; [reflexivity |].
  split; [lia |]. split; [lia | lia].
Qed.

(** The theorem at a reading that the doubles round up. *)
Lemma syncTime_adopts_server_clock_witness :
  timeSyncComplete
    (parser (syncTime (fun _ => Replied (TimeBody (Some 1700000000123999999)))
               1700000000000 Samples.freshParser)) = true /\
  sent (syncTime (fun _ => Replied (TimeBody (Some 1700000000123999999)))
          1700000000000 Samples.freshParser) = [GetServerTime] /\
  getTimestamp 1700000000000
    (parser (syncTime (fun _ => Replied (TimeBody (Some 1700000000123999999)))
               1700000000000 Samples.freshParser))
  = Js.floor (Js.divide (Js.ofInteger 1700000000123999999) 1000000) /\
  1700000000123999999 / 1000000 - 1
  <= getTimestamp 1700000000000
       (parser (syncTime (fun _ => Replied (TimeBody (Some 1700000000123999999)))
                  1700000000000 Samples.freshParser))
  <= 1700000000123999999 / 1000000 + 1 /\
  getTimestamp 1700000005000
    (parser (syncTime (fun _ => Replied (TimeBody (Some 1700000000123999999)))
               1700000000000 Samples.freshParser))
  = getTimestamp 1700000000000
      (parser (syncTime (fun _ => Replied (TimeBody (Some 1700000000123999999)))
                 1700000000000 Samples.freshParser))
    + (1700000005000 - 1700000000000).
Proof.
  apply (syncTime_adopts_server_clock
           (fun _ => Replied (TimeBody (Some 1700000000123999999)))
           1700000000000 1700000005000 Samples.freshParser 1700000000123999999).
  - reflexivity.
  - split; [discriminate | reflexivity].
Defined.

(** X8.  The [catch] of [syncTime] resets the offset but not the flag: on
    a parser that is synchronised, a rejected server-time request leaves
    [timeSyncComplete] true with an offset of 0, so that the timestamps are
    the local clock again and [makeRequest] still sends. *)
Theorem rejected_resync_drops_offset
    (net : Network) (now later : Z) (p : BybitP2PParser) (m : string)
    (Hsynced : timeSyncComplete p = true)
    (Hrejected : net GetServerTime = Rejected m) :
  outcome (syncTime net now p) = Ok tt /\
  timeSyncComplete (parser (syncTime net now p)) = true /\
  getTimestamp later (parser (syncTime net now p)) = later /\
  forall rq, sent (makeRequest net rq (parser (syncTime net now p))) = [rq].
Proof.
  unfold syncTime, getTimestamp, makeRequest. rewrite Hrejected. cbn.
  rewrite Hsynced. cbn. repeat split; try lia.
  intros rq. destruct (net rq); reflexivity.
Qed.

(** The theorem at a parser three seconds behind the server when the time
    endpoint goes down. *)
Lemma rejected_resync_drops_offset_witness :
  outcome (syncTime Samples.clockDown 1700000000000
             (set_timeSyncComplete true (set_timeOffset 3000 Samples.freshParser)))
  = Ok tt /\
  timeSyncComplete
    (parser (syncTime Samples.clockDown 1700000000000
               (set_timeSyncComplete true (set_timeOffset 3000 Samples.freshParser))))
  = true /\
  getTimestamp 1700000005000
    (parser (syncTime Samples.clockDown 1700000000000
               (set_timeSyncComplete true (set_timeOffset 3000 Samples.freshParser))))
  = 1700000005000 /\
  forall rq,
    sent (makeRequest Samples.clockDown rq
            (parser (syncTime Samples.clockDown 1700000000000
                       (set_timeSyncComplete true (set_timeOffset 3000 Samples.freshParser)))))
    = [rq].
Proof.
  apply (rejected_resync_drops_offset Samples.clockDown 1700000000000 1700000005000
           (set_timeSyncComplete true (set_timeOffset 3000 Samples.freshParser))
           "connect ETIMEDOUT").
  - reflexivity.
  - reflexivity.
Defined.

(** X9.  [getAndProcessAllOrders] never throws, leaves the parser as it
    was and sends at most one request.  A successful result means that the
    parser was synchronised and that the exchange answered the request
    with an order list whose [ret_code] is 0; the result then carries the
    items of that answer, none when the answer has no [items].  An
    unsuccessful result carries a message and no data. *)
Theorem page_fetch_result
    (net : Network) (pg sz : nat) (tok : option string) (sd st : option (list Z))
    (bt et : option Z) (p : BybitP2PParser) :
  exists result,
    outcome (getAndProcessAllOrders net pg sz tok sd st bt et p) = Ok result /\
    parser (getAndProcessAllOrders net pg sz tok sd st bt et p) = p /\
    (List.length (sent (getAndProcessAllOrders net pg sz tok sd st bt et p)) <= 1)%nat /\
    (success result = true ->
     timeSyncComplete p = true /\
     exists answer,
       net (PostOrderList (getAllOrders_params pg sz tok sd st bt et))
       = Replied (OrdersBody answer) /\
       ret_code answer = 0 /\
       data result
       = Some {| totalCount := List.length (match items answer with
                                            | Some l => l
                                            | None => []
                                            end);
                 transactions := match items answer with Some l => l | None => [] end |}) /\
    (success result = false -> data result = None /\ r_message result <> None).
Proof.
  unfold getAndProcessAllOrders, getAllOrders, makeRequest.
  destruct (timeSyncComplete p); cbn.
  - destruct (net (PostOrderList (getAllOrders_params pg sz tok sd st bt et)))
      as [m | [t | answer | c r]]; cbn.
    + eexists. split; [reflexivity |]. split; [reflexivity |]. split; [lia |].
      cbn. split; [discriminate |].
      intros _. split; [reflexivity | discriminate].
    + eexists. split; [reflexivity |]. split; [reflexivity |]. split; [lia |].
      cbn. split; [discriminate |].
      intros _. split; [reflexivity | discriminate].
    + destruct (Z.eqb_spec (ret_code answer) 0) as [Hcode | Hcode].
      * eexists. split; [reflexivity |]. split; [reflexivity |]. split; [lia |].
        cbn. split; [| discriminate].
        intros _. split; [reflexivity |]. exists answer.
        split; [reflexivity |]. split; [exact Hcode |].
        unfold processTransactions.
        destruct (items answer) as [[| x l] |]; reflexivity.
      * eexists. split; [reflexivity |]. split; [reflexivity |]. split; [lia |].
        cbn. split; [discriminate |].
        intros _. split; [reflexivity | discriminate].
    + eexists. split; [reflexivity |]. split; [reflexivity |]. split; [lia |].
      cbn. split; [discriminate |].
      intros _. split; [reflexivity | discriminate].
  - eexists. split; [reflexivity |]. split; [reflexivity |]. split; [lia |].
    cbn. split; [discriminate |].
    intros _. split; [reflexivity | discriminate].
Qed.

(** X10.  [p2pRequest] always sends the request, as its last one, and its
    outcome is the network's answer to it, whatever became of the clock:
    the server-time request goes first exactly when the parser was not
    synchronised, a synchronised parser is left as it is, and afterwards
    the parser is synchronised if it was or if that request gave a time. *)
Theorem p2pRequest_outcome
    (net : Network) (now : Z) (rq : Request) (p : BybitP2PParser) :
  outcome (p2pRequest net now rq p)
  = match net rq with
    | Rejected m => Throw m
    | Replied b => Ok b
    end /\
  sent (p2pRequest net now rq p)
  = (if timeSyncComplete p then [] else [GetServerTime]) ++ [rq] /\
  (timeSyncComplete p = true -> parser (p2pRequest net now rq p) = p) /\
  timeSyncComplete (parser (p2pRequest net now rq p))
  = (timeSyncComplete p || negb (timeRequestFailed net))%bool.
Proof.
  unfold p2pRequest, timeRequestFailed, syncTime.
  destruct (timeSyncComplete p) eqn:Hflag; cbn.
  - destruct (net rq); cbn; repeat split; auto.
  - destruct (net GetServerTime) as [m | b]; cbn.
    + destruct (net rq); cbn; repeat split; auto; discriminate.
    + destruct (timeNano_of b); cbn; destruct (net rq); cbn;
        repeat split; auto; discriminate.
Qed.

End ClientFacts.


(** ** Further properties of the phone extractor *)

Section ExtractorFacts.

Import Phone.
Import Notions.
Import Terms.

Lemma add_extends (x : text) (set : list text) : exists more, add x set = set ++ more.
Proof.
  unfold add. destruct (mem x set).
  - exists []. symmetry. apply app_nil_r.
  - exists [x]. reflexivity.
Qed.

Lemma adds_extend (xs : list text) :
  forall set, exists more, fold_left (fun s x => add x s) xs set = set ++ more.
Proof.
  induction xs as [| x xs IH]; intros set; cbn [fold_left].
  - exists []. symmetry. apply app_nil_r.
  - destruct (add_extends x set) as [m1 ->].
    destruct (IH (set ++ m1)) as [m2 ->].
    exists (m1 ++ m2). symmetry. apply app_assoc.
Qed.

Lemma scanMessages_extends (messages : list (option Bybit.ChatMessage)) :
  forall set phones,
    scanMessages messages set = Ok phones -> exists more, phones = set ++ more.
Proof.
  induction messages as [| [message |] rest IH]; intros set phones; cbn [scanMessages].
  - intros H. injection H as <-. exists []. symmetry. apply app_nil_r.
  - intros H. apply IH in H. destruct H as [m2 ->].
    rewrite scanMessage_adds.
    destruct (adds_extend (candidates message) set) as [m1 ->].
    exists (m1 ++ m2). symmetry. apply app_assoc.
  - discriminate.
Qed.

Lemma scanMessages_null (messages : list (option Bybit.ChatMessage)) :
  forall set,
    match scanMessages messages set with
    | Ok _ => ~ In None messages
    | Throw m => m = nullContentType /\ In None messages
    end.
Proof.
  induction messages as [| [message |] rest IH]; intros set; cbn [scanMessages].
  - intros [].
  - specialize (IH (scanMessage message set)).
    destruct (scanMessages rest (scanMessage message set)).
    + intros [H | H]; [discriminate | exact (IH H)].
    + destruct IH as [-> H]. split; [reflexivity | right; exact H].
  - split; [reflexivity | left; reflexivity].
Qed.

(** X11.  [extractPhoneNumbers] throws exactly when one of the entries of
    the chat is [null], and the error is then the [TypeError] of reading
    [contentType] of [null]; no text of a message makes it throw. *)
Theorem extractor_throws_on_null_only (messages : list (option Bybit.ChatMessage)) :
  match extractPhoneNumbers messages with
  | Ok _ => ~ In None messages
  | Throw m => m = nullContentType /\ In None messages
  end.
Proof.
  apply scanMessages_null.
Qed.

(** X12.  More messages only add numbers at the end: the numbers found in
    a chat are, in the same order, the first ones found in any longer chat
    that starts with it; if the longer chat makes the extractor throw, the
    [null] entry is among the added messages; and a chat on which the
    extractor throws makes it throw whatever follows. *)
Theorem extractor_extends (first later : list (option Bybit.ChatMessage)) :
  match extractPhoneNumbers first with
  | Ok phones =>
      match extractPhoneNumbers (first ++ later) with
      | Ok all => exists more, all = phones ++ more
      | Throw _ => In None later
      end
  | Throw m => extractPhoneNumbers (first ++ later) = Throw m
  end.
Proof.
  unfold extractPhoneNumbers. rewrite scanMessages_app.
  destruct (scanMessages first []) as [phones | m]; [| reflexivity].
  pose proof (scanMessages_null later phones) as Hnull.
  destruct (scanMessages later phones) as [all | m] eqn:Hlater.
  - apply (scanMessages_extends later phones all Hlater).
  - apply Hnull.
Qed.

Lemma scanMessage_unread (message : Bybit.ChatMessage) (set : list text) :
  read (Some message) = false -> scanMessage message set = set.
Proof.
  unfold read, scanMessage.
  destruct (Bybit.message message) as [[| c r] |]; try reflexivity.
  intros ->. reflexivity.
Qed.

Lemma scanMessages_read (messages : list (option Bybit.ChatMessage)) :
  forall set, scanMessages (filter read messages) set = scanMessages messages set.
Proof.
  induction messages as [| [message |] rest IH]; intros set; cbn [filter].
  - reflexivity.
  - destruct (read (Some message)) eqn:Hread; cbn [scanMessages].
    + apply IH.
    + rewrite (scanMessage_unread message set Hread). apply IH.
  - reflexivity.
Qed.

(** X13.  Only text messages count: dropping from a chat every message
    whose [contentType] is not ['str'] or whose text is missing or empty
    changes nothing in what [extractPhoneNumbers] returns or throws. *)
Theorem extractor_reads_text_only (messages : list (option Bybit.ChatMessage)) :
  extractPhoneNumbers (filter read messages) = extractPhoneNumbers messages.
Proof.
  apply scanMessages_read.
Qed.

(** *** Matching by hand *)

Lemma digit_not_cls (k : cls) (c : N) : is_digit c = true -> in_cls k c = false.
Proof.
  unfold is_digit. intros H. apply andb_true_iff in H. destruct H as [Hlo Hhi].
  apply N.leb_le in Hlo. apply N.leb_le in Hhi.
  assert (Heq : forall n, (n < 48 \/ 57 < n)%N -> (c =? n)%N = false)
    by (intros n Hn; apply N.eqb_neq; lia).
  assert (Hle : forall n, (n < 48)%N -> (c <=? n)%N = false)
    by (intros n Hn; apply N.leb_gt; lia).
  assert (Hge : forall n, (57 < n)%N -> (n <=? c)%N = false)
    by (intros n Hn; apply N.leb_gt; lia).
  destruct k; unfold in_cls, is_space;
    rewrite ?(Heq 32%N), ?(Heq 160%N), ?(Heq 5760%N), ?(Heq 8232%N), ?(Heq 8233%N),
      ?(Heq 8239%N), ?(Heq 8287%N), ?(Heq 12288%N), ?(Heq 65279%N), ?(Heq 45%N),
      ?(Heq 40%N), ?(Heq 41%N), ?(Hle 13%N), ?(Hge 8192%N) by lia;
    rewrite ?andb_false_r; reflexivity.
Qed.

Lemma digit_not_plus (c : N) : is_digit c = true -> c <> 43%N.
Proof.
  unfold is_digit. intros H. apply andb_true_iff in H. destruct H as [Hlo Hhi].
  apply N.leb_le in Hlo. apply N.leb_le in Hhi. lia.
Qed.

Lemma lit_hit (c : N) (q : list item) (r : text) :
  match_here (Lit c :: q) (c :: r)
  = match match_here q r with
    | Some (g, n) => Some (g, S n)
    | None => None
    end.
Proof.
  cbn [match_here]. rewrite N.eqb_refl. reflexivity.
Qed.

Lemma lit_miss (c x : N) (q : list item) (r : text) :
  x <> c -> match_here (Lit c :: q) (x :: r) = None.
Proof.
  intros H. cbn [match_here]. apply N.eqb_neq in H. rewrite H. reflexivity.
Qed.

Lemma opt_digit (k : cls) (q : list item) (x : N) (r : text) :
  is_digit x = true -> match_here (Opt k :: q) (x :: r) = match_here q (x :: r).
Proof.
  intros H. cbn [match_here]. rewrite (digit_not_cls k x H). reflexivity.
Qed.

Lemma group3 (q : list item) (a b c : N) (r : text) :
  is_digit a = true -> is_digit b = true -> is_digit c = true ->
  match_here (Group 3 :: q) (a :: b :: c :: r)
  = match match_here q r with
    | Some (g, m) => Some ([a; b; c] :: g, (3 + m)%nat)
    | None => None
    end.
Proof.
  intros Ha Hb Hc. cbn [match_here take_digits]. rewrite Ha, Hb, Hc. reflexivity.
Qed.

Lemma group2 (q : list item) (a b : N) (r : text) :
  is_digit a = true -> is_digit b = true ->
  match_here (Group 2 :: q) (a :: b :: r)
  = match match_here q r with
    | Some (g, m) => Some ([a; b] :: g, (2 + m)%nat)
    | None => None
    end.
Proof.
  intros Ha Hb. cbn [match_here take_digits]. rewrite Ha, Hb. reflexivity.
Qed.

Lemma group_miss (n : nat) (q : list item) (x : N) (r : text) :
  is_digit x = false -> match_here (Group (S n) :: q) (x :: r) = None.
Proof.
  intros H. cbn [match_here take_digits]. rewrite H. reflexivity.
Qed.

Lemma exec_all_step (p : list item) (x : N) (r : text) :
  exec_all p O (x :: r)
  = match match_here p (x :: r) with
    | Some (g, n) =>
        {| whole := firstn n (x :: r); captured := g |} :: exec_all p (Nat.pred n) r
    | None => exec_all p O r
    end.
Proof.
  reflexivity.
Qed.

Lemma take_digits_length (n : nat) :
  forall s d r, take_digits n s = Some (d, r) -> List.length s = (n + List.length r)%nat.
Proof.
  induction n as [| n IH]; intros s d r; cbn [take_digits].
  - intros H. injection H as _ <-. reflexivity.
  - destruct s as [| c s]; [discriminate |].
    destruct (is_digit c); [| discriminate].
    destruct (take_digits n s) as [[d' r'] |] eqn:E; [| discriminate].
    intros H. injection H as _ <-. cbn [List.length]. rewrite (IH s d' r' E). reflexivity.
Qed.

(** A text shorter than what a pattern needs has no match at its start. *)
Lemma match_here_short (p : list item) :
  forall s, (List.length s < minLen p)%nat -> match_here p s = None.
Proof.
  induction p as [| [c | k | n] q IH]; intros s; cbn [minLen match_here].
  - intros H. inversion H.
  - destruct s as [| x r]; [reflexivity |]. cbn [List.length]. intros H.
    destruct (x =? c)%N; [| reflexivity].
    rewrite (IH r) by lia. reflexivity.
  - intros H. destruct s as [| x r]; [apply IH; exact H |].
    cbn [List.length] in H.
    destruct (in_cls k x).
    + rewrite (IH r) by lia. apply IH. cbn [List.length]. exact H.
    + apply IH. cbn [List.length]. exact H.
  - intros H. destruct (take_digits n s) as [[d r] |] eqn:E; [| reflexivity].
    apply take_digits_length in E.
    rewrite (IH r) by lia. reflexivity.
Qed.

Lemma exec_all_short (p : list item) :
  forall s skip, (List.length s < minLen p)%nat -> exec_all p skip s = [].
Proof.
  induction s as [| x r IH]; intros skip H; cbn [exec_all]; [reflexivity |].
  cbn [List.length] in H.
  destruct skip as [| k].
  - rewrite (match_here_short p (x :: r)) by exact H. apply IH. lia.
  - apply IH. lia.
Qed.

Lemma exec_all_skipn (p : list item) :
  forall skip s, exec_all p skip s = exec_all p O (skipn skip s).
Proof.
  induction skip as [| k IH]; intros s; [reflexivity |].
  destruct s as [| x r]; [reflexivity |].
  cbn [exec_all skipn]. apply IH.
Qed.

(** A pattern that starts with a character the text does not hold matches
    nowhere in it. *)
Lemma exec_all_no_start (c : N) (q : list item) :
  forall s skip, Forall (fun x => x <> c) s -> exec_all (Lit c :: q) skip s = [].
Proof.
  induction s as [| x r IH]; intros skip H; cbn [exec_all]; [reflexivity |].
  inversion H as [| ? ? Hx Hr]; subst.
  destruct skip as [| k].
  - rewrite (lit_miss c x q r Hx). apply IH. exact Hr.
  - apply IH. exact Hr.
Qed.

Lemma addMatch_groups (m : Match) (g1 g2 g3 g4 : text) (set : list text) :
  captured m = [g1; g2; g3; g4] ->
  digitGroup 3 g1 -> digitGroup 3 g2 -> digitGroup 2 g3 -> digitGroup 2 g4 ->
  addMatch set m = add (lit "+7" ++ g1 ++ g2 ++ g3 ++ g4) set.
Proof.
  intros Hc H1 H2 H3 H4.
  destruct (phoneNumberOf_groups m g1 g2 g3 g4 Hc H1 H2 H3 H4) as [Hphone Hlen].
  unfold addMatch. rewrite Hlen. cbn [Nat.eqb]. rewrite Hphone. reflexivity.
Qed.

Ltac digits :=
  repeat match goal with
         | |- digitGroup _ _ => split; [reflexivity |]
         | |- forallb is_digit _ = true => cbn [forallb]
         | H : is_digit ?c = true |- context [is_digit ?c] => rewrite H
         end;
  try reflexivity.

Section Compact.

Variables d0 d1 d2 d3 d4 d5 d6 d7 d8 d9 : N.
Hypothesis H0 : is_digit d0 = true.
Hypothesis H1 : is_digit d1 = true.
Hypothesis H2 : is_digit d2 = true.
Hypothesis H3 : is_digit d3 = true.
Hypothesis H4 : is_digit d4 = true.
Hypothesis H5 : is_digit d5 = true.
Hypothesis H6 : is_digit d6 = true.
Hypothesis H7 : is_digit d7 = true.
Hypothesis H8 : is_digit d8 = true.
Hypothesis H9 : is_digit d9 = true.

Local Abbreviation digits10 := [d0; d1; d2; d3; d4; d5; d6; d7; d8; d9].
Local Abbreviation number := (43%N :: 55%N :: digits10).
Local Abbreviation shifted lead := [43%N; 55%N; lead; d0; d1; d2; d3; d4; d5; d6; d7; d8].

Lemma tail_without_plus : Forall (fun x => x <> 43%N) digits10.
Proof.
  repeat (constructor; [apply digit_not_plus; assumption |]). constructor.
Qed.

(** The two patterns for [+7] match a compact number from its first
    character to its last. *)
Lemma plus_spaced_on_compact :
  match_here
    [Opt Space; Opt LParen; Group 3; Opt RParen; Opt SpaceDash;
     Group 3; Opt SpaceDash; Group 2; Opt SpaceDash; Group 2] digits10
  = Some ([[d0; d1; d2]; [d3; d4; d5]; [d6; d7]; [d8; d9]], 10%nat).
Proof.
  rewrite !opt_digit by assumption. rewrite group3 by assumption.
  rewrite !opt_digit by assumption. rewrite group3 by assumption.
  rewrite !opt_digit by assumption. rewrite group2 by assumption.
  rewrite !opt_digit by assumption. rewrite group2 by assumption.
  reflexivity.
Qed.

Lemma plus_joined_on_compact :
  match_here [Opt Space; Group 3; Group 3; Group 2; Group 2] digits10
  = Some ([[d0; d1; d2]; [d3; d4; d5]; [d6; d7]; [d8; d9]], 10%nat).
Proof.
  rewrite !opt_digit by assumption. rewrite group3 by assumption.
  rewrite group3 by assumption. rewrite group2 by assumption.
  rewrite group2 by assumption. reflexivity.
Qed.

(** The pattern without a prefix matches any digit followed by the first
    nine digits of the number. *)
Lemma bare_on_shifted (lead : N) :
  is_digit lead = true ->
  match_here
    [Group 3; Opt SpaceDash; Group 3; Opt SpaceDash; Group 2; Opt SpaceDash; Group 2]
    (lead :: digits10)
  = Some ([[lead; d0; d1]; [d2; d3; d4]; [d5; d6]; [d7; d8]], 10%nat).
Proof.
  intros Hlead.
  rewrite group3 by assumption.
  rewrite !opt_digit by assumption. rewrite group3 by assumption.
  rewrite !opt_digit by assumption. rewrite group2 by assumption.
  rewrite !opt_digit by assumption. rewrite group2 by assumption.
  reflexivity.
Qed.

Lemma compact_plus_numbers :
  extractPhoneNumbers
    [Some {| Bybit.contentType := "str"; Bybit.message := Some number |}]
  = Ok (add (shifted 55%N) [number]).
Proof.
  unfold extractPhoneNumbers. cbn [scanMessages]. unfold scanMessage.
  cbn [Bybit.message Bybit.contentType]. change (String.eqb "str" "str") with true.
  cbv iota. unfold phonePatterns, plus, seven, eight. cbn [fold_left]. unfold scanPattern.
  (* +7 with separators *)
  assert (E1 : forall p groups,
             match_here p digits10 = Some (groups, 10%nat) ->
             exec_all (Lit 43%N :: Lit 55%N :: p) O number
             = [{| whole := number; captured := groups |}]).
  { intros p groups Hp. rewrite exec_all_step, !lit_hit, Hp. cbv iota.
    rewrite exec_all_skipn. reflexivity. }
  rewrite (E1 _ _ plus_spaced_on_compact).
  rewrite (E1 _ _ plus_joined_on_compact).
  (* 8: the text is too short from the first 8 it may hold *)
  assert (E3 : forall p, (10 < minLen (Lit 56%N :: p))%nat ->
                         exec_all (Lit 56%N :: p) O number = []).
  { intros p Hp.
    rewrite exec_all_step, lit_miss by discriminate.
    rewrite exec_all_step, lit_miss by discriminate.
    apply exec_all_short. exact Hp. }
  rewrite !E3 by (cbn; lia).
  (* no prefix *)
  assert (E5 : exec_all
                 [Group 3; Opt SpaceDash; Group 3; Opt SpaceDash; Group 2; Opt SpaceDash;
                  Group 2] O number
               = [{| whole := [55; d0; d1; d2; d3; d4; d5; d6; d7; d8]%N;
                     captured := [[55%N; d0; d1]; [d2; d3; d4]; [d5; d6]; [d7; d8]] |}]).
  { rewrite exec_all_step, group_miss by reflexivity.
    rewrite exec_all_step, (bare_on_shifted 55%N eq_refl). cbv iota.
    rewrite exec_all_skipn. cbn [Nat.pred skipn firstn].
    rewrite exec_all_short by (cbn; lia). reflexivity. }
  rewrite E5. cbn [fold_left].
  rewrite (addMatch_groups _ [55%N; d0; d1] [d2; d3; d4] [d5; d6] [d7; d8])
    by (try reflexivity; digits).
  rewrite (addMatch_groups _ [d0; d1; d2] [d3; d4; d5] [d6; d7] [d8; d9])
    by (try reflexivity; digits).
  rewrite (addMatch_groups _ [d0; d1; d2] [d3; d4; d5] [d6; d7] [d8; d9])
    by (try reflexivity; digits).
  change (lit "+7" ++ [d0; d1; d2] ++ [d3; d4; d5] ++ [d6; d7] ++ [d8; d9]) with number.
  change (lit "+7" ++ [55%N; d0; d1] ++ [d2; d3; d4] ++ [d5; d6] ++ [d7; d8])
    with (shifted 55%N).
  change (add number []) with [number].
  rewrite (add_absorbs number [number]) by (left; reflexivity).
  reflexivity.
Qed.

Lemma compact_eight_numbers :
  extractPhoneNumbers
    [Some {| Bybit.contentType := "str"; Bybit.message := Some (56%N :: digits10) |}]
  = Ok (add (shifted 56%N) [number]).
Proof.
  unfold extractPhoneNumbers. cbn [scanMessages]. unfold scanMessage.
  cbn [Bybit.message Bybit.contentType]. change (String.eqb "str" "str") with true.
  cbv iota. unfold phonePatterns, plus, seven, eight. cbn [fold_left]. unfold scanPattern.
  (* +7: the text holds no + *)
  rewrite !(exec_all_no_start 43%N)
    by (constructor; [discriminate | apply tail_without_plus]).
  (* 8 *)
  assert (E3 : forall p groups,
             match_here p digits10 = Some (groups, 10%nat) ->
             exec_all (Lit 56%N :: p) O (56%N :: digits10)
             = [{| whole := 56%N :: digits10; captured := groups |}]).
  { intros p groups Hp. rewrite exec_all_step, !lit_hit, Hp. cbv iota.
    rewrite exec_all_skipn. reflexivity. }
  rewrite (E3 _ _ plus_spaced_on_compact).
  rewrite (E3 _ _ plus_joined_on_compact).
  (* no prefix *)
  assert (E5 : exec_all
                 [Group 3; Opt SpaceDash; Group 3; Opt SpaceDash; Group 2; Opt SpaceDash;
                  Group 2] O (56%N :: digits10)
               = [{| whole := [56; d0; d1; d2; d3; d4; d5; d6; d7; d8]%N;
                     captured := [[56%N; d0; d1]; [d2; d3; d4]; [d5; d6]; [d7; d8]] |}]).
  { rewrite exec_all_step, (bare_on_shifted 56%N eq_refl). cbv iota.
    rewrite exec_all_skipn. cbn [Nat.pred skipn firstn].
    rewrite exec_all_short by (cbn; lia). reflexivity. }
  rewrite E5. cbn [fold_left].
  rewrite (addMatch_groups _ [56%N; d0; d1] [d2; d3; d4] [d5; d6] [d7; d8])
    by (try reflexivity; digits).
  rewrite (addMatch_groups _ [d0; d1; d2] [d3; d4; d5] [d6; d7] [d8; d9])
    by (try reflexivity; digits).
  rewrite (addMatch_groups _ [d0; d1; d2] [d3; d4; d5] [d6; d7] [d8; d9])
    by (try reflexivity; digits).
  change (lit "+7" ++ [d0; d1; d2] ++ [d3; d4; d5] ++ [d6; d7] ++ [d8; d9]) with number.
  change (lit "+7" ++ [56%N; d0; d1] ++ [d2; d3; d4] ++ [d5; d6] ++ [d7; d8])
    with (shifted 56%N).
  change (add number []) with [number].
  rewrite (add_absorbs number [number]) by (left; reflexivity).
  reflexivity.
Qed.

End Compact.

Lemma text_eqb_eq (a b : text) : text_eqb a b = true <-> a = b.
Proof.
  unfold text_eqb. destruct (list_eq_dec N.eq_dec a b); split; auto; discriminate.
Qed.

(** The set after the number itself and the shifted one were added. *)
Lemma add_shifted (lead : N) (digits : text) :
  List.length digits = 10%nat ->
  add (lit "+7" ++ lead :: firstn 9 digits) [lit "+7" ++ digits]
  = if text_eqb digits (repeat lead 10)
    then [lit "+7" ++ digits]
    else [lit "+7" ++ digits; lit "+7" ++ lead :: firstn 9 digits].
Proof.
  intros Hlen.
  do 10 (destruct digits as [| ? digits]; [discriminate Hlen |]).
  destruct digits; [| discriminate Hlen].
  unfold add, mem. cbn [existsb firstn repeat]. rewrite orb_false_r.
  match goal with
  | |- (if ?x then _ else _) = (if ?y then _ else _) =>
      assert (Hsame : x = y); [| rewrite Hsame; destruct y; reflexivity]
  end.
  apply eq_true_iff_eq. rewrite !text_eqb_eq. cbn [lit app].
  split; intros H; injection H; intros; subst; reflexivity.
Qed.

(** X14.  A message that is a number written without separators, [+7] or
    [8] followed by ten digits, gives that number as [+7] and the ten
    digits, and after it a second number that nobody wrote: the pattern
    without a prefix also matches from the 7 or the 8 on, and contributes
    [+7] followed by that digit and the first nine digits.  Only when the
    ten digits are all 7, after [+7], or all 8, after [8], is that second
    number the first one again, and the result has one entry. *)
Theorem compact_number_found_twice (digits : text)
    (Hdigits : digitGroup 10 digits) :
  extractPhoneNumbers [Samples.textMessage (lit "+7" ++ digits)]
  = Ok (if text_eqb digits (repeat 55%N 10)
        then [lit "+7" ++ digits]
        else [lit "+7" ++ digits; lit "+77" ++ firstn 9 digits]) /\
  extractPhoneNumbers [Samples.textMessage (lit "8" ++ digits)]
  = Ok (if text_eqb digits (repeat 56%N 10)
        then [lit "+7" ++ digits]
        else [lit "+7" ++ digits; lit "+78" ++ firstn 9 digits]).
Proof.
  destruct Hdigits as [Hlen Hall].
  pose proof (add_shifted 55%N digits Hlen) as Hseven.
  pose proof (add_shifted 56%N digits Hlen) as Height.
  do 10 (destruct digits as [| ? digits]; [discriminate Hlen |]).
  destruct digits; [| discriminate Hlen].
  cbn [forallb] in Hall.
  repeat (apply andb_true_iff in Hall; destruct Hall as [? Hall]).
  split.
  - etransitivity; [| apply f_equal; exact Hseven].
    apply compact_plus_numbers; assumption.
  - etransitivity; [| apply f_equal; exact Height].
    apply compact_eight_numbers; assumption.
Qed.

(** The theorem at 999 123 45 67. *)
Lemma compact_number_found_twice_witness :
  extractPhoneNumbers [Samples.textMessage (lit "+79991234567")]
  = Ok [lit "+79991234567"; lit "+77999123456"] /\
  extractPhoneNumbers [Samples.textMessage (lit "89991234567")]
  = Ok [lit "+79991234567"; lit "+78999123456"].
Proof.
  apply (compact_number_found_twice (lit "9991234567")).
  split; reflexivity.
Defined.

(** All sevens and all eights: one number. *)
Lemma compact_number_found_once :
  extractPhoneNumbers [Samples.textMessage (lit "+77777777777")]
  = Ok [lit "+77777777777"] /\
  extractPhoneNumbers [Samples.textMessage (lit "88888888888")]
  = Ok [lit "+78888888888"].
Proof.
  split; vm_compute; reflexivity.
Qed.

End ExtractorFacts.


(** ** Further properties of the enrichment passes *)

Section EnrichmentFacts.

Import Notions.
Import Terms.

(** The chat fetch gives no message unless the chat request is answered
    with a result array under [ret_code] 0. *)
Lemma getChatMessages_unanswered (net : Bybit.Network) (now : Z)
    (orderId : option string) (user : Chat.Keys) :
  (forall result,
      net (Bybit.PostChatList orderId) <> Replied (Bybit.ChatBody 0 (Some result))) ->
  Chat.getChatMessages net now orderId user = [].
Proof.
  intros Hnone. unfold Chat.getChatMessages, Bybit.p2pRequest.
  cbn [Bybit.new Bybit.timeSyncComplete negb].
  rewrite syncTime_returns.
  destruct (net (Bybit.PostChatList orderId)) as [m | [t | answer | code [result |]]] eqn:E;
    cbn [Bybit.outcome]; try reflexivity.
  destruct (Z.eqb_spec code 0) as [-> | Hcode]; [| reflexivity].
  exfalso. apply (Hnone result). reflexivity.
Qed.

(** X15.  A chat request that fails is taken for an empty chat: when the
    cabinet holds both keys and the request is rejected, or answered
    without a result array or under another [ret_code], the row is marked
    processed at once, with no error recorded, and the next pass does not
    select it again. *)
Theorem unanswered_chat_is_processed
    (net : Bybit.Network) (now : Z) (cabinets : Z -> CabinetService.BybitCabinet)
    (transaction : CabinetService.Row) (tbl : CabinetService.Table)
    (Hkeys : cabinetHasKeys
               (cabinets (CabinetService.cabinetId (CabinetService.fields transaction)))
             = true)
    (Hunanswered :
       forall result,
         net (Bybit.PostChatList (CabinetService.orderNo (CabinetService.fields transaction)))
         <> Replied (Bybit.ChatBody 0 (Some result))) :
  CabinetService.enrichOne net now cabinets transaction tbl
  = CabinetService.update (CabinetService.rowId transaction)
      (CabinetService.noChatPatch now) tbl /\
  Forall2 (fun old new =>
             if (CabinetService.rowId old =? CabinetService.rowId transaction)%nat
             then CabinetService.processed (CabinetService.fields new) = true /\
                  CabinetService.lastAttemptError new = CabinetService.lastAttemptError old /\
                  CabinetService.extractedPhones (CabinetService.fields new)
                  = CabinetService.extractedPhones (CabinetService.fields old)
             else new = old)
          tbl (CabinetService.enrichOne net now cabinets transaction tbl) /\
  forall r,
    In r (CabinetService.unprocessed
            (CabinetService.enrichOne net now cabinets transaction tbl)) ->
    CabinetService.rowId r <> CabinetService.rowId transaction.
Proof.
  assert (Hone : CabinetService.enrichOne net now cabinets transaction tbl
                 = CabinetService.update (CabinetService.rowId transaction)
                     (CabinetService.noChatPatch now) tbl).
  { unfold CabinetService.enrichOne, cabinetHasKeys in *.
    apply andb_true_iff in Hkeys. destruct Hkeys as [Ht Hs].
    rewrite Ht, Hs. cbn [negb orb].
    rewrite (getChatMessages_unanswered net now _ _ Hunanswered). reflexivity. }
  split; [exact Hone |]. rewrite Hone. split.
  - eapply Forall2_impl; [| apply update_rows].
    intros old new. cbn beta.
    destruct (CabinetService.rowId old =? CabinetService.rowId transaction)%nat;
      [| auto].
    intros ->. repeat split.
  - intros r Hr. unfold CabinetService.unprocessed in Hr.
    apply filter_In in Hr. destruct Hr as [Hin Hflag].
    unfold CabinetService.update in Hin. apply in_map_iff in Hin.
    destruct Hin as (old & <- & _).
    destruct (CabinetService.rowId old =? CabinetService.rowId transaction)%nat eqn:E.
    + discriminate Hflag.
    + apply Nat.eqb_neq. exact E.
Qed.

(** The theorem at a network that rejects every request. *)
Lemma unanswered_chat_is_processed_witness :
  CabinetService.enrichOne (fun _ => Rejected "connect ETIMEDOUT") 1700000000000
    (fun _ => Samples.cabinet7) Samples.cabinetRow42 [Samples.cabinetRow42]
  = CabinetService.update (CabinetService.rowId Samples.cabinetRow42)
      (CabinetService.noChatPatch 1700000000000) [Samples.cabinetRow42] /\
  Forall2 (fun old new =>
             if (CabinetService.rowId old =? CabinetService.rowId Samples.cabinetRow42)%nat
             then CabinetService.processed (CabinetService.fields new) = true /\
                  CabinetService.lastAttemptError new = CabinetService.lastAttemptError old /\
                  CabinetService.extractedPhones (CabinetService.fields new)
                  = CabinetService.extractedPhones (CabinetService.fields old)
             else new = old)
          [Samples.cabinetRow42]
          (CabinetService.enrichOne (fun _ => Rejected "connect ETIMEDOUT") 1700000000000
             (fun _ => Samples.cabinet7) Samples.cabinetRow42 [Samples.cabinetRow42]) /\
  forall r,
    In r (CabinetService.unprocessed
            (CabinetService.enrichOne (fun _ => Rejected "connect ETIMEDOUT") 1700000000000
               (fun _ => Samples.cabinet7) Samples.cabinetRow42 [Samples.cabinetRow42])) ->
    CabinetService.rowId r <> CabinetService.rowId Samples.cabinetRow42.
Proof.
  apply (unanswered_chat_is_processed (fun _ => Rejected "connect ETIMEDOUT")
           1700000000000 (fun _ => Samples.cabinet7) Samples.cabinetRow42
           [Samples.cabinetRow42]).
  - reflexivity.
  - intros result. discriminate.
Defined.

Lemma advanced_refl (r : CabinetService.Row) : advanced r r.
Proof.
  unfold advanced. repeat split; auto.
Qed.

Lemma advanced_trans (a b c : CabinetService.Row) :
  advanced a b -> advanced b c -> advanced a c.
Proof.
  unfold advanced.
  intros (Hi & Ho & Hc & Hs & Hp & He) (Hi' & Ho' & Hc' & Hs' & Hp' & He').
  repeat split; try congruence; auto.
Qed.

Lemma dealtWith_advanced (a b : CabinetService.Row) :
  advanced a b -> dealtWith a -> dealtWith b.
Proof.
  unfold advanced, dealtWith. intros (_ & _ & _ & _ & Hp & He) [H | H]; auto.
Qed.

Lemma patched_advanced (d : CabinetService.Patch) (r : CabinetService.Row) :
  enrichmentPatch d ->
  advanced r (CabinetService.patched d r) /\ dealtWith (CabinetService.patched d r).
Proof.
  unfold enrichmentPatch, advanced, dealtWith, CabinetService.patched.
  intros (Hs & [(Hp & He) | (Hp & He)]); cbn; rewrite Hs, Hp; cbn.
  - rewrite He. repeat split; auto.
  - destruct (CabinetService.new_lastAttemptError d) as [m |]; [| contradiction].
    repeat split; auto; try discriminate.
Qed.

(** One turn: every row is where it was, advanced at most; the rows under
    the key of the transaction are dealt with when its cabinet has keys. *)
Lemma enrichOne_advances (net : Bybit.Network) (now : Z)
    (cabinets : Z -> CabinetService.BybitCabinet) (transaction : CabinetService.Row)
    (tbl : CabinetService.Table) :
  Forall2 (fun old new =>
             advanced old new /\
             (CabinetService.rowId old = CabinetService.rowId transaction ->
              cabinetHasKeys
                (cabinets (CabinetService.cabinetId (CabinetService.fields transaction)))
              = true ->
              dealtWith new))
          tbl (CabinetService.enrichOne net now cabinets transaction tbl).
Proof.
  assert (Hupdate : forall d, enrichmentPatch d ->
            Forall2 (fun old new =>
                       advanced old new /\
                       (CabinetService.rowId old = CabinetService.rowId transaction ->
                        cabinetHasKeys
                          (cabinets (CabinetService.cabinetId
                                       (CabinetService.fields transaction))) = true ->
                        dealtWith new))
                    tbl (CabinetService.update (CabinetService.rowId transaction) d tbl)).
  { intros d Hd. eapply Forall2_impl; [| apply update_rows].
    intros old new. cbn beta.
    destruct (Nat.eqb_spec (CabinetService.rowId old) (CabinetService.rowId transaction))
      as [Heq | Hne].
    - intros ->. destruct (patched_advanced d old Hd) as [Ha Hd']. auto.
    - intros ->. split; [apply advanced_refl | intros H; contradiction]. }
  unfold CabinetService.enrichOne, cabinetHasKeys.
  destruct (negb (Js.truthy (CabinetService.bybitApiToken _))
            || negb (Js.truthy (CabinetService.bybitApiSecret _)))%bool eqn:Hk.
  - clear Hupdate. induction tbl as [| r tbl IH]; constructor; [| exact IH].
    split; [apply advanced_refl |].
    intros _ Hkeys. exfalso.
    apply andb_true_iff in Hkeys. destruct Hkeys as [Ht Hs].
    rewrite Ht, Hs in Hk. discriminate Hk.
  - unfold CabinetService.enrichAttempt.
    destruct (Chat.getChatMessages net now _ _) as [| x chat].
    + apply Hupdate. split; [reflexivity |]. left. split; reflexivity.
    + destruct (Phone.extractPhoneNumbers (x :: chat)) as [phones | m].
      * apply Hupdate. split; [reflexivity |]. left. split; reflexivity.
      * apply Hupdate. split; [reflexivity |]. right. split; [reflexivity | discriminate].
Qed.

Lemma enrich_fold_advances (net : Bybit.Network) (now : Z)
    (cabinets : Z -> CabinetService.BybitCabinet) (ts : list CabinetService.Row) :
  forall tbl,
    Forall2 (fun old new =>
               advanced old new /\
               ((exists t, In t ts /\
                           CabinetService.rowId old = CabinetService.rowId t /\
                           cabinetHasKeys
                             (cabinets (CabinetService.cabinetId (CabinetService.fields t)))
                           = true) ->
                dealtWith new))
            tbl
            (fold_left (fun t transaction =>
                          CabinetService.enrichOne net now cabinets transaction t)
                       ts tbl).
Proof.
  induction ts as [| x ts IH]; intros tbl; cbn [fold_left].
  - induction tbl as [| r tbl IHt]; constructor; [| exact IHt].
    split; [apply advanced_refl |]. intros (t & [] & _).
  - pose proof (enrichOne_advances net now cabinets x tbl) as Hstep.
    specialize (IH (CabinetService.enrichOne net now cabinets x tbl)).
    revert Hstep IH.
    generalize (fold_left (fun t transaction =>
                             CabinetService.enrichOne net now cabinets transaction t)
                          ts (CabinetService.enrichOne net now cabinets x tbl)).
    generalize (CabinetService.enrichOne net now cabinets x tbl).
    intros mids. revert tbl.
    induction mids as [| mid mids IHm]; intros tbl news Hstep Hrest.
    + inversion Hstep; subst. inversion Hrest; subst. constructor.
    + inversion Hstep as [| old ? olds ? [Ha Hd] Hstep']; subst.
      inversion Hrest as [| ? new ? news' [Ha' Hd'] Hrest']; subst.
      constructor; [| apply IHm; assumption].
      split; [exact (advanced_trans _ _ _ Ha Ha') |].
      intros (t & [<- | Hin] & Hid & Hkeys).
      * apply (dealtWith_advanced mid new Ha'). apply Hd; assumption.
      * apply Hd'. exists t. repeat split; try assumption.
        destruct Ha as (Hi & _). congruence.
Qed.

(** X16.  A pass of [processUnprocessedCabinetTransactions] leaves every
    row in its place with its key, order number, cabinet and status; no row
    loses its processed mark or a recorded error; and every row that was
    unprocessed and whose cabinet holds both keys is, afterwards, marked
    processed or carries the error of the attempt. *)
Theorem cabinet_pass_advances
    (net : Bybit.Network) (now : Z) (cabinets : Z -> CabinetService.BybitCabinet)
    (tbl : CabinetService.Table) :
  Forall2 (fun old new =>
             advanced old new /\
             (CabinetService.processed (CabinetService.fields old) = false ->
              cabinetHasKeys
                (cabinets (CabinetService.cabinetId (CabinetService.fields old))) = true ->
              dealtWith new))
          tbl (CabinetService.processUnprocessedCabinetTransactions net now cabinets tbl).
Proof.
  unfold CabinetService.processUnprocessedCabinetTransactions.
  assert (Hweaken : forall ts olds news,
             Forall2 (fun old new =>
                        advanced old new /\
                        ((exists t, In t ts /\
                                    CabinetService.rowId old = CabinetService.rowId t /\
                                    cabinetHasKeys
                                      (cabinets (CabinetService.cabinetId
                                                   (CabinetService.fields t))) = true) ->
                         dealtWith new))
                     olds news ->
             (forall r, In r olds ->
                        CabinetService.processed (CabinetService.fields r) = false ->
                        In r ts) ->
             Forall2 (fun old new =>
                        advanced old new /\
                        (CabinetService.processed (CabinetService.fields old) = false ->
                         cabinetHasKeys
                           (cabinets (CabinetService.cabinetId (CabinetService.fields old)))
                         = true ->
                         dealtWith new))
                     olds news).
  { intros ts olds news Hfold.
    induction Hfold as [| old new olds news [Ha Hd] _ IH]; intros Hsnapshot; constructor.
    - split; [exact Ha |]. intros Hp Hkeys. apply Hd.
      exists old. repeat split; [| exact Hkeys].
      apply Hsnapshot; [left; reflexivity | exact Hp].
    - apply IH. intros r Hin. apply Hsnapshot. right. exact Hin. }
  apply (Hweaken (CabinetService.unprocessed tbl)).
  - apply enrich_fold_advances.
  - intros r Hin Hp. unfold CabinetService.unprocessed. apply filter_In.
    split; [exact Hin |]. rewrite Hp. reflexivity.
Qed.

(** *** The order-info pass *)







End EnrichmentFacts.


(** ** Further properties of the cabinet synchronisation *)

Section CabinetFacts.

Import CabinetService.
Import Notions.
Import Terms.

Lemma prefix_append (p m : string) : String.prefix p (p ++ m) = true.
Proof.
  induction p as [| a p IH]; cbn.
  - destruct m; reflexivity.
  - destruct (ascii_dec a a) as [_ | Hne]; [exact IH | contradiction].
Qed.

(** A cabinet run either returns at the guard on the period, silently, or
    ends with one status update. *)
Lemma sync_cabinet_cases
    (answer : res Bybit.ProcessResult) (now : Z) (period : Period)
    (cabinet : BybitCabinet) (tbl : Table) :
  (cabinetHasKeys cabinet = true /\ outOfRange period = true /\
   syncCabinetTransactions answer now period cabinet tbl
   = {| table := tbl; written := [] |}) \/
  (exists t st,
      syncCabinetTransactions answer now period cabinet tbl
      = wrote t now (id cabinet) st /\
      (String.prefix "ERROR: " st = true \/ String.prefix "SUCCESS: " st = true) /\
      (cabinetHasKeys cabinet = false \/ outOfRange period = false)).
Proof.
  unfold syncCabinetTransactions, cabinetHasKeys, outOfRange. cbv zeta.
  destruct (Js.truthy (bybitApiToken cabinet));
    [destruct (Js.truthy (bybitApiSecret cabinet)) |]; cbn [negb orb andb];
    try (right; eexists; eexists; split; [reflexivity |]; split; [left; apply prefix_append || reflexivity | auto];
         fail).
  destruct (beginDate period <? minTimestamp); cbn [orb]; [left; auto |].
  destruct (maxTimestamp <? beginDate period); cbn [orb]; [left; auto |].
  destruct (endDate period + 86400 * 1000 <? minTimestamp); cbn [orb]; [left; auto |].
  destruct (maxTimestamp <? endDate period + 86400 * 1000); cbn [orb]; [left; auto |].
  right.
  destruct answer as [result | m].
  - destruct (if Bybit.success result then Bybit.data result else None) as [d |].
    + destruct (List.length (Bybit.transactions d) =? 0)%nat.
      * eexists; eexists; split; [reflexivity |]. split; [right; apply prefix_append || reflexivity | auto].
      * destruct (upsertAll now (id cabinet)
                    (completedTransactions (Bybit.transactions d)) tbl) as [t [m |]].
        -- eexists; eexists; split; [reflexivity |]. split; [left; apply prefix_append || reflexivity | auto].
        -- eexists; eexists; split; [reflexivity |]. split; [right; apply prefix_append || reflexivity | auto].
    + eexists; eexists; split; [reflexivity |]. split; [left; apply prefix_append || reflexivity | auto].
  - eexists; eexists; split; [reflexivity |]. split; [left; apply prefix_append || reflexivity | auto].
Qed.

(** X18.  [syncCabinetTransactions] issues at most one status update, for
    its cabinet and at its clock, worded as an error or a success.  It
    issues none exactly when the cabinet holds both keys and a bound of the
    period lies outside 2020-01-01 .. 2025-12-31, and the table is then
    left as it was; this is so for every period that ends after
    2025-12-30, the end bound being a day later. *)
Theorem cabinet_status_writes
    (answer : res Bybit.ProcessResult) (now : Z) (period : Period)
    (cabinet : BybitCabinet) (tbl : Table) :
  (List.length (written (syncCabinetTransactions answer now period cabinet tbl)) <= 1)%nat /\
  (written (syncCabinetTransactions answer now period cabinet tbl) = [] <->
   cabinetHasKeys cabinet = true /\ outOfRange period = true) /\
  (written (syncCabinetTransactions answer now period cabinet tbl) = [] ->
   table (syncCabinetTransactions answer now period cabinet tbl) = tbl) /\
  Forall (fun w =>
            w_cabinetId w = id cabinet /\
            lastBybitSyncAt w = now /\
            (String.prefix "ERROR: " (lastBybitSyncStatus w) = true \/
             String.prefix "SUCCESS: " (lastBybitSyncStatus w) = true))
         (written (syncCabinetTransactions answer now period cabinet tbl)) /\
  (1767052800000 < endDate period -> outOfRange period = true).
Proof.
  split; [| split; [| split; [| split]]].
  - destruct (sync_cabinet_cases answer now period cabinet tbl)
      as [(_ & _ & ->) | (t & st & -> & _)]; cbn; lia.
  - destruct (sync_cabinet_cases answer now period cabinet tbl)
      as [(Hk & Hr & ->) | (t & st & -> & _ & Hnot)]; cbn.
    + split; auto.
    + split; [discriminate |]. intros [Hk Hr].
      destruct Hnot as [H | H]; congruence.
  - destruct (sync_cabinet_cases answer now period cabinet tbl)
      as [(_ & _ & ->) | (t & st & -> & _)]; cbn; [reflexivity | discriminate].
  - destruct (sync_cabinet_cases answer now period cabinet tbl)
      as [(_ & _ & ->) | (t & st & -> & Hst & _)]; cbn; constructor; [| constructor].
    cbn. auto.
  - intros Hlate. unfold outOfRange. cbv zeta.
    apply orb_true_iff. right. apply Z.ltb_lt. unfold maxTimestamp. lia.
Qed.

(** *** One row per order number *)

Lemma upsertOne_unique (now : Z) (cabinet : Z) (tx : Bybit.Order) (tbl tbl' : Table)
    (no : string) :
  upsertOne now cabinet tx tbl = Ok tbl' ->
  orderRows no tbl' = orderRows no tbl \/
  (orderRows no tbl = O /\ orderRows no tbl' = 1%nat).
Proof.
  pose proof (upsertOne_cases now cabinet tx tbl) as Hcases.
  destruct (Bybit.id tx) as [k |] eqn:Hid.
  - destruct Hcases as [(_ & ->) | [(Hnone & ->) | (key & _ & ->)]]; intros H;
      injection H as <-.
    + left. reflexivity.
    + rewrite create_orderRows. cbn [orderNo transformCabinetTransactionToDbFormat].
      rewrite Hid. destruct (String.eqb_spec k no) as [-> | Hne].
      * right. apply findUnique_none_rows in Hnone. rewrite Hnone. split; reflexivity.
      * left. apply Nat.add_0_r.
    + left. apply update_orderRows.
  - rewrite Hcases. discriminate.
Qed.

Lemma upsertAll_unique (now : Z) (cabinet : Z) (txs : list Bybit.Order) (no : string) :
  forall tbl,
    orderRows no (fst (upsertAll now cabinet txs tbl)) = orderRows no tbl \/
    (orderRows no tbl = O /\ orderRows no (fst (upsertAll now cabinet txs tbl)) = 1%nat).
Proof.
  induction txs as [| tx rest IH]; intros tbl; cbn [upsertAll].
  - left. reflexivity.
  - destruct (upsertOne now cabinet tx tbl) as [tbl' |] eqn:E; [| left; reflexivity].
    destruct (upsertOne_unique now cabinet tx tbl tbl' no E) as [H1 | [H0 H1]];
      destruct (IH tbl') as [H2 | [H2 H3]].
    + left. congruence.
    + right. split; congruence.
    + right. split; congruence.
    + rewrite H1 in H2. discriminate H2.
Qed.

Lemma nextId_above (tbl : Table) : forall r, In r tbl -> (rowId r < nextId tbl)%nat.
Proof.
  unfold nextId. induction tbl as [| x tbl IH]; intros r; cbn [In fold_right].
  - intros [].
  - intros [<- | Hin]; [lia |]. specialize (IH r Hin). lia.
Qed.

Lemma update_ids (key : nat) (d : Patch) (tbl : Table) :
  map rowId (update key d tbl) = map rowId tbl.
Proof.
  unfold update. rewrite map_map. apply map_ext.
  intros r. destruct (rowId r =? key)%nat; reflexivity.
Qed.

Lemma upsertOne_ids (now : Z) (cabinet : Z) (tx : Bybit.Order) (tbl tbl' : Table) :
  upsertOne now cabinet tx tbl = Ok tbl' ->
  NoDup (map rowId tbl) -> NoDup (map rowId tbl').
Proof.
  pose proof (upsertOne_cases now cabinet tx tbl) as Hcases.
  destruct (Bybit.id tx) as [k |].
  - destruct Hcases as [(_ & ->) | [(_ & ->) | (key & _ & ->)]]; intros H;
      injection H as <-; intros Hnodup.
    + exact Hnodup.
    + unfold create. rewrite map_app. cbn [map rowId].
      apply NoDup_app.
      * exact Hnodup.
      * constructor; [intros [] | constructor].
      * intros x Hx [<- | []]. apply in_map_iff in Hx.
        destruct Hx as (r & Hr & Hin). apply nextId_above in Hin. lia.
    + rewrite update_ids. exact Hnodup.
  - rewrite Hcases. discriminate.
Qed.

Lemma upsertAll_ids (now : Z) (cabinet : Z) (txs : list Bybit.Order) :
  forall tbl, NoDup (map rowId tbl) ->
              NoDup (map rowId (fst (upsertAll now cabinet txs tbl))).
Proof.
  induction txs as [| tx rest IH]; intros tbl Hnodup; cbn [upsertAll]; [exact Hnodup |].
  destruct (upsertOne now cabinet tx tbl) as [tbl' |] eqn:E; [| exact Hnodup].
  apply IH. apply (upsertOne_ids now cabinet tx tbl tbl' E Hnodup).
Qed.

Lemma sync_cabinet_one_row (answer : res Bybit.ProcessResult) (now : Z) (period : Period)
    (cabinet : BybitCabinet) (tbl : Table) :
  oneRowPerOrder tbl ->
  oneRowPerOrder (table (syncCabinetTransactions answer now period cabinet tbl)).
Proof.
  intros [Horders Hids]. rewrite cabinet_sync_table. split.
  - intros no. specialize (Horders no).
    destruct (upsertAll_unique now (id cabinet) (cabinetBatch answer period cabinet) no tbl)
      as [H | [_ H]]; lia.
  - apply upsertAll_ids. exact Hids.
Qed.

(** With one row per order number the lookup finds the row itself. *)
Lemma findUnique_the_row (no : string) (tbl : Table) :
  (orderRows no tbl <= 1)%nat ->
  forall r, In r tbl -> orderNo (fields r) = Some no -> findUnique no tbl = Some r.
Proof.
  unfold orderRows, findUnique.
  induction tbl as [| x tbl IH]; intros Hone r; cbn [In find]; [intros [] |].
  cbn [filter] in Hone.
  intros [-> | Hin] Hno.
  - rewrite Hno, String.eqb_refl. reflexivity.
  - destruct (match orderNo (fields x) with
              | Some k => String.eqb k no
              | None => false
              end) eqn:Hx.
    + exfalso. cbn [List.length] in Hone.
      assert (Hr : In r (filter (fun r0 => match orderNo (fields r0) with
                                           | Some k => String.eqb k no
                                           | None => false
                                           end) tbl)).
      { apply filter_In. split; [exact Hin |]. rewrite Hno. apply String.eqb_refl. }
      destruct (filter _ tbl); [contradiction | cbn [List.length] in Hone].
      apply le_S_n in Hone. inversion Hone.
    + apply IH; assumption.
Qed.

(** X19.  When no order number is on two rows and no key on two rows, this
    is still so after a cabinet run, and the lookup by order number then
    finds, for every row that has one, that very row. *)
Theorem cabinet_sync_keeps_one_row_per_order
    (answer : res Bybit.ProcessResult) (now : Z) (period : Period)
    (cabinet : BybitCabinet) (tbl : Table)
    (Hone : oneRowPerOrder tbl) :
  oneRowPerOrder (table (syncCabinetTransactions answer now period cabinet tbl)) /\
  forall r no,
    In r (table (syncCabinetTransactions answer now period cabinet tbl)) ->
    orderNo (fields r) = Some no ->
    findUnique no (table (syncCabinetTransactions answer now period cabinet tbl)) = Some r.
Proof.
  pose proof (sync_cabinet_one_row answer now period cabinet tbl Hone) as Hafter.
  split; [exact Hafter |].
  intros r no Hin Hno. apply findUnique_the_row; [apply Hafter | exact Hin | exact Hno].
Qed.

(** The theorem at an empty table and a page holding one sale. *)
Lemma cabinet_sync_keeps_one_row_per_order_witness :
  oneRowPerOrder
    (table (syncCabinetTransactions
              (Samples.pageOf [Samples.order 1 50 "A" "1.5" "45000" "30000"])
              1700000000000 Samples.november Samples.cabinet7 [])) /\
  forall r no,
    In r (table (syncCabinetTransactions
                   (Samples.pageOf [Samples.order 1 50 "A" "1.5" "45000" "30000"])
                   1700000000000 Samples.november Samples.cabinet7 [])) ->
    orderNo (fields r) = Some no ->
    findUnique no
      (table (syncCabinetTransactions
                (Samples.pageOf [Samples.order 1 50 "A" "1.5" "45000" "30000"])
                1700000000000 Samples.november Samples.cabinet7 []))
    = Some r.
Proof.
  apply (cabinet_sync_keeps_one_row_per_order
           (Samples.pageOf [Samples.order 1 50 "A" "1.5" "45000" "30000"])
           1700000000000 Samples.november Samples.cabinet7 []).
  split; [intros no; unfold orderRows; cbn; lia | constructor].
Defined.

(** *** Every order of the batch is stored as completed *)

Lemma find_map_same {A : Type} (f : A -> A) (pred : A -> bool) (l : list A) :
  (forall x, pred (f x) = pred x) ->
  find pred (map f l) = option_map f (find pred l).
Proof.
  intros Hf. induction l as [| x l IH]; cbn [map find option_map]; [reflexivity |].
  rewrite Hf. destruct (pred x); [reflexivity | exact IH].
Qed.

Lemma findUnique_update (no : string) (key : nat) (d : Patch) (tbl : Table) :
  findUnique no (update key d tbl)
  = option_map (fun r => if (rowId r =? key)%nat then patched d r else r)
      (findUnique no tbl).
Proof.
  unfold findUnique, update. apply find_map_same.
  intros r. destruct (rowId r =? key)%nat; reflexivity.
Qed.

Lemma findUnique_app_one (no : string) (tbl : Table) (r : Row) :
  findUnique no (tbl ++ [r])
  = match findUnique no tbl with
    | Some x => Some x
    | None => findUnique no [r]
    end.
Proof.
  unfold findUnique. induction tbl as [| x tbl IH]; cbn [app find]; [reflexivity |].
  destruct (match orderNo (fields x) with
            | Some k => String.eqb k no
            | None => false
            end); [reflexivity | exact IH].
Qed.

(** A turn for an order with status 50 leaves its order number, and every
    order number already so, on a row stored as completed. *)
Lemma upsertOne_stores (now : Z) (cabinet : Z) (tx : Bybit.Order) (tbl tbl' : Table)
    (no : string) :
  upsertOne now cabinet tx tbl = Ok tbl' ->
  Bybit.status tx = 50 ->
  Bybit.id tx = Some no \/ storedCompleted no tbl ->
  storedCompleted no tbl'.
Proof.
  unfold upsertOne, storedCompleted.
  cbn [orderNo status transformCabinetTransactionToDbFormat].
  intros Hrun Hst. rewrite Hst in Hrun. change (statusOf 50) with "COMPLETED" in Hrun.
  destruct (Bybit.id tx) as [k |] eqn:Hid; [| discriminate Hrun].
  destruct (findUnique k tbl) as [e |] eqn:He.
  - destruct (String.eqb (status (fields e)) "COMPLETED") eqn:Hs.
    + injection Hrun as <-. intros [Hno | Hstored]; [| exact Hstored].
      injection Hno as <-. exists e. split; [exact He |].
      apply String.eqb_eq. exact Hs.
    + injection Hrun as <-. intros Hcase.
      assert (Hfound : exists r, findUnique no tbl = Some r /\
                                 (rowId r = rowId e \/ status (fields r) = "COMPLETED")).
      { destruct Hcase as [Hno | (r & Hr & Hc)].
        - injection Hno as <-. exists e. auto.
        - exists r. auto. }
      destruct Hfound as (r & Hr & Hwhich).
      rewrite findUnique_update, Hr. cbn [option_map].
      eexists. split; [reflexivity |].
      destruct (Nat.eqb_spec (rowId r) (rowId e)) as [_ | Hne]; [reflexivity |].
      destruct Hwhich as [Heq | Hc]; [contradiction | exact Hc].
  - injection Hrun as <-. unfold create. rewrite findUnique_app_one.
    intros [Hno | (r & Hr & Hc)].
    + injection Hno as <-. rewrite He. unfold findUnique.
      cbn [find fields orderNo transformCabinetTransactionToDbFormat].
      rewrite Hid, String.eqb_refl. eexists. split; [reflexivity |].
      cbn [fields status transformCabinetTransactionToDbFormat]. rewrite Hst. reflexivity.
    + rewrite Hr. exists r. auto.
Qed.

Lemma upsertAll_stores (now : Z) (cabinet : Z) (txs : list Bybit.Order) (no : string) :
  (forall tx, In tx txs -> Bybit.status tx = 50) ->
  forall tbl, storedCompleted no tbl ->
              storedCompleted no (fst (upsertAll now cabinet txs tbl)).
Proof.
  induction txs as [| tx rest IH]; intros Hall tbl Hstored; cbn [upsertAll];
    [exact Hstored |].
  destruct (upsertOne now cabinet tx tbl) as [tbl' |] eqn:E; [| exact Hstored].
  apply IH; [intros t Ht; apply Hall; right; exact Ht |].
  apply (upsertOne_stores now cabinet tx tbl tbl' no E);
    [apply Hall; left; reflexivity | right; exact Hstored].
Qed.

Lemma upsertAll_stores_batch (now : Z) (cabinet : Z) (txs : list Bybit.Order)
    (tx : Bybit.Order) (no : string) :
  (forall t, In t txs -> Bybit.status t = 50) ->
  Bybit.id tx = Some no ->
  forall tbl, In tx (keyed txs) ->
              storedCompleted no (fst (upsertAll now cabinet txs tbl)).
Proof.
  intros Hall Hid.
  induction txs as [| tx0 rest IH]; intros tbl; cbn [keyed upsertAll]; [intros [] |].
  pose proof (upsertOne_cases now cabinet tx0 tbl) as Hcases.
  destruct (Bybit.id tx0) as [k0 |] eqn:Hid0; [| intros []].
  assert (Hok : exists tbl', upsertOne now cabinet tx0 tbl = Ok tbl').
  { destruct Hcases as [(_ & ->) | [(_ & ->) | (key & _ & ->)]]; eexists; reflexivity. }
  destruct Hok as (tbl' & E). rewrite E.
  intros [<- | Hin].
  - apply upsertAll_stores; [intros t Ht; apply Hall; right; exact Ht |].
    apply (upsertOne_stores now cabinet tx0 tbl tbl' no E);
      [apply Hall; left; reflexivity | left; exact Hid].
  - apply IH; [intros t Ht; apply Hall; right; exact Ht | exact Hin].
Qed.

Lemma cabinetBatch_completed (answer : res Bybit.ProcessResult) (period : Period)
    (cabinet : BybitCabinet) (tx : Bybit.Order) :
  In tx (cabinetBatch answer period cabinet) -> Bybit.status tx = 50.
Proof.
  unfold cabinetBatch.
  destruct (negb (Js.truthy (bybitApiToken cabinet))
            || negb (Js.truthy (bybitApiSecret cabinet)))%bool; [intros [] |].
  cbv zeta.
  destruct ((beginDate period <? minTimestamp)
            || (maxTimestamp <? beginDate period))%bool; [intros [] |].
  destruct ((endDate period + 86400 * 1000 <? minTimestamp)
            || (maxTimestamp <? endDate period + 86400 * 1000))%bool; [intros [] |].
  destruct answer as [result | m]; [| intros []].
  destruct (if Bybit.success result then Bybit.data result else None) as [d |];
    [| intros []].
  unfold completedTransactions. intros Hin.
  apply filter_In in Hin. destruct Hin as [Hin _].
  apply filter_In in Hin. destruct Hin as [_ Hstatus].
  apply Z.eqb_eq. exact Hstatus.
Qed.

(** X20.  After a cabinet run, every order the saving loop reached is in
    the table: the lookup by its order number finds a row with that number,
    stored as "COMPLETED", whether the row was created, had its status
    renewed or was left alone.  The orders of the run are taken to have
    creation dates the runtime can print, as the transformation prints the
    date of each. *)
Theorem cabinet_sync_stores_batch
    (answer : res Bybit.ProcessResult) (now : Z) (period : Period)
    (cabinet : BybitCabinet) (tbl : Table) (tx : Bybit.Order) (no : string)
    (Hdates : forall other t,
        In other (cabinetBatch answer period cabinet) ->
        Js.parseInt true (Js.or_else (Bybit.createDate other) "0") = Some t ->
        printable t = true)
    (Hreached : In tx (keyed (cabinetBatch answer period cabinet)))
    (Hid : Bybit.id tx = Some no) :
  exists r,
    findUnique no (table (syncCabinetTransactions answer now period cabinet tbl)) = Some r /\
    In r (table (syncCabinetTransactions answer now period cabinet tbl)) /\
    orderNo (fields r) = Some no /\
    status (fields r) = "COMPLETED".
Proof.
  rewrite cabinet_sync_table.
  destruct (upsertAll_stores_batch now (id cabinet) (cabinetBatch answer period cabinet)
              tx no (cabinetBatch_completed answer period cabinet) Hid tbl Hreached)
    as (r & Hfind & Hstatus).
  exists r. split; [exact Hfind |].
  unfold findUnique in Hfind. apply find_some in Hfind. destruct Hfind as [Hin Hno].
  split; [exact Hin |]. split; [| exact Hstatus].
  destruct (orderNo (fields r)) as [k |]; [| discriminate Hno].
  apply String.eqb_eq in Hno. congruence.
Qed.

(** The theorem at a page holding one sale. *)
Lemma cabinet_sync_stores_batch_witness :
  exists r,
    findUnique "A"
      (table (syncCabinetTransactions
                (Samples.pageOf [Samples.order 1 50 "A" "1.5" "45000" "30000"])
                1700000000000 Samples.november Samples.cabinet7 []))
    = Some r /\
    In r (table (syncCabinetTransactions
                   (Samples.pageOf [Samples.order 1 50 "A" "1.5" "45000" "30000"])
                   1700000000000 Samples.november Samples.cabinet7 [])) /\
    orderNo (fields r) = Some "A" /\
    status (fields r) = "COMPLETED".
Proof.
  apply (cabinet_sync_stores_batch
           (Samples.pageOf [Samples.order 1 50 "A" "1.5" "45000" "30000"])
           1700000000000 Samples.november Samples.cabinet7 []
           (Samples.order 1 50 "A" "1.5" "45000" "30000") "A").
  - intros other t [<- | []] Ht. vm_compute in Ht. injection Ht as <-. reflexivity.
  - left. reflexivity.
  - reflexivity.
Defined.

(** *** The cycle over the cabinets *)

Lemma keptPrefix_refl (tbl : Table) : keptPrefix tbl tbl.
Proof.
  exists tbl, []. split; [symmetry; apply app_nil_r | apply keptRow_all_refl].
Qed.

Lemma keptPrefix_trans (a b c : Table) : keptPrefix a b -> keptPrefix b c -> keptPrefix a c.
Proof.
  intros (olds & added & -> & Hab) (olds' & added' & -> & Hbc).
  apply Forall2_app_inv_l in Hbc. destruct Hbc as (o1 & o2 & Ho1 & _ & ->).
  exists o1, (o2 ++ added'). split; [symmetry; apply app_assoc |].
  exact (keptRow_all_trans _ _ _ Hab Ho1).
Qed.

Lemma sync_cabinet_prefix (answer : res Bybit.ProcessResult) (now : Z) (period : Period)
    (cabinet : BybitCabinet) (tbl : Table) :
  keptPrefix tbl (table (syncCabinetTransactions answer now period cabinet tbl)).
Proof.
  rewrite cabinet_sync_table.
  destruct (upsertAll_shape now (id cabinet) (cabinetBatch answer period cabinet) tbl)
    as (olds & new & Heq & Hkept & _).
  exists olds, new. auto.
Qed.

Lemma cabinet_cycle_fold (visit : BybitCabinet -> Cabinets.Visit)
    (cabinets : list BybitCabinet) :
  forall c,
    Cabinets.pauses (fold_left (Cabinets.syncOne visit) cabinets c)
    = Cabinets.pauses c ++ repeat 1000 (List.length cabinets) /\
    map w_cabinetId (Cabinets.written (fold_left (Cabinets.syncOne visit) cabinets c))
    = map w_cabinetId (Cabinets.written c)
      ++ map id (filter (fun cabinet =>
                           negb (cabinetHasKeys cabinet
                                 && outOfRange (Cabinets.period (visit cabinet))))
                        cabinets) /\
    keptPrefix (Cabinets.table c)
      (Cabinets.table (fold_left (Cabinets.syncOne visit) cabinets c)) /\
    (oneRowPerOrder (Cabinets.table c) ->
     oneRowPerOrder (Cabinets.table (fold_left (Cabinets.syncOne visit) cabinets c))).
Proof.
  induction cabinets as [| cabinet rest IH]; intros c; cbn [fold_left].
  - cbn [List.length repeat filter map]. rewrite !app_nil_r.
    split; [reflexivity |]. split; [reflexivity |].
    split; [apply keptPrefix_refl | auto].
  - destruct (IH (Cabinets.syncOne visit c cabinet)) as (Hp & Hw & Hk & Hone).
    rewrite Hp, Hw. unfold Cabinets.syncOne at 1 2 3 4.
    cbn [Cabinets.pauses Cabinets.written Cabinets.table].
    split; [| split; [| split]].
    + rewrite <- app_assoc. reflexivity.
    + rewrite map_app, <- app_assoc. f_equal. cbn [filter].
      destruct (sync_cabinet_cases (Cabinets.answer (visit cabinet))
                  (Cabinets.clock (visit cabinet)) (Cabinets.period (visit cabinet))
                  cabinet (Cabinets.table c))
        as [(Hkeys & Hrange & ->) | (t & st & -> & _ & Hnot)].
      * rewrite Hkeys, Hrange. reflexivity.
      * replace (cabinetHasKeys cabinet
                 && outOfRange (Cabinets.period (visit cabinet)))%bool with false
          by (destruct Hnot as [-> | ->];
              [reflexivity | symmetry; apply andb_false_r]).
        reflexivity.
    + eapply keptPrefix_trans; [apply sync_cabinet_prefix | exact Hk].
    + intros H. apply Hone. apply sync_cabinet_one_row. exact H.
Qed.

(** X21.  A cycle of [syncAllBybitCabinets] pauses one second after every
    cabinet and issues its status updates in the order of the cabinets:
    one for each cabinet, except those that hold both keys and meet a
    period outside the range of the guard, which get none. *)
Theorem cabinet_cycle_status_and_pacing
    (cabinets : list BybitCabinet) (visit : BybitCabinet -> Cabinets.Visit) (tbl : Table) :
  Cabinets.pauses (Cabinets.syncAllBybitCabinets cabinets visit tbl)
  = repeat 1000 (List.length cabinets) /\
  map w_cabinetId (Cabinets.written (Cabinets.syncAllBybitCabinets cabinets visit tbl))
  = map id (filter (fun cabinet =>
                      negb (cabinetHasKeys cabinet
                            && outOfRange (Cabinets.period (visit cabinet))))
                   cabinets).
Proof.
  unfold Cabinets.syncAllBybitCabinets.
  destruct (cabinet_cycle_fold visit cabinets
              {| Cabinets.table := tbl; Cabinets.written := []; Cabinets.pauses := [] |})
    as (Hp & Hw & _).
  split; [exact Hp | exact Hw].
Qed.

(** X22.  A cycle over the cabinets keeps the rows it finds, in place,
    each as it was or with a new status, so that an order stays with the
    cabinet that stored it first; and when no order number was on two rows
    and no key on two rows, this is still so after the cycle, whatever
    orders the cabinets have in common. *)
Theorem cabinet_cycle_keeps_one_row_per_order
    (cabinets : list BybitCabinet) (visit : BybitCabinet -> Cabinets.Visit) (tbl : Table)
    (Hone : oneRowPerOrder tbl) :
  oneRowPerOrder (Cabinets.table (Cabinets.syncAllBybitCabinets cabinets visit tbl)) /\
  exists olds added,
    Cabinets.table (Cabinets.syncAllBybitCabinets cabinets visit tbl) = olds ++ added /\
    Forall2 keptRow tbl olds.
Proof.
  unfold Cabinets.syncAllBybitCabinets.
  destruct (cabinet_cycle_fold visit cabinets
              {| Cabinets.table := tbl; Cabinets.written := []; Cabinets.pauses := [] |})
    as (_ & _ & Hk & Hafter).
  split; [exact (Hafter Hone) | exact Hk].
Qed.

(** The theorem at two cabinets that report the same sale. *)
Lemma cabinet_cycle_keeps_one_row_per_order_witness :
  oneRowPerOrder
    (Cabinets.table
       (Cabinets.syncAllBybitCabinets
          [Samples.cabinet7;
           {| id := 8; bybitEmail := "other@example.org";
              bybitApiToken := Some "key"; bybitApiSecret := Some "secret" |}]
          (fun _ =>
             {| Cabinets.answer :=
                  Samples.pageOf [Samples.order 1 50 "A" "1.5" "45000" "30000"];
                Cabinets.clock := 1700000000000;
                Cabinets.period := Samples.november |})
          [])) /\
  exists olds added,
    Cabinets.table
      (Cabinets.syncAllBybitCabinets
         [Samples.cabinet7;
          {| id := 8; bybitEmail := "other@example.org";
             bybitApiToken := Some "key"; bybitApiSecret := Some "secret" |}]
         (fun _ =>
            {| Cabinets.answer :=
                 Samples.pageOf [Samples.order 1 50 "A" "1.5" "45000" "30000"];
               Cabinets.clock := 1700000000000;
               Cabinets.period := Samples.november |})
         [])
    = olds ++ added /\
    Forall2 keptRow [] olds.
Proof.
  apply (cabinet_cycle_keeps_one_row_per_order
           [Samples.cabinet7;
            {| id := 8; bybitEmail := "other@example.org";
               bybitApiToken := Some "key"; bybitApiSecret := Some "secret" |}]
           (fun _ =>
              {| Cabinets.answer :=
                   Samples.pageOf [Samples.order 1 50 "A" "1.5" "45000" "30000"];
                 Cabinets.clock := 1700000000000;
                 Cabinets.period := Samples.november |})
           []).
  split; [intros no; unfold orderRows; cbn; lia | constructor].
Defined.

End CabinetFacts.


(** ** The aggregates and the paged fetch *)

Section PagedFacts.

Import Summary.
Import Paged.

Lemma get_bumpCoin (coin coin' : string) (isBuy : bool) (b : ByCoin) :
  get coin' (bumpCoin coin isBuy b)
  = if String.eqb coin coin' then Some (bump isBuy (countsAt coin b)) else get coin' b.
Proof.
  unfold countsAt.
  induction b as [| [k c] rest IH]; cbn [bumpCoin get].
  - rewrite String.eqb_sym. destruct (String.eqb coin' coin); reflexivity.
  - destruct (String.eqb_spec k coin) as [-> | Hk]; cbn [get].
    + destruct (String.eqb_spec coin coin'); reflexivity.
    + rewrite IH.
      destruct (String.eqb_spec coin coin') as [<- | Hc].
      * destruct (String.eqb_spec k coin); [contradiction | reflexivity].
      * reflexivity.
Qed.

Lemma countsAt_bumpCoin (coin coin' : string) (isBuy : bool) (b : ByCoin) :
  countsAt coin' (bumpCoin coin isBuy b)
  = if String.eqb coin coin' then bump isBuy (countsAt coin b) else countsAt coin' b.
Proof.
  unfold countsAt at 1 3. rewrite get_bumpCoin.
  destruct (String.eqb coin coin'); reflexivity.
Qed.

Lemma counted_cons (coin : string) (isBuy : bool) (tx : Bybit.Order)
    (txs : list Bybit.Order) :
  counted coin isBuy (tx :: txs)
  = Nat.add (if (String.eqb (coinOf tx) coin && Bool.eqb (Bybit.side tx =? 0) isBuy)%bool
             then 1%nat else O)
      (counted coin isBuy txs).
Proof.
  unfold counted. cbn [filter].
  destruct (String.eqb (coinOf tx) coin && Bool.eqb (Bybit.side tx =? 0) isBuy)%bool;
    reflexivity.
Qed.

Lemma traded_cons (isBuy : bool) (tx : Bybit.Order) (txs : list Bybit.Order) :
  traded isBuy (tx :: txs)
  = Nat.add (if (negb (String.eqb (coinOf tx) "") && Bool.eqb (Bybit.side tx =? 0) isBuy)%bool
             then 1%nat else O)
      (traded isBuy txs).
Proof.
  unfold traded. cbn [filter].
  destruct (negb (String.eqb (coinOf tx) "") && Bool.eqb (Bybit.side tx =? 0) isBuy)%bool;
    reflexivity.
Qed.

(** The loop, from any state of the counters. *)
Lemma forEach_counts (txs : list Bybit.Order) :
  forall s b,
    match forEach txs s b with
    | Throw m =>
        m = cannotReadCount /\
        exists tx, In tx txs /\ inherited (coinOf tx) = true
    | Ok (s', b') =>
        (forall tx, In tx txs -> inherited (coinOf tx) = false) /\
        buy s' = (buy s + traded true txs)%nat /\
        sell s' = (sell s + traded false txs)%nat /\
        forall coin,
          coin <> "" ->
          buy (countsAt coin b') = (buy (countsAt coin b) + counted coin true txs)%nat /\
          sell (countsAt coin b') = (sell (countsAt coin b) + counted coin false txs)%nat
    end.
Proof.
  induction txs as [| tx rest IH]; intros s b; cbn [forEach].
  - split; [intros tx [] |]. unfold traded, counted. cbn. repeat split; lia.
  - cbv zeta. destruct (String.eqb_spec (coinOf tx) "") as [Hnone | Hsome].
    + specialize (IH s b). destruct (forEach rest s b) as [[s' b'] | m].
      * destruct IH as (Hall & Hb & Hs & Hcoins).
        rewrite !traded_cons, Hnone. cbn [String.eqb negb andb].
        split; [| split; [exact Hb | split; [exact Hs |]]].
        -- intros t [<- | Hin]; [rewrite Hnone; reflexivity | exact (Hall t Hin)].
        -- intros coin Hcoin. rewrite !counted_cons, Hnone.
           replace (String.eqb "" coin) with false
             by (symmetry; apply String.eqb_neq; congruence).
           cbn [andb]. apply Hcoins. exact Hcoin.
      * destruct IH as (-> & t & Hin & Ht).
        split; [reflexivity |]. exists t. split; [right; exact Hin | exact Ht].
    + destruct (inherited (coinOf tx)) eqn:Hinh.
      * split; [reflexivity |]. exists tx. split; [left; reflexivity | exact Hinh].
      * specialize (IH (bump (Bybit.side tx =? 0) s)
                       (bumpCoin (coinOf tx) (Bybit.side tx =? 0) b)).
        destruct (forEach rest _ _) as [[s' b'] | m].
        -- destruct IH as (Hall & Hb & Hs & Hcoins).
           rewrite !traded_cons.
           replace (String.eqb (coinOf tx) "") with false
             by (symmetry; apply String.eqb_neq; exact Hsome).
           cbn [negb andb].
           split; [| split; [| split]].
           ++ intros t [<- | Hin]; [exact Hinh | exact (Hall t Hin)].
           ++ rewrite Hb. unfold bump. destruct (Bybit.side tx =? 0); cbn; lia.
           ++ rewrite Hs. unfold bump. destruct (Bybit.side tx =? 0); cbn; lia.
           ++ intros coin Hcoin. destruct (Hcoins coin Hcoin) as [Hcb Hcs].
              rewrite Hcb, Hcs, !counted_cons, countsAt_bumpCoin.
              destruct (String.eqb_spec (coinOf tx) coin) as [<- | Hne].
              ** unfold bump. destruct (Bybit.side tx =? 0); cbn; lia.
              ** cbn [andb]. lia.
        -- destruct IH as (-> & t & Hin & Ht).
           split; [reflexivity |]. exists t. split; [right; exact Hin | exact Ht].
Qed.

(** X26.  [processTransactions] throws exactly when an order names a token
    like a property every object inherits, such as "constructor"; the
    error is then that of updating a count that is not there.  Otherwise
    [totalCount] is the number of orders, the buy and sell counts of the
    summary are the numbers of orders with side 0 and with another side
    among those that name a token, so that they fall short of [totalCount]
    by the orders without a token, and the counts under each coin are the
    numbers of its orders by side. *)
Theorem summary_counts (txs : list Bybit.Order) :
  match processTransactions txs with
  | Throw m =>
      m = cannotReadCount /\
      exists tx, In tx txs /\ inherited (coinOf tx) = true
  | Ok d =>
      (forall tx, In tx txs -> inherited (coinOf tx) = false) /\
      totalCount d = List.length txs /\
      transactions d = txs /\
      buy (summary d) = traded true txs /\
      sell (summary d) = traded false txs /\
      (buy (summary d) + sell (summary d)
       + List.length (filter (fun tx => String.eqb (coinOf tx) "") txs))%nat
      = totalCount d /\
      forall coin,
        coin <> "" ->
        buy (countsAt coin (byCoin d)) = counted coin true txs /\
        sell (countsAt coin (byCoin d)) = counted coin false txs
  end.
Proof.
  assert (Hsplit : forall l : list Bybit.Order,
             (traded true l + traded false l
              + List.length (filter (fun tx => String.eqb (coinOf tx) "") l))%nat
             = List.length l).
  { induction l as [| tx l IH]; [reflexivity |].
    rewrite !traded_cons. cbn [filter List.length].
    destruct (String.eqb (coinOf tx) ""), (Bybit.side tx =? 0); cbn; lia. }
  unfold processTransactions.
  destruct txs as [| tx rest].
  - cbn. repeat split; auto. intros tx [].
  - pose proof (forEach_counts (tx :: rest) zero []) as H.
    destruct (forEach (tx :: rest) zero []) as [[s b] | m]; [| exact H].
    destruct H as (Hall & Hb & Hs & Hcoins).
    cbn [totalCount transactions summary byCoin].
    cbn [buy sell zero Nat.add] in Hb, Hs.
    split; [exact Hall |]. split; [reflexivity |]. split; [reflexivity |].
    split; [exact Hb |]. split; [exact Hs |]. split.
    + rewrite Hb, Hs. apply Hsplit.
    + intros coin Hcoin. destruct (Hcoins coin Hcoin) as [Hcb Hcs].
      rewrite Hcb, Hcs. unfold countsAt. cbn. split; reflexivity.
Qed.

(** *** The pages asked for *)

Lemma furtherPages_spec (getAllOrders : Pages) (n : nat) :
  forall cur all asked paused,
  exists k out paused',
    furtherPages getAllOrders n cur all asked paused = (out, asked ++ seq cur k, paused') /\
    (k <= n)%nat /\
    match out with
    | Ok all' =>
        exists g,
          Forall (answers getAllOrders) (seq cur g) /\
          all' = all ++ flat_map (itemsAt getAllOrders) (seq cur g) /\
          paused' = (paused + g)%nat /\
          ((g = k /\ k = n) \/
           (k = S g /\
            exists response,
              getAllOrders (cur + g)%nat = Ok response /\ ret_code response <> 0))
    | Throw m =>
        exists g,
          k = S g /\
          getAllOrders (cur + g)%nat = Throw m /\
          Forall (answers getAllOrders) (seq cur g) /\
          paused' = (paused + g)%nat
    end.
Proof.
  induction n as [| n IH]; intros cur all asked paused; cbn [furtherPages].
  - exists O, (Ok all), paused. cbn [seq]. rewrite app_nil_r.
    split; [reflexivity |]. split; [lia |].
    exists O. cbn. rewrite app_nil_r. repeat split; auto.
  - destruct (getAllOrders cur) as [response | m] eqn:Hcur.
    + destruct (Z.eqb_spec (ret_code response) 0) as [Hcode | Hcode].
      * destruct (IH (S cur) (all ++ itemsOf response) (asked ++ [cur]) (S paused))
          as (k & out & paused' & Hrun & Hk & Hout).
        exists (S k), out, paused'. rewrite Hrun. cbn [seq].
        split; [rewrite <- app_assoc; reflexivity |]. split; [lia |].
        assert (Hhere : answers getAllOrders cur) by (exists response; auto).
        assert (Hitems : itemsAt getAllOrders cur = itemsOf response)
          by (unfold itemsAt; rewrite Hcur; reflexivity).
        destruct out as [all' | m].
        -- destruct Hout as (g & Hgood & -> & -> & Hend).
           exists (S g). cbn [seq flat_map]. rewrite Hitems.
           split; [constructor; assumption |].
           split; [rewrite <- app_assoc; reflexivity |]. split; [lia |].
           destruct Hend as [[-> ->] | (-> & r & Hr & Hbad)]; [left; auto |].
           right. split; [reflexivity |]. exists r.
           rewrite Nat.add_succ_r. split; [exact Hr | exact Hbad].
        -- destruct Hout as (g & -> & Hthrow & Hgood & ->).
           exists (S g). split; [reflexivity |].
           rewrite Nat.add_succ_r. split; [exact Hthrow |].
           cbn [seq]. split; [constructor; assumption | lia].
      * exists 1%nat, (Ok all), paused. cbn [seq].
        split; [reflexivity |]. split; [lia |].
        exists O. cbn [seq flat_map]. rewrite app_nil_r, !Nat.add_0_r.
        split; [constructor |]. split; [reflexivity |]. split; [reflexivity |].
        right. split; [reflexivity |]. exists response. auto.
    + exists 1%nat, (Throw m), paused. cbn [seq].
      split; [reflexivity |]. split; [lia |].
      exists O. rewrite !Nat.add_0_r. repeat split; auto.
Qed.

Lemma totalPagesOf_bound (totalCount pageSize : nat) :
  (totalPagesOf totalCount pageSize <= maxPages)%nat.
Proof.
  unfold totalPagesOf. destruct pageSize; [lia |]. apply Nat.le_min_r.
Qed.

(** X23.  The paged fetch asks for consecutive pages, starting with the
    initial one; every further page has a number of at most 100; it takes
    a pause after a further page only; and when the first answer counts no
    more orders than a page holds, or has no count, the initial page is
    the only one asked for. *)
Theorem paged_fetch_requests (getAllOrders : Pages) (initialPage pageSize : nat) :
  exists k,
    requested (getAndProcessAllOrders getAllOrders initialPage pageSize)
    = seq initialPage (S k) /\
    (k <= maxPages - initialPage)%nat /\
    Forall (fun page => page = initialPage \/ (page <= maxPages)%nat)
           (requested (getAndProcessAllOrders getAllOrders initialPage pageSize)) /\
    (pauses (getAndProcessAllOrders getAllOrders initialPage pageSize) <= k)%nat /\
    (forall response,
        getAllOrders initialPage = Ok response ->
        (countOf response <= pageSize)%nat ->
        k = O).
Proof.
  assert (Hbound : forall k, (k <= maxPages - initialPage)%nat ->
             Forall (fun page => page = initialPage \/ (page <= maxPages)%nat)
                    (seq initialPage (S k))).
  { intros k Hk. apply Forall_forall. intros page Hin. apply in_seq in Hin. lia. }
  assert (Hone : exists k,
             ([initialPage] : list nat) = seq initialPage (S k) /\
             (k <= maxPages - initialPage)%nat /\
             Forall (fun page => page = initialPage \/ (page <= maxPages)%nat)
                    [initialPage] /\
             (O <= k)%nat /\
             (forall response : ApiResponse,
                 getAllOrders initialPage = Ok response ->
                 (countOf response <= pageSize)%nat -> k = O)).
  { exists O. repeat split; auto; try lia. }
  unfold getAndProcessAllOrders.
  destruct (getAllOrders initialPage) as [response | m] eqn:Hfirst; [| exact Hone].
  destruct (negb (ret_code response =? 0)); [exact Hone |].
  cbv zeta.
  destruct ((pageSize <? countOf response)%nat && (0 <? countOf response)%nat)%bool
    eqn:Hmore.
  - destruct (furtherPages_spec getAllOrders
                (totalPagesOf (countOf response) pageSize - initialPage) (S initialPage)
                (itemsOf response) [initialPage] O)
      as (k & out & paused' & Hrun & Hk & Hout).
    rewrite Hrun.
    pose proof (totalPagesOf_bound (countOf response) pageSize) as Hmax.
    assert (Hpaused : (paused' <= k)%nat).
    { destruct out as [all' | m].
      - destruct Hout as (g & _ & _ & -> & [[-> _] | [-> _]]); lia.
      - destruct Hout as (g & -> & _ & _ & ->). lia. }
    exists k.
    assert (Hreq : forall f, requested f = [initialPage] ++ seq (S initialPage) k ->
                             requested f = seq initialPage (S k)) by (intros f ->; reflexivity).
    assert (Hshape : forall f,
               requested f = [initialPage] ++ seq (S initialPage) k ->
               pauses f = paused' ->
               requested f = seq initialPage (S k) /\
               (k <= maxPages - initialPage)%nat /\
               Forall (fun page => page = initialPage \/ (page <= maxPages)%nat)
                      (requested f) /\
               (pauses f <= k)%nat /\
               (forall response0 : ApiResponse,
                   Ok response = Ok response0 ->
                   (countOf response0 <= pageSize)%nat -> k = O)).
    { intros f Hf Hp. rewrite (Hreq f Hf), Hp.
      split; [reflexivity |]. split; [lia |]. split; [apply Hbound; lia |].
      split; [exact Hpaused |].
      intros response0 Heq Hle. injection Heq as <-.
      apply andb_true_iff in Hmore. destruct Hmore as [Hlt _].
      apply Nat.ltb_lt in Hlt. lia. }
    destruct out as [all' | m].
    + unfold finish. destruct (processTransactions all'); apply Hshape; reflexivity.
    + apply Hshape; reflexivity.
  - unfold finish.
    destruct (processTransactions (itemsOf response)); exact Hone.
Qed.

Lemma processTransactions_result (txs : list Bybit.Order) :
  match processTransactions txs with
  | Throw m =>
      m = cannotReadCount /\ exists tx, In tx txs /\ inherited (coinOf tx) = true
  | Ok d => transactions d = txs /\ totalCount d = List.length txs
  end.
Proof.
  unfold processTransactions. destruct txs as [| tx rest]; [split; reflexivity |].
  pose proof (forEach_counts (tx :: rest) zero []) as H.
  destruct (forEach (tx :: rest) zero []) as [[s b] | m]; [split; reflexivity | exact H].
Qed.

(** X24.  When the paged fetch gives data, the first pages it asked for
    all answered with [ret_code] 0, the data are the orders of those pages
    in order, and it took a pause after each of them but the first; it
    asked for no other page, or for one more that answered with another
    [ret_code] and ended the gathering without a trace in the result.
    When it gives no data, it reports no success and carries a message:
    the initial page, the only one asked for, did not answer with
    [ret_code] 0; or the last page asked for threw, and the orders
    gathered before are dropped; or an order of a page names a token like
    an inherited property. *)
Theorem paged_fetch_outcome (getAllOrders : Pages) (initialPage pageSize : nat) :
  match data (result (getAndProcessAllOrders getAllOrders initialPage pageSize)) with
  | Some d =>
      success (result (getAndProcessAllOrders getAllOrders initialPage pageSize)) = true /\
      exists g,
        Forall (answers getAllOrders) (seq initialPage (S g)) /\
        transactions d = flat_map (itemsAt getAllOrders) (seq initialPage (S g)) /\
        totalCount d = List.length (transactions d) /\
        pauses (getAndProcessAllOrders getAllOrders initialPage pageSize) = g /\
        (requested (getAndProcessAllOrders getAllOrders initialPage pageSize)
         = seq initialPage (S g) \/
         (requested (getAndProcessAllOrders getAllOrders initialPage pageSize)
          = seq initialPage (S (S g)) /\
          exists response,
            getAllOrders (initialPage + S g)%nat = Ok response /\
            ret_code response <> 0))
  | None =>
      success (result (getAndProcessAllOrders getAllOrders initialPage pageSize)) = false /\
      message (result (getAndProcessAllOrders getAllOrders initialPage pageSize)) <> None /\
      ((requested (getAndProcessAllOrders getAllOrders initialPage pageSize) = [initialPage] /\
        ~ answers getAllOrders initialPage) \/
       (exists g m,
           requested (getAndProcessAllOrders getAllOrders initialPage pageSize)
           = seq initialPage (S (S g)) /\
           Forall (answers getAllOrders) (seq initialPage (S g)) /\
           getAllOrders (initialPage + S g)%nat = Throw m /\
           message (result (getAndProcessAllOrders getAllOrders initialPage pageSize))
           = Some m) \/
       (message (result (getAndProcessAllOrders getAllOrders initialPage pageSize))
        = Some cannotReadCount /\
        exists page tx,
          In page (requested (getAndProcessAllOrders getAllOrders initialPage pageSize)) /\
          In tx (itemsAt getAllOrders page) /\
          inherited (coinOf tx) = true))
  end.
Proof.
  (* what [finish] gives on the orders of the first pages *)
  assert (Hfinish : forall g asked,
             Forall (answers getAllOrders) (seq initialPage (S g)) ->
             (asked = seq initialPage (S g) \/
              (asked = seq initialPage (S (S g)) /\
               exists response,
                 getAllOrders (initialPage + S g)%nat = Ok response /\
                 ret_code response <> 0)) ->
             match data (result (finish (flat_map (itemsAt getAllOrders)
                                           (seq initialPage (S g))) asked g)) with
             | Some d =>
                 success (result (finish (flat_map (itemsAt getAllOrders)
                                            (seq initialPage (S g))) asked g)) = true /\
                 exists g0,
                   Forall (answers getAllOrders) (seq initialPage (S g0)) /\
                   transactions d = flat_map (itemsAt getAllOrders) (seq initialPage (S g0)) /\
                   totalCount d = List.length (transactions d) /\
                   pauses (finish (flat_map (itemsAt getAllOrders)
                                     (seq initialPage (S g))) asked g) = g0 /\
                   (requested (finish (flat_map (itemsAt getAllOrders)
                                         (seq initialPage (S g))) asked g)
                    = seq initialPage (S g0) \/
                    (requested (finish (flat_map (itemsAt getAllOrders)
                                          (seq initialPage (S g))) asked g)
                     = seq initialPage (S (S g0)) /\
                     exists response,
                       getAllOrders (initialPage + S g0)%nat = Ok response /\
                       ret_code response <> 0))
             | None =>
                 success (result (finish (flat_map (itemsAt getAllOrders)
                                            (seq initialPage (S g))) asked g)) = false /\
                 message (result (finish (flat_map (itemsAt getAllOrders)
                                            (seq initialPage (S g))) asked g)) <> None /\
                 ((requested (finish (flat_map (itemsAt getAllOrders)
                                        (seq initialPage (S g))) asked g) = [initialPage] /\
                   ~ answers getAllOrders initialPage) \/
                  (exists g0 m,
                      requested (finish (flat_map (itemsAt getAllOrders)
                                           (seq initialPage (S g))) asked g)
                      = seq initialPage (S (S g0)) /\
                      Forall (answers getAllOrders) (seq initialPage (S g0)) /\
                      getAllOrders (initialPage + S g0)%nat = Throw m /\
                      message (result (finish (flat_map (itemsAt getAllOrders)
                                                 (seq initialPage (S g))) asked g))
                      = Some m) \/
                  (message (result (finish (flat_map (itemsAt getAllOrders)
                                              (seq initialPage (S g))) asked g))
                   = Some cannotReadCount /\
                   exists page tx,
                     In page (requested (finish (flat_map (itemsAt getAllOrders)
                                                   (seq initialPage (S g))) asked g)) /\
                     In tx (itemsAt getAllOrders page) /\
                     inherited (coinOf tx) = true))
             end).
  { intros g asked Hgood Hasked. unfold finish.
    pose proof (processTransactions_result
                  (flat_map (itemsAt getAllOrders) (seq initialPage (S g)))) as Hsum.
    destruct (processTransactions (flat_map (itemsAt getAllOrders) (seq initialPage (S g))))
      as [d | m]; cbn [result data success message requested pauses failed].
    - destruct Hsum as [Htx Hcount]. split; [reflexivity |]. exists g.
      split; [exact Hgood |]. split; [exact Htx |].
      split; [rewrite Hcount, Htx; reflexivity |]. split; [reflexivity | exact Hasked].
    - destruct Hsum as (-> & tx & Hin & Hinh).
      split; [reflexivity |]. split; [discriminate |]. right. right.
      split; [reflexivity |].
      apply in_flat_map in Hin. destruct Hin as (page & Hpage & Htx).
      exists page, tx. split; [| split; assumption].
      destruct Hasked as [-> | [-> _]]; [exact Hpage |].
      apply in_seq in Hpage. apply in_seq. lia. }
  assert (Hfailed : forall m,
             ~ answers getAllOrders initialPage ->
             success (result (failed m [initialPage] O)) = false /\
             message (result (failed m [initialPage] O)) <> None /\
             ((requested (failed m [initialPage] O) = [initialPage] /\
               ~ answers getAllOrders initialPage) \/
              (exists g0 m0,
                  requested (failed m [initialPage] O) = seq initialPage (S (S g0)) /\
                  Forall (answers getAllOrders) (seq initialPage (S g0)) /\
                  getAllOrders (initialPage + S g0)%nat = Throw m0 /\
                  message (result (failed m [initialPage] O)) = Some m0) \/
              (message (result (failed m [initialPage] O)) = Some cannotReadCount /\
               exists page tx,
                 In page (requested (failed m [initialPage] O)) /\
                 In tx (itemsAt getAllOrders page) /\
                 inherited (coinOf tx) = true))).
  { intros m Hno. cbn. split; [reflexivity |]. split; [discriminate |]. left. auto. }
  unfold getAndProcessAllOrders.
  destruct (getAllOrders initialPage) as [response | m] eqn:Hfirst.
  - destruct (Z.eqb_spec (ret_code response) 0) as [Hcode | Hcode]; cbn [negb].
    + assert (Hhere : answers getAllOrders initialPage) by (exists response; auto).
      assert (Hitems : itemsAt getAllOrders initialPage = itemsOf response)
        by (unfold itemsAt; rewrite Hfirst; reflexivity).
      cbv zeta.
      destruct ((pageSize <? countOf response)%nat && (0 <? countOf response)%nat)%bool.
      * destruct (furtherPages_spec getAllOrders
                    (totalPagesOf (countOf response) pageSize - initialPage)
                    (S initialPage) (itemsOf response) [initialPage] O)
          as (k & out & paused' & Hrun & _ & Hout).
        rewrite Hrun. destruct out as [all' | m].
        -- destruct Hout as (g & Hgood & -> & -> & Hend).
           rewrite <- Hitems.
           change (itemsAt getAllOrders initialPage
                   ++ flat_map (itemsAt getAllOrders) (seq (S initialPage) g))
             with (flat_map (itemsAt getAllOrders) (seq initialPage (S g))).
           apply Hfinish; [constructor; assumption |].
           destruct Hend as [[-> _] | (-> & r & Hr & Hbad)]; [left; reflexivity |].
           right. split; [reflexivity |]. exists r.
           rewrite Nat.add_succ_r. auto.
        -- destruct Hout as (g & -> & Hthrow & Hgood & ->).
           cbn [result data success message requested failed].
           split; [reflexivity |]. split; [discriminate |]. right. left.
           exists g, m. split; [reflexivity |].
           split; [constructor; assumption |].
           rewrite Nat.add_succ_r. auto.
      * replace (itemsOf response)
          with (flat_map (itemsAt getAllOrders) (seq initialPage 1))
          by (cbn [seq flat_map]; rewrite app_nil_r; exact Hitems).
        apply Hfinish; [constructor; [exact Hhere | constructor] | left; reflexivity].
    + apply Hfailed. intros (r & Hr & Hzero). congruence.
  - apply Hfailed. intros (r & Hr & _). congruence.
Qed.

(** X25.  When every page answers with [ret_code] 0, a fetch from page 1
    with a positive page size asks for pages 1 to the count of the first
    answer divided by the page size, rounded up, at most 100 and at least
    one; what lies beyond page 100 is left out without a word.  It then
    gives the orders of those pages, unless one of them names a token like
    an inherited property. *)
Theorem paged_fetch_covers
    (getAllOrders : Pages) (pageSize : nat) (first : ApiResponse)
    (Hall : forall page, answers getAllOrders page)
    (Hfirst : getAllOrders 1%nat = Ok first)
    (Hsize : (0 < pageSize)%nat) :
  requested (getAndProcessAllOrders getAllOrders 1 pageSize)
  = seq 1 (Nat.max 1 (Nat.min ((countOf first + pageSize - 1) / pageSize) 100)) /\
  pauses (getAndProcessAllOrders getAllOrders 1 pageSize)
  = (Nat.max 1 (Nat.min ((countOf first + pageSize - 1) / pageSize) 100) - 1)%nat /\
  ((100 * pageSize < countOf first)%nat ->
   requested (getAndProcessAllOrders getAllOrders 1 pageSize) = seq 1 100) /\
  match data (result (getAndProcessAllOrders getAllOrders 1 pageSize)) with
  | Some d =>
      transactions d
      = flat_map (itemsAt getAllOrders)
          (requested (getAndProcessAllOrders getAllOrders 1 pageSize))
  | None =>
      message (result (getAndProcessAllOrders getAllOrders 1 pageSize))
      = Some cannotReadCount
  end.
Proof.
  assert (Hnz : pageSize <> O) by lia.
  assert (Hcode : ret_code first = 0).
  { destruct (Hall 1%nat) as (r & Hr & Hzero). congruence. }
  assert (Hitems : itemsAt getAllOrders 1%nat = itemsOf first)
    by (unfold itemsAt; rewrite Hfirst; reflexivity).
  assert (Hdata : forall all asked paused,
             all = flat_map (itemsAt getAllOrders) asked ->
             match data (result (finish all asked paused)) with
             | Some d => transactions d = flat_map (itemsAt getAllOrders) asked
             | None => message (result (finish all asked paused)) = Some cannotReadCount
             end).
  { intros all asked paused ->. unfold finish.
    pose proof (processTransactions_result (flat_map (itemsAt getAllOrders) asked)) as H.
    destruct (processTransactions (flat_map (itemsAt getAllOrders) asked)) as [d | m]; cbn.
    - apply H.
    - destruct H as [-> _]. reflexivity. }
  assert (Hreq : forall all asked paused, requested (finish all asked paused) = asked)
    by (intros; unfold finish; destruct (processTransactions all); reflexivity).
  assert (Hpau : forall all asked paused, pauses (finish all asked paused) = paused)
    by (intros; unfold finish; destruct (processTransactions all); reflexivity).
  unfold getAndProcessAllOrders. rewrite Hfirst, Hcode. cbn [Z.eqb negb]. cbv zeta.
  destruct ((pageSize <? countOf first)%nat && (0 <? countOf first)%nat)%bool eqn:Hmore.
  - apply andb_true_iff in Hmore. destruct Hmore as [Hlt _]. apply Nat.ltb_lt in Hlt.
    assert (Htwo : (2 <= (countOf first + pageSize - 1) / pageSize)%nat)
      by (apply Nat.div_le_lower_bound; [exact Hnz | lia]).
    assert (Htotal : totalPagesOf (countOf first) pageSize
                     = Nat.min ((countOf first + pageSize - 1) / pageSize) 100)
      by (unfold totalPagesOf, maxPages; destruct pageSize; [lia | reflexivity]).
    destruct (furtherPages_spec getAllOrders
                (totalPagesOf (countOf first) pageSize - 1) 2 (itemsOf first) [1%nat] O)
      as (k & out & paused' & Hrun & _ & Hout).
    rewrite Hrun, Htotal in *.
    destruct out as [all' | m].
    + destruct Hout as (g & _ & -> & -> & [[-> ->] | (_ & r & Hr & Hbad)]).
      * rewrite Hreq, Hpau.
        replace (Nat.max 1 (Nat.min ((countOf first + pageSize - 1) / pageSize) 100))
          with (S (Nat.min ((countOf first + pageSize - 1) / pageSize) 100 - 1)) by lia.
        split; [reflexivity |]. split; [lia |]. split.
        -- intros Hbig.
           assert (H100 : (100 <= (countOf first + pageSize - 1) / pageSize)%nat)
             by (apply Nat.div_le_lower_bound; [exact Hnz | lia]).
           replace (Nat.min ((countOf first + pageSize - 1) / pageSize) 100) with 100%nat
             by lia.
           reflexivity.
        -- apply Hdata. cbn [app seq flat_map]. rewrite Hitems. reflexivity.
      * exfalso. destruct (Hall (2 + g)%nat) as (r' & Hr' & Hzero). congruence.
    + exfalso. destruct Hout as (g & _ & Hthrow & _).
      destruct (Hall (2 + g)%nat) as (r' & Hr' & _). congruence.
  - rewrite Hreq, Hpau.
    assert (Hle : (countOf first <= pageSize)%nat).
    { apply andb_false_iff in Hmore. destruct Hmore as [H | H].
      - apply Nat.ltb_ge in H. exact H.
      - apply Nat.ltb_ge in H. lia. }
    assert (Hone : ((countOf first + pageSize - 1) / pageSize < 2)%nat)
      by (apply Nat.Div0.div_lt_upper_bound; lia).
    replace (Nat.max 1 (Nat.min ((countOf first + pageSize - 1) / pageSize) 100))
      with 1%nat by lia.
    split; [reflexivity |]. split; [reflexivity |]. split; [intros Hbig; lia |].
    apply Hdata. cbn [flat_map]. rewrite Hitems, app_nil_r. reflexivity.
Qed.

(** The theorem at an exchange that counts 45 orders and answers every page
    with the same two. *)
Lemma paged_fetch_covers_witness :
  requested
    (getAndProcessAllOrders
       (fun _ => Ok {| ret_code := 0; ret_msg := None; count := Some 45%nat;
                       items := Some [Samples.order 1 50 "A" "1.5" "45000" "30000";
                                      Samples.order 0 50 "B" "2" "60000" "30000"] |})
       1 20)
  = seq 1 (Nat.max 1 (Nat.min ((45 + 20 - 1) / 20) 100)) /\
  pauses
    (getAndProcessAllOrders
       (fun _ => Ok {| ret_code := 0; ret_msg := None; count := Some 45%nat;
                       items := Some [Samples.order 1 50 "A" "1.5" "45000" "30000";
                                      Samples.order 0 50 "B" "2" "60000" "30000"] |})
       1 20)
  = (Nat.max 1 (Nat.min ((45 + 20 - 1) / 20) 100) - 1)%nat /\
  ((100 * 20 < 45)%nat ->
   requested
     (getAndProcessAllOrders
        (fun _ => Ok {| ret_code := 0; ret_msg := None; count := Some 45%nat;
                        items := Some [Samples.order 1 50 "A" "1.5" "45000" "30000";
                                       Samples.order 0 50 "B" "2" "60000" "30000"] |})
        1 20)
   = seq 1 100) /\
  match data
          (result
             (getAndProcessAllOrders
                (fun _ => Ok {| ret_code := 0; ret_msg := None; count := Some 45%nat;
                                items := Some [Samples.order 1 50 "A" "1.5" "45000" "30000";
                                               Samples.order 0 50 "B" "2" "60000" "30000"] |})
                1 20)) with
  | Some d =>
      transactions d
      = flat_map
          (itemsAt
             (fun _ => Ok {| ret_code := 0; ret_msg := None; count := Some 45%nat;
                             items := Some [Samples.order 1 50 "A" "1.5" "45000" "30000";
                                            Samples.order 0 50 "B" "2" "60000" "30000"] |}))
          (requested
             (getAndProcessAllOrders
                (fun _ => Ok {| ret_code := 0; ret_msg := None; count := Some 45%nat;
                                items := Some [Samples.order 1 50 "A" "1.5" "45000" "30000";
                                               Samples.order 0 50 "B" "2" "60000" "30000"] |})
                1 20))
  | None =>
      message
        (result
           (getAndProcessAllOrders
              (fun _ => Ok {| ret_code := 0; ret_msg := None; count := Some 45%nat;
                              items := Some [Samples.order 1 50 "A" "1.5" "45000" "30000";
                                             Samples.order 0 50 "B" "2" "60000" "30000"] |})
              1 20))
      = Some cannotReadCount
  end.
Proof.
  apply (paged_fetch_covers
           (fun _ => Ok {| ret_code := 0; ret_msg := None; count := Some 45%nat;
                           items := Some [Samples.order 1 50 "A" "1.5" "45000" "30000";
                                          Samples.order 0 50 "B" "2" "60000" "30000"] |})
           20
           {| ret_code := 0; ret_msg := None; count := Some 45%nat;
              items := Some [Samples.order 1 50 "A" "1.5" "45000" "30000";
                             Samples.order 0 50 "B" "2" "60000" "30000"] |}).
  - intros page. eexists. split; reflexivity.
  - reflexivity.
  - lia.
Defined.

End PagedFacts.


(** ** Further properties of the user synchronisation *)

Section UserFacts.

Import SyncService.
Import Notions.

(** A sale the saving loop leaves alone has its row. *)
Lemma settled_found (uid : Z) (tx : Bybit.Order) (tbl : Table) :
  Bybit.side tx = 1 -> Bybit.status tx = 50 ->
  Js.or_else (Bybit.id tx) (Js.or_else (Bybit.orderId tx) "") <> "" ->
  settled uid tx tbl ->
  findFirst (Js.or_else (Bybit.id tx) (Js.or_else (Bybit.orderId tx) "")) uid tbl <> None.
Proof.
  intros Hside Hstatus Hno Hsettled Hnone.
  specialize (Hsettled 0 O). unfold saveOne in Hsettled.
  rewrite Hside, Hstatus in Hsettled. cbn [Z.eqb Pos.eqb negb orb] in Hsettled.
  apply String.eqb_neq in Hno. rewrite Hno, Hnone in Hsettled.
  injection Hsettled as _ Hcount. discriminate Hcount.
Qed.

(** X27.  After a run of the per-user synchronisation, every order handed
    to the saving loop that is a completed sale (side 1, status 50) with an
    order number, taken from [id] or else from [orderId], is in the table:
    the lookup by that number and the user finds a row that carries them.
    The creation date of the order is taken to be one the runtime can
    print, as the loop logs it before it stores the row. *)
Theorem user_sync_stores_sales
    (env : Env) (now : Z) (user : User) (tbl : Table) (tx : Bybit.Order)
    (Hin : In tx (batch env user))
    (Hside : Bybit.side tx = 1)
    (Hstatus : Bybit.status tx = 50)
    (Hno : Js.or_else (Bybit.id tx) (Js.or_else (Bybit.orderId tx) "") <> "")
    (Hdate : forall t,
        Js.parseInt false (Js.or_else (Bybit.createDate tx) "0") = Some t ->
        Terms.printable t = true) :
  exists r,
    findFirst (Js.or_else (Bybit.id tx) (Js.or_else (Bybit.orderId tx) "")) (id user)
      (table (syncUserTransactions env now user tbl)) = Some r /\
    In r (table (syncUserTransactions env now user tbl)) /\
    orderNo r = Js.or_else (Bybit.id tx) (Js.or_else (Bybit.orderId tx) "") /\
    userId r = id user.
Proof.
  assert (Htable : table (syncUserTransactions env now user tbl)
                   = fst (saveAll now (id user) (batch env user) tbl O))
    by (rewrite <- sync_saves; reflexivity).
  rewrite Htable.
  pose proof (saveAll_settles now (id user) (batch env user) tbl O tx Hin) as Hsettled.
  pose proof (settled_found (id user) tx _ Hside Hstatus Hno Hsettled) as Hfound.
  destruct (findFirst _ (id user) (fst (saveAll now (id user) (batch env user) tbl O)))
    as [r |] eqn:Hr; [| contradiction].
  exists r. split; [reflexivity |].
  unfold findFirst in Hr. apply find_some in Hr. destruct Hr as [Hrin Hkey].
  apply andb_true_iff in Hkey. destruct Hkey as [Hk1 Hk2].
  apply String.eqb_eq in Hk1. apply Z.eqb_eq in Hk2. auto.
Qed.

(** The theorem at a run whose first page holds one sale. *)
Lemma user_sync_stores_sales_witness :
  exists r,
    findFirst
      (Js.or_else (Bybit.id (Samples.order 1 50 "A" "0" "1.5" "30000"))
         (Js.or_else (Bybit.orderId (Samples.order 1 50 "A" "0" "1.5" "30000")) ""))
      (id Samples.alice)
      (table (syncUserTransactions Samples.oneSale 1700000000000 Samples.alice []))
    = Some r /\
    In r (table (syncUserTransactions Samples.oneSale 1700000000000 Samples.alice [])) /\
    orderNo r
    = Js.or_else (Bybit.id (Samples.order 1 50 "A" "0" "1.5" "30000"))
        (Js.or_else (Bybit.orderId (Samples.order 1 50 "A" "0" "1.5" "30000")) "") /\
    userId r = id Samples.alice.
Proof.
  apply (user_sync_stores_sales Samples.oneSale 1700000000000 Samples.alice []
           (Samples.order 1 50 "A" "0" "1.5" "30000")).
  - left. reflexivity.
  - reflexivity.
  - reflexivity.
  - discriminate.
  - intros t Ht. vm_compute in Ht. injection Ht as <-. reflexivity.
Defined.

End UserFacts.


(** ** The export script *)

Section ScriptFacts.

Import Script.

Variable rowText : Bybit.Order -> Phone.text.

Lemma exportRows_result (existing : option Phone.text) (attempts : list Attempt)
    (txs : list Bybit.Order) :
  txs <> [] ->
  exportRows rowText existing attempts txs
  = {| asked := attempts;
       written := if (readable existing && forallb validDate txs)%bool
                  then Some (join (headerOf existing) (map rowText txs))
                  else None |}.
Proof.
  intros Hsome. unfold exportRows, readable, headerOf, firstLine.
  destruct txs as [| tx rest]; [contradiction |].
  destruct existing as [fileContent |].
  - destruct (split fileContent) as [first others]. cbn [fst snd].
    destruct (existingParsed others); cbn [negb andb]; [| reflexivity].
    destruct (forallb validDate (tx :: rest)); reflexivity.
  - cbn [negb andb]. destruct (forallb validDate (tx :: rest)); reflexivity.
Qed.

Lemma pageTransactions_some (result : Bybit.ProcessResult) (txs : list Bybit.Order) :
  SyncService.pageTransactions result = Some txs -> txs <> [].
Proof.
  unfold SyncService.pageTransactions.
  destruct (Bybit.success result); [| discriminate].
  destruct (Bybit.data result) as [d |]; [| discriminate].
  destruct (Bybit.transactions d); [discriminate |].
  intros H. injection H as <-. discriminate.
Qed.

(** The run, by the first attempt that did not answer without orders. *)
Lemma script_cases (ask : Attempt -> res Bybit.ProcessResult)
    (existing : option Phone.text) :
  exists attempts final,
    (attempts = [] /\ final = WithoutTime \/
     attempts = [WithoutTime] /\ final = OneDay \/
     attempts = [WithoutTime; OneDay] /\ final = Minimal) /\
    (forall a, In a attempts ->
               exists result, ask a = Ok result /\
                              SyncService.pageTransactions result = None) /\
    asked (processCompletedTransactions rowText ask existing) = attempts ++ [final] /\
    written (processCompletedTransactions rowText ask existing)
    = match fetched ask final with
      | Some txs =>
          if (readable existing && forallb validDate txs)%bool
          then Some (join (headerOf existing) (map rowText txs))
          else None
      | None => None
      end /\
    (final <> Minimal -> fetched ask final <> None \/ exists m, ask final = Throw m).
Proof.
  unfold processCompletedTransactions, fetched.
  destruct (ask WithoutTime) as [r1 |] eqn:H1.
  - destruct (SyncService.pageTransactions r1) as [txs |] eqn:P1.
    + exists [], WithoutTime. rewrite H1, P1.
      rewrite (exportRows_result _ _ _ (pageTransactions_some _ _ P1)).
      split; [auto |]. split; [intros a [] |]. split; [reflexivity |].
      split; [reflexivity |]. intros _. left. discriminate.
    + destruct (ask OneDay) as [r2 |] eqn:H2.
      * destruct (SyncService.pageTransactions r2) as [txs |] eqn:P2.
        -- exists [WithoutTime], OneDay. rewrite H2, P2.
           rewrite (exportRows_result _ _ _ (pageTransactions_some _ _ P2)).
           split; [auto |]. split.
           ++ intros a [<- | []]. exists r1. auto.
           ++ split; [reflexivity |]. split; [reflexivity |]. intros _. left. discriminate.
        -- assert (Hnone : forall a, In a [WithoutTime; OneDay] ->
                      exists result, ask a = Ok result /\
                                     SyncService.pageTransactions result = None).
           { intros a [<- | [<- | []]]; eauto. }
           exists [WithoutTime; OneDay], Minimal.
           destruct (ask Minimal) as [r3 |] eqn:H3.
           ++ destruct (SyncService.pageTransactions r3) as [txs |] eqn:P3.
              ** rewrite (exportRows_result _ _ _ (pageTransactions_some _ _ P3)).
                 split; [auto |]. split; [exact Hnone |]. split; [reflexivity |].
                 split; [reflexivity |]. intros H. contradiction.
              ** split; [auto |]. split; [exact Hnone |]. split; [reflexivity |].
                 split; [reflexivity |]. intros H. contradiction.
           ++ split; [auto |]. split; [exact Hnone |]. split; [reflexivity |].
              split; [reflexivity |]. intros H. contradiction.
      * exists [WithoutTime], OneDay. rewrite H2.
        split; [auto |]. split.
        -- intros a [<- | []]. exists r1. auto.
        -- split; [reflexivity |]. split; [reflexivity |]. intros _. right. eauto.
  - exists [], WithoutTime. rewrite H1.
    split; [auto |]. split; [intros a [] |]. split; [reflexivity |].
    split; [reflexivity |]. intros _. right. eauto.
Qed.

(** X28.  The export script makes its attempts in a fixed order: without
    time bounds, over the last day, with the least parameters.  It goes to
    the next attempt only after an answer without orders, stops at the
    first attempt that gives orders or throws, and writes the file only
    when its last attempt gave orders. *)
Theorem export_attempts (ask : Attempt -> res Bybit.ProcessResult)
    (existing : option Phone.text) :
  (asked (processCompletedTransactions rowText ask existing) = [WithoutTime] \/
   asked (processCompletedTransactions rowText ask existing) = [WithoutTime; OneDay] \/
   asked (processCompletedTransactions rowText ask existing)
   = [WithoutTime; OneDay; Minimal]) /\
  (forall a,
      In a (removelast (asked (processCompletedTransactions rowText ask existing))) ->
      exists result,
        ask a = Ok result /\ SyncService.pageTransactions result = None) /\
  ((List.length (asked (processCompletedTransactions rowText ask existing)) < 3)%nat ->
   fetched ask (last (asked (processCompletedTransactions rowText ask existing)) WithoutTime)
   <> None \/
   exists m,
     ask (last (asked (processCompletedTransactions rowText ask existing)) WithoutTime)
     = Throw m) /\
  (written (processCompletedTransactions rowText ask existing) <> None ->
   fetched ask (last (asked (processCompletedTransactions rowText ask existing)) WithoutTime)
   <> None).
Proof.
  destruct (script_cases ask existing)
    as (attempts & final & Hshape & Hnone & Hasked & Hwritten & Hstop).
  rewrite Hasked, Hwritten, removelast_last, last_last.
  split; [| split; [exact Hnone | split]].
  - destruct Hshape as [[-> ->] | [[-> ->] | [-> ->]]]; auto.
  - intros Hlen. apply Hstop.
    destruct Hshape as [[-> ->] | [[-> ->] | [-> ->]]];
      [discriminate | discriminate | cbn in Hlen; lia].
  - destruct (fetched ask final); [discriminate | intros H; contradiction].
Qed.

(** X29.  When the export script writes the file, the file is a header
    followed by the rows of the orders of its last attempt, and nothing
    else: the header is the first line of the file that was there, or the
    default one, and the rows that were there are gone.  It writes nothing
    when a row that was there, not blank, holds no comma, or when an order
    has no valid date.  Two files with the same first line, both readable,
    lead to the same result. *)
Theorem export_overwrites (ask : Attempt -> res Bybit.ProcessResult)
    (existing : option Phone.text) :
  written (processCompletedTransactions rowText ask existing)
  = match fetched ask
            (last (asked (processCompletedTransactions rowText ask existing)) WithoutTime)
    with
    | Some txs =>
        if (readable existing && forallb validDate txs)%bool
        then Some (join (headerOf existing) (map rowText txs))
        else None
    | None => None
    end /\
  forall other,
    headerOf other = headerOf existing ->
    readable other = readable existing ->
    processCompletedTransactions rowText ask other
    = processCompletedTransactions rowText ask existing.
Proof.
  split.
  - destruct (script_cases ask existing)
      as (attempts & final & _ & _ & Hasked & Hwritten & _).
    rewrite Hasked, Hwritten, last_last. reflexivity.
  - intros other Hheader Hreadable.
    assert (Hrows : forall attempts txs,
               txs <> [] ->
               exportRows rowText other attempts txs
               = exportRows rowText existing attempts txs).
    { intros attempts txs Hsome.
      rewrite !exportRows_result by exact Hsome.
      rewrite Hheader, Hreadable. reflexivity. }
    unfold processCompletedTransactions.
    destruct (ask WithoutTime) as [r1 |]; [| reflexivity].
    destruct (SyncService.pageTransactions r1) as [txs |] eqn:P1;
      [apply Hrows; exact (pageTransactions_some _ _ P1) |].
    destruct (ask OneDay) as [r2 |]; [| reflexivity].
    destruct (SyncService.pageTransactions r2) as [txs |] eqn:P2;
      [apply Hrows; exact (pageTransactions_some _ _ P2) |].
    destruct (ask Minimal) as [r3 |]; [| reflexivity].
    destruct (SyncService.pageTransactions r3) as [txs |] eqn:P3;
      [apply Hrows; exact (pageTransactions_some _ _ P3) | reflexivity].
Qed.

End ScriptFacts.
